(** * Bounded responses and the Claude conversation bridge of playwright-mcp-smart

    A shallow embedding of
      - the [Response] class: result/code/image accumulation, the token
        budget check, pagination advice, snapshot truncation, serialization;
      - the list tools [browser_console_messages] and
        [browser_network_requests];
      - the two [browser_evaluate] handlers;
      - [ClaudeDelegate] (createConversation, the message translation of
        makeApiCall, checkDoneToolCall).

    Conventions.  A JavaScript string is a sequence of code units; it is
    modelled by [string], each [ascii] standing for one unit, so [.length],
    [.substring], [.slice] and [+] act on units exactly as in the source.
    Literals that contain characters outside ASCII are written as they are in
    the source; such a literal is a few units longer here than in JavaScript,
    and no statement below depends on the length of a literal.  JavaScript
    numbers that hold lengths, counts and indices are modelled by [Z]. *)

From Stdlib Require Import ZArith List Bool Lia.
From Stdlib Require Import Strings.String Strings.Ascii Numbers.DecimalString.
Import ListNotations.

Local Open Scope string_scope.
Local Open Scope Z_scope.

(** ** JavaScript built-ins used by the source *)

Module JS.

(** [s.length] *)
Definition len (s : string) : Z := Z.of_nat (String.length s).

(** [a.length] for arrays *)
Definition alen {A} (l : list A) : Z := Z.of_nat (List.length l).

(** [Math.ceil(a / b)] for an integer [a] and a positive integer [b]. *)
Definition ceil_div (a b : Z) : Z :=
  if a mod b =? 0 then a / b else a / b + 1.

(** [Math.floor(a / b)] for a positive integer [b]. *)
Definition floor_div (a b : Z) : Z := a / b.

(** Template-literal / [String(n)] rendering of an integer. *)
Definition num (n : Z) : string := NilZero.string_of_int (Z.to_int n).

(** [arr.join(sep)] on an array of strings. *)
Definition join (sep : string) (l : list string) : string := String.concat sep l.

(** Relative index resolution shared by [slice] on strings and arrays:
    a negative index counts from the end, and the result is clamped to
    [0 .. n]. *)
Definition rel_index (i n : Z) : Z :=
  if i <? 0 then Z.max (n + i) 0 else Z.min i n.

(** [Array.prototype.slice(start, end)] *)
Definition slice {A} (start stop : Z) (l : list A) : list A :=
  let n := alen l in
  let k := rel_index start n in
  let final := rel_index stop n in
  firstn (Z.to_nat (final - k)) (skipn (Z.to_nat k) l).

(** [String.prototype.slice(start, end)] *)
Definition str_slice (start stop : Z) (s : string) : string :=
  let n := len s in
  let k := rel_index start n in
  let final := rel_index stop n in
  String.substring (Z.to_nat k) (Z.to_nat (final - k)) s.

(** [String.prototype.substring(start, end)]: negative arguments count as 0,
    arguments are clamped to the length and swapped when out of order. *)
Definition substring (start stop : Z) (s : string) : string :=
  let n := len s in
  let a := Z.min (Z.max start 0) n in
  let b := Z.min (Z.max stop 0) n in
  let lo := Z.min a b in
  let hi := Z.max a b in
  String.substring (Z.to_nat lo) (Z.to_nat (hi - lo)) s.

(** The line feed, the double quote and the backslash, as one-unit strings. *)
Definition nl : string := String (ascii_of_nat 10) EmptyString.
Definition dq : string := String (ascii_of_nat 34) EmptyString.
Definition bs : string := String (ascii_of_nat 92) EmptyString.

(** Truthiness of a string ([if (s)]). *)
Definition truthy_str (s : string) : bool :=
  match s with EmptyString => false | _ => true end.

(** Values that tool arguments and JSON documents hold. *)
#[local] Set Warnings "-register-all".
Inductive value : Type :=
| VNull
| VBool (b : bool)
| VNum (n : Z)
| VStr (s : string)
| VArr (l : list value)
| VObj (o : list (string * value)).

(** An object is its own properties in property order. *)
Definition object : Type := list (string * value).

Definition truthy (v : value) : bool :=
  match v with
  | VNull => false
  | VBool b => b
  | VNum n => negb (n =? 0)
  | VStr s => truthy_str s
  | VArr _ | VObj _ => true
  end.

(** [o.k] *)
Fixpoint get (k : string) (o : object) : option value :=
  match o with
  | [] => None
  | (k', v) :: o' => if String.eqb k k' then Some v else get k o'
  end.

(** [delete o.k] *)
Fixpoint delete (k : string) (o : object) : object :=
  match o with
  | [] => []
  | (k', v) :: o' => if String.eqb k k' then delete k o' else (k', v) :: delete k o'
  end.

(** [o.k = v]: an existing property keeps its place, a new one goes last. *)
Fixpoint set (k : string) (v : value) (o : object) : object :=
  match o with
  | [] => [(k, v)]
  | (k', v') :: o' => if String.eqb k k' then (k', v) :: o' else (k', v') :: set k v o'
  end.

(** [{ ...a, ...b }]: the properties of [b] are assigned over a copy of [a]
    (objects are values here, so the copy of [a] is [a]). *)
Definition spread (a b : object) : object :=
  fold_left (fun acc kv => set (fst kv) (snd kv) acc) b a.

(** *** JSON.stringify *)

Definition hex_digit (n : N) : ascii :=
  match n with
  | 0 => "0" | 1 => "1" | 2 => "2" | 3 => "3" | 4 => "4" | 5 => "5" | 6 => "6"
  | 7 => "7" | 8 => "8" | 9 => "9" | 10 => "a" | 11 => "b" | 12 => "c"
  | 13 => "d" | 14 => "e" | _ => "f"
  end%N%char.

(** One unit of a string inside a JSON string literal. *)
Definition escape_unit (c : ascii) : string :=
  let n := N_of_ascii c in
  if (n =? 34)%N then bs ++ dq
  else if (n =? 92)%N then bs ++ bs
  else if (n =? 8)%N then bs ++ "b"
  else if (n =? 9)%N then bs ++ "t"
  else if (n =? 10)%N then bs ++ "n"
  else if (n =? 12)%N then bs ++ "f"
  else if (n =? 13)%N then bs ++ "r"
  else if (n <? 32)%N then
    bs ++ "u00" ++ String (hex_digit (n / 16)) (String (hex_digit (n mod 16)) EmptyString)
  else String c EmptyString.

Fixpoint escape (s : string) : string :=
  match s with
  | EmptyString => EmptyString
  | String c s' => escape_unit c ++ escape s'
  end.

(** [JSON.stringify(s)] for a string [s]. *)
Definition quote (s : string) : string := dq ++ escape s ++ dq.

(** [JSON.stringify(v)] *)
Fixpoint stringify (v : value) : string :=
  match v with
  | VNull => "null"
  | VBool true => "true"
  | VBool false => "false"
  | VNum n => num n
  | VStr s => quote s
  | VArr l => "[" ++ join "," (map stringify l) ++ "]"
  | VObj o =>
      "{" ++ join "," (map (fun kv => let '(k, x) := kv in quote k ++ ":" ++ stringify x) o) ++ "}"
  end.

(** [JSON.stringify(v, null, gap)] at the current indentation [ind]. *)
Fixpoint stringify_gap (gap ind : string) (v : value) : string :=
  let ind' := ind ++ gap in
  match v with
  | VNull => "null"
  | VBool true => "true"
  | VBool false => "false"
  | VNum n => num n
  | VStr s => quote s
  | VArr [] => "[]"
  | VArr l =>
      "[" ++ nl ++ ind' ++ join ("," ++ nl ++ ind') (map (stringify_gap gap ind') l)
          ++ nl ++ ind ++ "]"
  | VObj [] => "{}"
  | VObj o =>
      "{" ++ nl ++ ind'
          ++ join ("," ++ nl ++ ind')
                  (map (fun kv => let '(k, x) := kv in
                                  quote k ++ ": " ++ stringify_gap gap ind' x) o)
          ++ nl ++ ind ++ "}"
  end.

(** [JSON.stringify(v, null, 2)] *)
Definition stringify2 (v : value) : string := stringify_gap "  " EmptyString v.

(** [s.toUpperCase()] on the letters a-z; other units are kept. *)
Definition upper_unit (c : ascii) : ascii :=
  let n := N_of_ascii c in
  if ((97 <=? n) && (n <=? 122))%N then ascii_of_N (n - 32) else c.

Fixpoint toUpperCase (s : string) : string :=
  match s with
  | EmptyString => EmptyString
  | String c s' => String (upper_unit c) (toUpperCase s')
  end.

(** [a !== s] for an optional string [a] and a string [s]. *)
Definition differs (a : option string) (s : string) : bool :=
  match a with
  | Some x => negb (String.eqb x s)
  | None => true
  end.

(** [a || d] on an optional number. *)
Definition num_or (a : option Z) (d : Z) : Z :=
  match a with
  | Some n => if n =? 0 then d else n
  | None => d
  end.

(** [!a] on an optional number. *)
Definition not_num (a : option Z) : bool :=
  match a with
  | Some n => n =? 0
  | None => true
  end.

(** [a!]: the number held by an optional field that is set where this is
    used; an unset field reads as 0. *)
Definition non_null (a : option Z) : Z :=
  match a with
  | Some n => n
  | None => 0
  end.

(** Truthiness of an optional boolean. *)
Definition truthy_bool (a : option bool) : bool :=
  match a with
  | Some b => b
  | None => false
  end.

(** [a || d] on a property that may be absent. *)
Definition or_default (a : option value) (d : value) : value :=
  match a with
  | Some x => if truthy x then x else d
  | None => d
  end.

(** [a * v] for an integer [a]; on the operands the source can reach here
    ([v] is a number) this is the product; any other operand is rendered as
    JSON renders NaN. *)
Definition times (a : Z) (v : value) : value :=
  match v with
  | VNum n => VNum (a * n)
  | _ => VNull
  end.

End JS.

Import JS.

(** ** The host: what the browser engine and the runtime provide *)

Record Tab := {
  isCurrentTab : bool;
  lastTitle : string;
  page_url : string
}.

Record Config := {
  imageResponses : option string
}.

Record Context := {
  tabs : list Tab;
  config : Config
}.

Record DownloadEntry := {
  finished : bool;
  suggestedFilename : string;
  outputFile : string
}.

(** tab.ts, context.ts, javascript.ts and utils.ts are outside this
    development; what the code calls from them, and from the runtime, is
    taken as an interface. *)
Class Host := {
  ModalState : Type;
  Buffer : Type;
  (** [renderModalStates(context, modalStates)] of tab.ts *)
  renderModalStates : Context -> list ModalState -> list string;
  (** [context.currentTab()] *)
  currentTab : Context -> option Tab;
  (** [tab.updateTitle()] *)
  updateTitle : Tab -> Tab;
  (** [javascript.quote(text)] of javascript.ts *)
  javascript_quote : string -> string;
  (** the text [generateLocator] of utils.ts resolves to for the locator
      [tab.refLocator({ ref, element })] *)
  generateLocator : string -> string -> string;
  (** [buffer.toString('base64')] *)
  toBase64 : Buffer -> string;
  (** [n.toLocaleString()] in the host's locale *)
  toLocaleString : Z -> string
}.

Record TabSnapshot `{Host} := {
  url : string;
  title : string;
  ariaSnapshot : string;
  modalStates : list ModalState;
  (** each console message through its [toString()] *)
  consoleMessages : list string;
  downloads : list DownloadEntry
}.

Record Image `{Host} := {
  contentType : string;
  data : Buffer
}.

Inductive Content : Type :=
| TextContent (text : string)
| ImageContent (data : string) (mimeType : string).

Record Serialized := {
  content : list Content;
  isError : option bool
}.

(** ** The [Response] class *)

Module Response.

Section WithHost.
Context `{Host}.

Record PaginationInfo := {
  pi_needsPagination : bool;
  pi_totalPages : option Z;
  pi_currentPage : option Z
}.

(** The fields of a [Response] object. *)
Record t := {
  _result : list string;
  _code : list string;
  _images : list Image;
  _context : Context;
  _includeSnapshot : bool;
  _includeTabs : bool;
  _tabSnapshot : option TabSnapshot;
  _paginationInfo : option PaginationInfo;
  toolName : string;
  toolArgs : object;
  _isError : option bool
}.

Definition TOKEN_LIMIT : Z := 22000.

Definition constructor (context : Context) (name : string) (args : object) : t :=
  {| _result := []; _code := []; _images := []; _context := context;
     _includeSnapshot := false; _includeTabs := false; _tabSnapshot := None;
     _paginationInfo := None; toolName := name; toolArgs := args;
     _isError := None |}.

Definition with_result (l : list string) (r : t) : t :=
  {| _result := l; _code := _code r; _images := _images r;
     _context := _context r; _includeSnapshot := _includeSnapshot r;
     _includeTabs := _includeTabs r; _tabSnapshot := _tabSnapshot r;
     _paginationInfo := _paginationInfo r; toolName := toolName r;
     toolArgs := toolArgs r; _isError := _isError r |}.

Definition addResult (result : string) (r : t) : t :=
  with_result (_result r ++ [result]) r.

Definition addError (error : string) (r : t) : t :=
  {| _result := _result r ++ [error]; _code := _code r; _images := _images r;
     _context := _context r; _includeSnapshot := _includeSnapshot r;
     _includeTabs := _includeTabs r; _tabSnapshot := _tabSnapshot r;
     _paginationInfo := _paginationInfo r; toolName := toolName r;
     toolArgs := toolArgs r; _isError := Some true |}.

Definition isError_ (r : t) : option bool := _isError r.

Definition result (r : t) : string := join nl (_result r).

Definition addCode (code : string) (r : t) : t :=
  {| _result := _result r; _code := _code r ++ [code]; _images := _images r;
     _context := _context r; _includeSnapshot := _includeSnapshot r;
     _includeTabs := _includeTabs r; _tabSnapshot := _tabSnapshot r;
     _paginationInfo := _paginationInfo r; toolName := toolName r;
     toolArgs := toolArgs r; _isError := _isError r |}.

Definition code (r : t) : string := join nl (_code r).

Definition addImage (image : Image) (r : t) : t :=
  {| _result := _result r; _code := _code r; _images := _images r ++ [image];
     _context := _context r; _includeSnapshot := _includeSnapshot r;
     _includeTabs := _includeTabs r; _tabSnapshot := _tabSnapshot r;
     _paginationInfo := _paginationInfo r; toolName := toolName r;
     toolArgs := toolArgs r; _isError := _isError r |}.

Definition images (r : t) : list Image := _images r.

Definition setIncludeSnapshot (r : t) : t :=
  {| _result := _result r; _code := _code r; _images := _images r;
     _context := _context r; _includeSnapshot := true;
     _includeTabs := _includeTabs r; _tabSnapshot := _tabSnapshot r;
     _paginationInfo := _paginationInfo r; toolName := toolName r;
     toolArgs := toolArgs r; _isError := _isError r |}.

Definition setIncludeTabs (r : t) : t :=
  {| _result := _result r; _code := _code r; _images := _images r;
     _context := _context r; _includeSnapshot := _includeSnapshot r;
     _includeTabs := true; _tabSnapshot := _tabSnapshot r;
     _paginationInfo := _paginationInfo r; toolName := toolName r;
     toolArgs := toolArgs r; _isError := _isError r |}.

Record TokenCheck := {
  needsPagination : bool;
  totalPages : option Z;
  message : option string
}.

(** [const estimatedTokens = Math.ceil(content.length / 4)] *)
Definition estimatedTokens (content : string) : Z := ceil_div (len content) 4.

(** [checkTokenLimit(content)] *)
Definition checkTokenLimit (content : string) : TokenCheck :=
  let estimatedTokens := estimatedTokens content in
  if estimatedTokens >? TOKEN_LIMIT then
    let totalPages := ceil_div estimatedTokens TOKEN_LIMIT in
    {| needsPagination := true;
       totalPages := Some totalPages;
       message := Some ("⚠️ 返回内容过大 (约" ++ toLocaleString estimatedTokens
                        ++ " tokens)，超出限制 (" ++ toLocaleString TOKEN_LIMIT
                        ++ " tokens)。需要分" ++ num totalPages ++ "页获取。") |}
  else
    {| needsPagination := false; totalPages := None; message := None |}.

Definition setPaginationInfo (needs : bool) (total current : option Z) (r : t) : t :=
  {| _result := _result r; _code := _code r; _images := _images r;
     _context := _context r; _includeSnapshot := _includeSnapshot r;
     _includeTabs := _includeTabs r; _tabSnapshot := _tabSnapshot r;
     _paginationInfo := Some {| pi_needsPagination := needs;
                                pi_totalPages := total;
                                pi_currentPage := current |};
     toolName := toolName r; toolArgs := toolArgs r; _isError := _isError r |}.

(** The body of the [for] loop of [addPaginationWarning], for one [page]:
    the line it adds to [message]. *)
Definition page_line (totalPages : Z) (baseParams : object) (page : Z) : string :=
  let offset := times (page - 1) (or_default (get "limit" baseParams) (VNum 100)) in
  let pageParams :=
    set "offset" offset
      (set "limit" (or_default (get "limit" baseParams) (VNum 100)) baseParams) in
  "页面" ++ num page ++ "/" ++ num totalPages ++ ": 使用参数 "
    ++ stringify (VObj pageParams) ++ nl.

(** [for (let page = ...; page <= Math.min(totalPages, 5); page++)]; the
    bound is at most 5, so five rounds of fuel from [page = 1] end the loop. *)
Fixpoint page_loop (fuel : nat) (totalPages : Z) (baseParams : object)
                   (page : Z) (message : string) : string :=
  match fuel with
  | O => message
  | S fuel' =>
      if page <=? Z.min totalPages 5 then
        page_loop fuel' totalPages baseParams (page + 1)
                  (message ++ page_line totalPages baseParams page)
      else message
  end.

(** [addPaginationWarning(totalPages, toolName, additionalParams = {})] *)
Definition addPaginationWarning (totalPages : Z) (name : string)
                                (additionalParams : object) (r : t) : t :=
  let baseParams := spread (toolArgs r) additionalParams in
  let baseParams := delete "limit" baseParams in
  let baseParams := delete "offset" baseParams in
  let message := "⚠️ 返回内容过大，建议分" ++ num totalPages ++ "页获取：" ++ nl ++ nl in
  let message := page_loop 5 totalPages baseParams 1 message in
  let message :=
    if totalPages >? 5 then
      message ++ "... (还有" ++ num (totalPages - 5) ++ "页)" ++ nl
    else message in
  let message := message ++ nl ++ "或考虑使用更小的limit值来减少每页数据量。" in
  addResult message r.

Definition with_tabSnapshot (ts : option TabSnapshot) (r : t) : t :=
  {| _result := _result r; _code := _code r; _images := _images r;
     _context := _context r; _includeSnapshot := _includeSnapshot r;
     _includeTabs := _includeTabs r; _tabSnapshot := ts;
     _paginationInfo := _paginationInfo r; toolName := toolName r;
     toolArgs := toolArgs r; _isError := _isError r |}.

Definition with_context (c : Context) (r : t) : t :=
  {| _result := _result r; _code := _code r; _images := _images r;
     _context := c; _includeSnapshot := _includeSnapshot r;
     _includeTabs := _includeTabs r; _tabSnapshot := _tabSnapshot r;
     _paginationInfo := _paginationInfo r; toolName := toolName r;
     toolArgs := toolArgs r; _isError := _isError r |}.

(** The warning block of [_createTruncatedSnapshot]. *)
Definition snapshot_warning (estimatedTokens : Z) : string :=
  nl ++ nl
  ++ "⚠️ SNAPSHOT TRUNCATED: Page snapshot was too large ("
  ++ toLocaleString estimatedTokens ++ " tokens, limit: "
  ++ toLocaleString TOKEN_LIMIT ++ ")." ++ nl
  ++ nl
  ++ "To get a complete snapshot, use browser_snapshot with filtering parameters:" ++ nl
  ++ "- {" ++ dq ++ "maxElements" ++ dq ++ ": 200} - Limit number of elements" ++ nl
  ++ "- {" ++ dq ++ "elementTypes" ++ dq ++ ": [" ++ dq ++ "button" ++ dq ++ ", "
  ++ dq ++ "textbox" ++ dq ++ ", " ++ dq ++ "link" ++ dq ++ ", " ++ dq ++ "heading"
  ++ dq ++ "]} - Filter by element types  " ++ nl
  ++ "- {" ++ dq ++ "skipLargeTexts" ++ dq
  ++ ": true} - Skip elements with large text content" ++ nl
  ++ "- Combine parameters for best results" ++ nl
  ++ nl
  ++ "--- TRUNCATED SNAPSHOT ABOVE ---".

(** [Math.floor(TOKEN_LIMIT * 4 * 0.8)]; the product is 70400. *)
Definition truncationPoint : Z := floor_div (TOKEN_LIMIT * 4 * 8) 10.

(** [_createTruncatedSnapshot(fullSnapshot, tokenCheck)] *)
Definition _createTruncatedSnapshot (fullSnapshot : TabSnapshot)
                                    (tokenCheck : TokenCheck) : TabSnapshot :=
  let estimatedTokens := estimatedTokens (ariaSnapshot fullSnapshot) in
  let truncatedAriaSnapshot :=
    substring 0 truncationPoint (ariaSnapshot fullSnapshot) in
  let warningMessage := snapshot_warning estimatedTokens in
  {| url := url fullSnapshot;
     title := title fullSnapshot;
     ariaSnapshot := truncatedAriaSnapshot ++ warningMessage;
     modalStates := modalStates fullSnapshot;
     consoleMessages := consoleMessages fullSnapshot;
     downloads := downloads fullSnapshot |}.

(** [finish()]; [tempSnapshot] is what [captureSnapshot()] resolves to. *)
Definition finish (tempSnapshot : option TabSnapshot) (r : t) : t :=
  let r :=
    if _includeSnapshot r
       && match currentTab (_context r) with Some _ => true | None => false end then
      match tempSnapshot with
      | Some temp =>
          if truthy_str (ariaSnapshot temp) then
            let tokenCheck := checkTokenLimit (ariaSnapshot temp) in
            if needsPagination tokenCheck then
              with_tabSnapshot (Some (_createTruncatedSnapshot temp tokenCheck)) r
            else with_tabSnapshot (Some temp) r
          else with_tabSnapshot (Some temp) r
      | None => with_tabSnapshot None r
      end
    else r in
  with_context {| tabs := map updateTitle (tabs (_context r));
                  config := config (_context r) |} r.

Definition tabSnapshot (r : t) : option TabSnapshot := _tabSnapshot r.

(** [trim(text, maxLength)] *)
Definition trim (text : string) (maxLength : Z) : string :=
  if len text <=? maxLength then text
  else str_slice 0 maxLength text ++ "...".

(** [renderTabSnapshot(tabSnapshot)] *)
Definition renderTabSnapshot (ts : TabSnapshot) : string :=
  let lines : list string := [] in
  let lines :=
    if 0 <? alen (consoleMessages ts) then
      (lines ++ ["### New console messages"]
             ++ map (fun m => "- " ++ trim m 100)%string (consoleMessages ts)
             ++ [EmptyString])%list
    else lines in
  let lines :=
    if 0 <? alen (downloads ts) then
      (lines ++ ["### Downloads"]
             ++ map (fun entry =>
                       if finished entry then
                         "- Downloaded file " ++ suggestedFilename entry
                           ++ " to " ++ outputFile entry
                       else
                         "- Downloading file " ++ suggestedFilename entry ++ " ...")%string
                    (downloads ts)
             ++ [EmptyString])%list
    else lines in
  let lines :=
    (lines ++ ["### Page state";
               "- Page URL: " ++ url ts;
               "- Page Title: " ++ title ts;
               "- Page Snapshot:";
               "```yaml";
               ariaSnapshot ts;
               "```"]%string)%list in
  join nl lines.

(** The [for] loop of [renderTabsMarkdown], from index [i]. *)
Fixpoint tab_lines (i : Z) (l : list Tab) : list string :=
  match l with
  | [] => []
  | tab :: l' =>
      let current := if isCurrentTab tab then " (current)" else EmptyString in
      ("- " ++ num i ++ ":" ++ current ++ " [" ++ lastTitle tab ++ "] ("
            ++ page_url tab ++ ")") :: tab_lines (i + 1) l'
  end.

(** [renderTabsMarkdown(tabs, force = false)] *)
Definition renderTabsMarkdown (l : list Tab) (force : bool) : list string :=
  if (alen l =? 1) && negb force then []
  else if alen l =? 0 then
    ["### Open tabs";
     "No open tabs. Use the " ++ dq ++ "browser_navigate" ++ dq
       ++ " tool to navigate to a page first.";
     EmptyString]
  else (["### Open tabs"] ++ tab_lines 0 l ++ [EmptyString])%list.

(** The sections that [serialize] assembles before the final budget check. *)
Definition sections (r : t) : list string :=
  let response : list string := [] in
  let response :=
    if 0 <? alen (_result r) then
      (response ++ ["### Result"; join nl (_result r); EmptyString])%list
    else response in
  let response :=
    if 0 <? alen (_code r) then
      (response ++ ["### Ran Playwright code" ++ nl ++ "```js" ++ nl
                      ++ join nl (_code r) ++ nl ++ "```";
                    EmptyString]%string)%list
    else response in
  let response :=
    if _includeSnapshot r || _includeTabs r then
      (response ++ renderTabsMarkdown (tabs (_context r)) (_includeTabs r))%list
    else response in
  match _tabSnapshot r with
  | Some ts =>
      if 0 <? alen (modalStates ts) then
        (response ++ renderModalStates (_context r) (modalStates ts)
                  ++ [EmptyString])%list
      else (response ++ [renderTabSnapshot ts; EmptyString])%list
  | None => response
  end.

(** [TOKEN_LIMIT * 4 * 0.9]; the product is 79200. *)
Definition emergencyMaxLength : Z := TOKEN_LIMIT * 4 * 9 / 10.

(** The notice of the emergency truncation. *)
Definition truncation_notice : string :=
  nl ++ nl ++ "⚠️ RESPONSE TRUNCATED: Output exceeded " ++ toLocaleString TOKEN_LIMIT
     ++ " tokens and was automatically truncated. Use browser_snapshot with filtering parameters for complete results.".

(** [const fullResponse = response.join('\n')] *)
Definition fullResponse (r : t) : string := join nl (sections r).

(** [serialize()] (the two [console.error] debug lines write to the log only) *)
Definition serialize (r : t) : Serialized :=
  let fullResponse := fullResponse r in
  let tokenCheck := checkTokenLimit fullResponse in
  if needsPagination tokenCheck then
    let maxLength := emergencyMaxLength in
    let truncated := substring 0 maxLength fullResponse in
    let warningMsg := truncation_notice in
    let content := [TextContent (truncated ++ warningMsg)] in
    {| content := content; isError := _isError r |}
  else
    let content := [TextContent fullResponse] in
    let content :=
      if differs (imageResponses (config (_context r))) "omit" then
        (content ++ map (fun image => ImageContent (toBase64 (data image))
                                                   (contentType image))
                        (_images r))%list
      else content in
    {| content := content; isError := _isError r |}.

End WithHost.
End Response.

(** ** The list tools: console messages and network requests *)

(** The parameters of the two list tools.  The schema types each as
    [z.number().optional()]; here a bound is an integer.  A bound that is
    not an integer ([slice] truncates it, while the range line and the hint
    print it as given) is outside this model, and the statements on calls
    with bounds are statements on integer bounds. *)
Record ListParams := {
  limit : option Z;
  offset : option Z
}.

Module Console.
Section WithHost.
Context `{Host}.

(** [handle(tab, params, response)] of [browser_console_messages];
    [messages] holds [tab.consoleMessages()], each through its [toString()]. *)
Definition handle (messages : list string) (params : ListParams)
                  (response : Response.t) : Response.t :=
  let limit_ := num_or (limit params) 100 in
  let offset_ := num_or (offset params) 0 in
  let early :=
    if not_num (limit params) && not_num (offset params) then
      let allContent := join nl messages in
      let tokenCheck := Response.checkTokenLimit allContent in
      if Response.needsPagination tokenCheck then Some tokenCheck else None
    else None in
  match early with
  | Some tokenCheck =>
      Response.addPaginationWarning (non_null (Response.totalPages tokenCheck))
                                    "browser_console_messages" [] response
  | None =>
      let paginatedMessages := slice offset_ (offset_ + limit_) messages in
      let hasMore := offset_ + limit_ <? alen messages in
      if alen paginatedMessages =? 0 then
        Response.addResult "No console messages found in the specified range." response
      else
        let response :=
          if negb (not_num (limit params)) || negb (not_num (offset params)) then
            Response.addResult
              ("Console messages " ++ num (offset_ + 1) ++ "-"
                 ++ num (offset_ + alen paginatedMessages) ++ " of "
                 ++ num (alen messages) ++ ":") response
          else response in
        let response :=
          fold_left (fun r message => Response.addResult message r)
                    paginatedMessages response in
        if hasMore then
          let nextOffset := offset_ + limit_ in
          Response.addResult
            (nl ++ "📄 More messages available. Next page: {" ++ dq ++ "limit" ++ dq
                ++ ": " ++ num limit_ ++ ", " ++ dq ++ "offset" ++ dq ++ ": "
                ++ num nextOffset ++ "}") response
        else response
  end.

End WithHost.
End Console.

Module Network.

Record Request := {
  method : string;
  request_url : string
}.

Record NetResponse := {
  status : Z;
  statusText : string
}.

Section WithHost.
Context `{Host}.

(** [renderRequest(request, response)] *)
Definition renderRequest (request : Request) (response : option NetResponse) : string :=
  let result := ["[" ++ toUpperCase (method request) ++ "] " ++ request_url request] in
  let result :=
    match response with
    | Some res =>
        (result ++ ["=> [" ++ num (status res) ++ "] " ++ statusText res]%string)%list
    | None => result
    end in
  join " " result.

(** [handle(tab, params, response)] of [browser_network_requests];
    [requestEntries] holds the entries of [tab.requests()]. *)
Definition handle (requestEntries : list (Request * option NetResponse))
                  (params : ListParams) (response : Response.t) : Response.t :=
  let limit_ := num_or (limit params) 100 in
  let offset_ := num_or (offset params) 0 in
  let early :=
    if not_num (limit params) && not_num (offset params) then
      let allContent :=
        join nl (map (fun e => renderRequest (fst e) (snd e)) requestEntries) in
      let tokenCheck := Response.checkTokenLimit allContent in
      if Response.needsPagination tokenCheck then Some tokenCheck else None
    else None in
  match early with
  | Some tokenCheck =>
      Response.addPaginationWarning (non_null (Response.totalPages tokenCheck))
                                    "browser_network_requests" [] response
  | None =>
      let paginatedEntries := slice offset_ (offset_ + limit_) requestEntries in
      let hasMore := offset_ + limit_ <? alen requestEntries in
      if alen paginatedEntries =? 0 then
        Response.addResult "No network requests found in the specified range." response
      else
        let response :=
          if negb (not_num (limit params)) || negb (not_num (offset params)) then
            Response.addResult
              ("Network requests " ++ num (offset_ + 1) ++ "-"
                 ++ num (offset_ + alen paginatedEntries) ++ " of "
                 ++ num (alen requestEntries) ++ ":") response
          else response in
        let response :=
          fold_left (fun r e => Response.addResult (renderRequest (fst e) (snd e)) r)
                    paginatedEntries response in
        if hasMore then
          let nextOffset := offset_ + limit_ in
          Response.addResult
            (nl ++ "ðŸ“„ More results available. Next page: {" ++ dq ++ "limit" ++ dq
                ++ ": " ++ num limit_ ++ ", " ++ dq ++ "offset" ++ dq ++ ": "
                ++ num nextOffset ++ "}") response
        else response
  end.

End WithHost.
End Network.

(** ** The two [browser_evaluate] handlers *)

Record EvaluateParams := {
  function : string;
  element : option string;
  ref : option string;
  maxLength : option Z;
  returnSummary : option bool
}.

Module Evaluate.
Section WithHost.
Context `{Host}.

(** [typeof result]; [None] is [undefined]. *)
Definition typeof (result : option value) : string :=
  match result with
  | None => "undefined"
  | Some (VBool _) => "boolean"
  | Some (VNum _) => "number"
  | Some (VStr _) => "string"
  | Some VNull | Some (VArr _) | Some (VObj _) => "object"
  end.

(** [JSON.stringify(result, null, 2) || 'undefined'] *)
Definition jsonResult_of (result : option value) : string :=
  match result with
  | Some v => let s := stringify2 v in if truthy_str s then s else "undefined"
  | None => "undefined"
  end.

(** The part both handlers share: the snapshot flag and the code line. *)
Definition prologue (params : EvaluateParams) (response : Response.t) : Response.t :=
  let response := Response.setIncludeSnapshot response in
  match ref params, element params with
  | Some r, Some e =>
      if truthy_str r && truthy_str e then
        Response.addCode ("await page." ++ generateLocator r e ++ ".evaluate("
                            ++ javascript_quote (function params) ++ ");") response
      else
        Response.addCode ("await page.evaluate("
                            ++ javascript_quote (function params) ++ ");") response
  | _, _ =>
      Response.addCode ("await page.evaluate("
                          ++ javascript_quote (function params) ++ ");") response
  end.

(** The handler that checks the token budget first; [result] is what
    [receiver._evaluateFunction(params.function)] resolves to. *)
Definition handle_budget_first (result : option value) (params : EvaluateParams)
                               (response : Response.t) : Response.t :=
  let response := prologue params response in
  let jsonResult := jsonResult_of result in
  let maxLength_ := num_or (maxLength params) 10000 in
  let tokenCheck := Response.checkTokenLimit jsonResult in
  if Response.needsPagination tokenCheck then
    if truthy_bool (returnSummary params) then
      let summary :=
        VObj [("type", VStr (typeof result));
              ("length", VNum (len jsonResult));
              ("estimatedTokens", VNum (ceil_div (len jsonResult) 3));
              ("preview", VStr (str_slice 0 1000 jsonResult));
              ("truncated", VBool true);
              ("suggestion",
               VStr "Use maxLength parameter or modify JavaScript to return smaller dataset")] in
      Response.addResult (stringify2 summary) response
    else
      let message :=
        "⚠️ JavaScript execution result too large (~"
          ++ toLocaleString (ceil_div (len jsonResult) 3)
          ++ " tokens), exceeds limit (" ++ num 20000 ++ " tokens)." ++ nl ++ nl
          ++ "Recommended solutions:" ++ nl ++ nl
          ++ "1. Limit length: {" ++ dq ++ "maxLength" ++ dq ++ ": "
          ++ num (floor_div maxLength_ 2) ++ "}" ++ nl
          ++ "2. Return summary: {" ++ dq ++ "returnSummary" ++ dq ++ ": true}" ++ nl
          ++ "3. Modify JavaScript code to return smaller dataset" ++ nl ++ nl
          ++ "Result preview (first 1000 characters):" ++ nl
          ++ str_slice 0 1000 jsonResult ++ "..." in
      Response.addResult message response
  else if len jsonResult >? maxLength_ then
    if truthy_bool (returnSummary params) then
      let truncated := str_slice 0 maxLength_ jsonResult in
      let summary :=
        VObj [("type", VStr (typeof result));
              ("length", VNum (len jsonResult));
              ("preview", VStr truncated);
              ("truncated", VBool true);
              ("suggestion",
               VStr "Use maxLength parameter or set returnSummary: false for full result")] in
      Response.addResult (stringify2 summary) response
    else
      let truncated := str_slice 0 maxLength_ jsonResult in
      let message :=
        "⚠️ Result truncated to " ++ num maxLength_ ++ " characters (original: "
          ++ num (len jsonResult) ++ " characters)." ++ nl ++ nl ++ truncated ++ "..." in
      Response.addResult message response
  else Response.addResult jsonResult response.

(** The handler that checks [maxLength] first. *)
Definition handle_maxLength_first (result : option value) (params : EvaluateParams)
                                  (response : Response.t) : Response.t :=
  let response := prologue params response in
  let jsonResult := jsonResult_of result in
  let maxLength_ := num_or (maxLength params) 10000 in
  if len jsonResult >? maxLength_ then
    if truthy_bool (returnSummary params) then
      let truncated := str_slice 0 maxLength_ jsonResult in
      let summary :=
        VObj [("type", VStr (typeof result));
              ("length", VNum (len jsonResult));
              ("preview", VStr truncated);
              ("truncated", VBool true);
              ("suggestion",
               VStr "Use maxLength parameter or set returnSummary: false for full result")] in
      Response.addResult (stringify2 summary) response
    else
      let tokenCheck := Response.checkTokenLimit jsonResult in
      if Response.needsPagination tokenCheck then
        let message :=
          "⚠️ JavaScript执行结果过大 (约" ++ toLocaleString (ceil_div (len jsonResult) 4)
            ++ " tokens)，超出限制 (24,000 tokens)。" ++ nl ++ nl
            ++ "建议使用以下参数：" ++ nl ++ nl
            ++ "1. 限制长度: {" ++ dq ++ "maxLength" ++ dq ++ ": " ++ num maxLength_ ++ "}" ++ nl
            ++ "2. 返回摘要: {" ++ dq ++ "returnSummary" ++ dq ++ ": true}" ++ nl
            ++ "3. 修改JavaScript代码返回更小的数据集" ++ nl ++ nl
            ++ "结果预览 (前1000字符)：" ++ nl
            ++ str_slice 0 1000 jsonResult ++ "..." in
        Response.addResult message response
      else Response.addResult jsonResult response
  else Response.addResult jsonResult response.

End WithHost.
End Evaluate.

(** ** The Claude delegate *)

Module Claude.

(** *** The generic conversation (loop.ts) *)

Record LLMToolCall := {
  name : string;
  arguments : object;
  id : string
}.

Record LLMTool := {
  tool_name : string;
  tool_description : string;
  tool_inputSchema : value
}.

Inductive LLMMessage : Type :=
| User (content : string)
| Assistant (content : string) (toolCalls : option (list LLMToolCall))
| ToolResult (toolCallId : string) (content : string) (isError : option bool).

Record LLMConversation := {
  messages : list LLMMessage;
  tools : list LLMTool
}.

(** A tool as the MCP SDK declares it: the description is optional. *)
Record Tool := {
  mcp_name : string;
  mcp_description : option string;
  mcp_inputSchema : value
}.

(** *** The provider's format *)

Inductive Role : Type := RUser | RAssistant.

Record ToolResultBlockParam := {
  tool_use_id : string;
  result_content : string;
  is_error : option bool
}.

Inductive ContentBlock : Type :=
| Text (text : string)
| ToolUse (id : string) (name : string) (input : object)
| ToolResultBlock (block : ToolResultBlockParam).

Inductive MessageContent : Type :=
| Plain (text : string)
| Blocks (blocks : list ContentBlock).

Record MessageParam := {
  role : Role;
  mcontent : MessageContent
}.

Record ClaudeTool := {
  ct_name : string;
  ct_description : string;
  ct_input_schema : value
}.

(** [createConversation(task, tools, oneShot)] *)
Definition createConversation (task : string) (tools : list Tool) (oneShot : bool)
  : LLMConversation :=
  let llmTools :=
    map (fun tool =>
           {| tool_name := mcp_name tool;
              tool_description :=
                match mcp_description tool with
                | Some d => if truthy_str d then d else EmptyString
                | None => EmptyString
                end;
              tool_inputSchema := mcp_inputSchema tool |}) tools in
  let llmTools :=
    if negb oneShot then
      (llmTools ++ [{| tool_name := "done";
                       tool_description := "Call this tool when the task is complete.";
                       tool_inputSchema :=
                         VObj [("type", VStr "object"); ("properties", VObj [])] |}])%list
    else llmTools in
  {| messages := [User task]; tools := llmTools |}.

Definition is_assistant (m : LLMMessage) : bool :=
  match m with
  | Assistant _ _ => true
  | _ => false
  end.

(** [[...conversation.messages].reverse().find(m => m.role === 'assistant')] *)
Definition lastAssistantMessage (msgs : list LLMMessage) : option LLMMessage :=
  find is_assistant (rev msgs).

(** [allToolCallIds.every(id => collectedIds.includes(id))] *)
Definition covers (collectedIds allToolCallIds : list string) : bool :=
  forallb (fun i => existsb (String.eqb i) collectedIds) allToolCallIds.

(** The state of the translation loop: [claudeMessages] and
    [pendingToolResults]. *)
Definition loop_state : Type := (list MessageParam * list ToolResultBlockParam)%type.

(** A user message that carries tool results. *)
Definition batch (results : list ToolResultBlockParam) : MessageParam :=
  {| role := RUser; mcontent := Blocks (map ToolResultBlock results) |}.

(** One round of [for (const message of conversation.messages)]; [all] is
    [conversation.messages]. *)
Definition step (all : list LLMMessage) (st : loop_state) (message : LLMMessage)
  : loop_state :=
  let '(claudeMessages, pendingToolResults) := st in
  match message with
  | User c =>
      (claudeMessages ++ [{| role := RUser; mcontent := Plain c |}], pendingToolResults)
  | Assistant c calls =>
      let content := if truthy_str c then [Text c] else [] in
      let content :=
        match calls with
        | Some l =>
            content ++ map (fun toolCall =>
                              ToolUse (id toolCall) (name toolCall) (arguments toolCall)) l
        | None => content
        end in
      let claudeMessages :=
        claudeMessages ++ [{| role := RAssistant; mcontent := Blocks content |}] in
      let pendingToolResults :=
        match calls with
        | Some l => if alen l >? 0 then [] else pendingToolResults
        | None => pendingToolResults
        end in
      (claudeMessages, pendingToolResults)
  | ToolResult i c e =>
      let toolResult := {| tool_use_id := i; result_content := c; is_error := e |} in
      let pendingToolResults := pendingToolResults ++ [toolResult] in
      match lastAssistantMessage all with
      | Some (Assistant _ (Some calls)) =>
          let allToolCallIds := map id calls in
          let collectedIds := map tool_use_id pendingToolResults in
          if covers collectedIds allToolCallIds then
            (claudeMessages ++ [batch pendingToolResults], [])
          else (claudeMessages, pendingToolResults)
      | _ => (claudeMessages, pendingToolResults)
      end
  end%list.

(** The messages [makeApiCall] sends: the loop, then the final flush. *)
Definition claudeMessages (conversation : LLMConversation) : list MessageParam :=
  let '(claudeMessages, pendingToolResults) :=
    fold_left (step (messages conversation)) (messages conversation) ([], []) in
  if alen pendingToolResults >? 0 then
    (claudeMessages ++ [batch pendingToolResults])%list
  else claudeMessages.

(** The tools [makeApiCall] sends. *)
Definition claudeTools (conversation : LLMConversation) : list ClaudeTool :=
  map (fun tool => {| ct_name := tool_name tool;
                      ct_description := tool_description tool;
                      ct_input_schema := tool_inputSchema tool |})
      (tools conversation).

Record Request := {
  req_model : string;
  req_max_tokens : Z;
  req_messages : list MessageParam;
  req_tools : list ClaudeTool
}.

Definition model : string := "claude-sonnet-4-20250514".

(** The request of [makeApiCall]. *)
Definition request (conversation : LLMConversation) : Request :=
  {| req_model := model;
     req_max_tokens := 10000;
     req_messages := claudeMessages conversation;
     req_tools := claudeTools conversation |}.

(** [makeApiCall(conversation)], given the content blocks the provider
    answers [request conversation] with: the conversation with the
    assistant turn appended, and the returned tool calls. *)
Definition makeApiCall (conversation : LLMConversation) (response : list ContentBlock)
  : LLMConversation * list LLMToolCall :=
  let toolCalls :=
    filter (fun b => match b with ToolUse _ _ _ => true | _ => false end) response in
  let textContent :=
    join EmptyString
         (flat_map (fun b => match b with Text s => [s] | _ => [] end) response) in
  let llmToolCalls :=
    flat_map (fun b => match b with
                       | ToolUse i n a => [{| name := n; arguments := a; id := i |}]
                       | _ => []
                       end) toolCalls in
  ({| messages :=
        (messages conversation
           ++ [Assistant textContent
                 (if alen llmToolCalls >? 0 then Some llmToolCalls else None)])%list;
      tools := tools conversation |},
   llmToolCalls).

(** [addToolResults(conversation, results)] *)
Definition addToolResults (conversation : LLMConversation)
                          (results : list (string * string * option bool))
  : LLMConversation :=
  fold_left (fun conv result =>
               let '(toolCallId, content, isError) := result in
               {| messages := (messages conv ++ [ToolResult toolCallId content isError])%list;
                  tools := tools conv |})
            results conversation.

(** What [checkDoneToolCall] returns: a value ([null] is the value
    [VNull], the one [null] of the language), or [undefined] when the
    [result] property is absent. *)
Inductive Returned : Type :=
| RetUndefined
| RetValue (v : value).

(** [checkDoneToolCall(toolCall)] *)
Definition checkDoneToolCall (toolCall : LLMToolCall) : Returned :=
  if String.eqb (name toolCall) "done" then
    match get "result" (arguments toolCall) with
    | Some v => RetValue v
    | None => RetUndefined
    end
  else RetValue VNull.

End Claude.

(** ** Vocabulary of the statements *)

Module Spec.

(** [q] is the ceiling of [a / b]. *)
Definition is_ceil (q a b : Z) : Prop := b * (q - 1) < a <= b * q.

(** [sub] occurs in [s]. *)
Definition occurs (sub s : string) : Prop :=
  exists before after, s = before ++ sub ++ after.

(** [p] is a prefix of [s]. *)
Definition is_prefix (p s : string) : Prop := exists rest, s = p ++ rest.

(** The pages [from], [from + 1], ..., [count] of them. *)
Fixpoint pages (from : Z) (count : nat) : list Z :=
  match count with
  | O => []
  | S count' => from :: pages (from + 1) count'
  end.

(** One page entry of the pagination advice: the page, the total, and the
    suggested parameters as JSON. *)
Definition advice_entry (totalPages page : Z) (suggested : object) : string :=
  "页面" ++ num page ++ "/" ++ num totalPages ++ ": 使用参数 "
    ++ stringify (VObj suggested) ++ nl.

Definition advice_header (totalPages : Z) : string :=
  "⚠️ 返回内容过大，建议分" ++ num totalPages ++ "页获取：" ++ nl ++ nl.

Definition advice_remainder (remaining : Z) : string :=
  "... (还有" ++ num remaining ++ "页)" ++ nl.

Definition advice_footer : string :=
  nl ++ "或考虑使用更小的limit值来减少每页数据量。".

(** The caller's arguments without [limit] and [offset], followed by the
    suggested [limit] and [offset]. *)
Definition suggestion (args : object) (lim off : Z) : object :=
  (delete "offset" (delete "limit" args)
     ++ [("limit", VNum lim); ("offset", VNum off)])%list.

(** The suggestions of the advice for the arguments [args]: page [p]
    suggests [limit] 100 and [offset] [(p - 1) * 100]. *)
Definition suggestions_from (args : object) (from : Z) (count : nat) : list object :=
  map (fun p => suggestion args 100 ((p - 1) * 100)) (pages from count).

(** The page entries for the suggestions [suggested], numbered from [page]. *)
Fixpoint advice_entries (totalPages page : Z) (suggested : list object) : string :=
  match suggested with
  | [] => EmptyString
  | s :: rest =>
      advice_entry totalPages page s ++ advice_entries totalPages (page + 1) rest
  end.

(** The pagination advice: the header, the page entries, the count of the
    pages beyond the fifth when there are any, and the footer. *)
Definition advice (totalPages : Z) (suggested : list object) : string :=
  advice_header totalPages
    ++ advice_entries totalPages 1 suggested
    ++ (if totalPages >? 5 then advice_remainder (totalPages - 5) else EmptyString)
    ++ advice_footer.

(** The range line of a list tool. *)
Definition range_line (what : string) (first last total : Z) : string :=
  what ++ " " ++ num first ++ "-" ++ num last ++ " of " ++ num total ++ ":".

(** The next-page hint of a list tool, after its leading text. *)
Definition next_page (lead : string) (lim off : Z) : string :=
  nl ++ lead ++ " Next page: {" ++ dq ++ "limit" ++ dq ++ ": " ++ num lim
     ++ ", " ++ dq ++ "offset" ++ dq ++ ": " ++ num off ++ "}".

(** What a list tool answers when the caller's bounds are honoured as
    given: the slice [[off, off + lim)] of the [n] rendered items [items],
    with the range line, and the hint when items remain. *)
Definition honoured (what lead nothing : string) (items : list string)
                    (lim off : Z) : list string :=
  let page := firstn (Z.to_nat lim) (skipn (Z.to_nat off) items) in
  match page with
  | [] => [nothing]
  | _ =>
      ([range_line what (off + 1) (off + alen page) (alen items)]
         ++ page
         ++ (if off + lim <? alen items then [next_page lead lim (off + lim)] else []))%list
  end.

(** The bounds a caller states: an absent [limit] is 100, an absent
    [offset] is 0. *)
Definition stated_limit (p : ListParams) : Z :=
  match limit p with Some n => n | None => 100 end.

Definition stated_offset (p : ListParams) : Z :=
  match offset p with Some n => n | None => 0 end.

Definition console_what : string := "Console messages".
Definition console_lead : string := "📄 More messages available.".
Definition console_nothing : string :=
  "No console messages found in the specified range.".

Definition network_what : string := "Network requests".
Definition network_lead : string := "ðŸ“„ More results available.".
Definition network_nothing : string :=
  "No network requests found in the specified range.".

(** A call of one of the two list tools, with the list it reads from the
    tab. *)
Inductive ListCall : Type :=
| ConsoleCall (messages : list string)
| NetworkCall (entries : list (Network.Request * option Network.NetResponse)).

(** The items of the list, rendered. *)
Definition rendered (c : ListCall) : list string :=
  match c with
  | ConsoleCall messages => messages
  | NetworkCall entries =>
      map (fun e => Network.renderRequest (fst e) (snd e)) entries
  end.

(** The handler the call runs. *)
Definition run `{Host} (c : ListCall) (params : ListParams) (r : Response.t)
  : Response.t :=
  match c with
  | ConsoleCall messages => Console.handle messages params r
  | NetworkCall entries => Network.handle entries params r
  end.

Definition what (c : ListCall) : string :=
  match c with ConsoleCall _ => console_what | NetworkCall _ => network_what end.

Definition lead (c : ListCall) : string :=
  match c with ConsoleCall _ => console_lead | NetworkCall _ => network_lead end.

Definition nothing (c : ListCall) : string :=
  match c with ConsoleCall _ => console_nothing | NetworkCall _ => network_nothing end.

(** The synthetic [done] tool. *)
Definition done_tool : Claude.LLMTool :=
  {| Claude.tool_name := "done";
     Claude.tool_description := "Call this tool when the task is complete.";
     Claude.tool_inputSchema :=
       VObj [("type", VStr "object"); ("properties", VObj [])] |}.

(** A tool of the registry as the conversation lists it. *)
Definition listed (tool : Claude.Tool) : Claude.LLMTool :=
  {| Claude.tool_name := Claude.mcp_name tool;
     Claude.tool_description :=
       match Claude.mcp_description tool with
       | Some d => d
       | None => EmptyString
       end;
     Claude.tool_inputSchema := Claude.mcp_inputSchema tool |}.

(** A tool result as [addToolResults] receives it: the id of the call it
    answers, the content, the error flag. *)
Definition ToolOutcome : Type := (string * string * option bool)%type.

Definition outcome_id (o : ToolOutcome) : string := fst (fst o).

(** The log entry and the provider block for a tool result. *)
Definition outcome_message (o : ToolOutcome) : Claude.LLMMessage :=
  let '(i, c, e) := o in Claude.ToolResult i c e.

Definition outcome_block (o : ToolOutcome) : Claude.ToolResultBlockParam :=
  let '(i, c, e) := o in
  {| Claude.tool_use_id := i; Claude.result_content := c; Claude.is_error := e |}.

(** The provider message for a user turn and for an assistant turn that
    calls tools. *)
Definition user_turn (text : string) : Claude.MessageParam :=
  {| Claude.role := Claude.RUser; Claude.mcontent := Claude.Plain text |}.

Definition assistant_turn (text : string) (calls : list Claude.LLMToolCall)
  : Claude.MessageParam :=
  {| Claude.role := Claude.RAssistant;
     Claude.mcontent :=
       Claude.Blocks
         ((if truthy_str text then [Claude.Text text] else [])
            ++ map (fun c => Claude.ToolUse (Claude.id c) (Claude.name c)
                                            (Claude.arguments c)) calls)%list |}.

(** The tool-result blocks of a provider message (none for other messages). *)
Definition results_of (m : Claude.MessageParam) : list Claude.ToolResultBlockParam :=
  match Claude.mcontent m with
  | Claude.Blocks l =>
      flat_map (fun b => match b with Claude.ToolResultBlock x => [x] | _ => [] end) l
  | Claude.Plain _ => []
  end.

(** The ids of all tool results that a provider message list carries. *)
Definition result_ids (l : list Claude.MessageParam) : list string :=
  map Claude.tool_use_id (flat_map results_of l).

End Spec.

(** ** Sample inputs *)

Module Sample.

(** Digits in groups of three, as the en-US locale prints integers. *)
Fixpoint commas (k : nat) (rev_digits : list ascii) : list ascii :=
  match rev_digits with
  | [] => []
  | d :: ds =>
      if (k =? 3)%nat then ","%char :: d :: commas 1 ds
      else d :: commas (S k) ds
  end.

Definition en_US (n : Z) : string :=
  let digits := list_ascii_of_string (num (Z.abs n)) in
  let grouped := string_of_list_ascii (rev (commas 0 (rev digits))) in
  if n <? 0 then "-" ++ grouped else grouped.

#[global] Instance host : Host := {|
  ModalState := string;
  Buffer := string;
  renderModalStates := fun _ states =>
    ("### Modal state" :: map (fun s => "- [" ++ s ++ "]")%string states)%list;
  currentTab := fun c => find isCurrentTab (tabs c);
  updateTitle := fun t => t;
  javascript_quote := fun s => "'" ++ s ++ "'";
  generateLocator := fun r e => "locator('aria-ref=" ++ r ++ "')";
  toBase64 := fun b => b;
  toLocaleString := en_US
|}.

Fixpoint repeat_unit (c : ascii) (n : nat) : string :=
  match n with
  | O => EmptyString
  | S n' => String c (repeat_unit c n')
  end.

(** A text of 88004 units, estimated at 22001 tokens. *)
Definition long_text : string := repeat_unit "x" (Z.to_nat 88004).

Definition tab0 : Tab :=
  {| isCurrentTab := true; lastTitle := "Home"; page_url := "https://example.com/" |}.

Definition context0 : Context :=
  {| tabs := [tab0]; config := {| imageResponses := None |} |}.

Definition response0 : Response.t :=
  Response.constructor context0 "browser_console_messages" [].

Definition image0 : Image := {| contentType := "image/png"; data := "iVBORw0KGgo=" |}.

(** A response with an oversized result, an error and one image. *)
Definition oversized : Response.t :=
  Response.addImage image0 (Response.addError long_text response0).

Definition snapshot0 : TabSnapshot :=
  {| url := "https://example.com/"; title := "Home"; ariaSnapshot := long_text;
     modalStates := []; consoleMessages := ["log: ready"];
     downloads := [{| finished := true; suggestedFilename := "a.txt";
                      outputFile := "/tmp/a.txt" |}] |}.

(** 250 console messages, [message 1] to [message 250]. *)
Definition messages250 : list string :=
  map (fun i => "message " ++ num i) (Spec.pages 1 250).

Definition call_a : Claude.LLMToolCall :=
  {| Claude.name := "browser_click"; Claude.arguments := [("ref", VStr "e1")];
     Claude.id := "toolu_a" |}.

Definition call_b : Claude.LLMToolCall :=
  {| Claude.name := "browser_type"; Claude.arguments := [("ref", VStr "e2")];
     Claude.id := "toolu_b" |}.

(** The log at the third model call of a run: two assistant turns with one
    tool call each, every call answered by its result. *)
Definition two_turns : Claude.LLMConversation :=
  {| Claude.messages :=
       [Claude.User "Fill in the form";
        Claude.Assistant EmptyString (Some [call_a]);
        Claude.ToolResult "toolu_a" "clicked" None;
        Claude.Assistant EmptyString (Some [call_b]);
        Claude.ToolResult "toolu_b" "typed" None];
     Claude.tools := [] |}.

End Sample.

(** ** The PDF tool *)

Module Pdf.
Section WithRuntime.
Context `{Host}.

(** The type of [scale], a number between 0.1 and 2 that the handler passes
    on as it is. *)
Variable Scale : Type.

Record Margin := {
  top : option string;
  bottom : option string;
  left : option string;
  right : option string
}.

(** The parameters of [browser_pdf_save]. *)
Record Params := {
  filename : option string;
  format : option string;
  landscape : option bool;
  printBackground : option bool;
  scale : option Scale;
  margin : option Margin;
  width : option string;
  height : option string;
  preferCSSPageSize : option bool;
  emulateMedia : option string;
  outline : option bool;
  tagged : option bool
}.

(** The options object built for [page.pdf]; an absent property is [None]. *)
Record Options := {
  path : string;
  o_format : option string;
  o_width : option string;
  o_height : option string;
  o_landscape : option bool;
  o_printBackground : option bool;
  o_scale : option Scale;
  o_margin : option Margin;
  o_preferCSSPageSize : option bool;
  o_outline : option bool;
  o_tagged : option bool
}.

(** What the handler asks of the page, in order. *)
Inductive PageAction : Type :=
| EmulateMedia (media : string)
| PagePdf (options : Options).

(** [javascript.formatObject(value)] of javascript.ts *)
Variable formatObject : Options -> string.
(** what [tab.context.outputFile(name)] resolves to *)
Variable outputFile : string -> string.
(** [new Date().toISOString()] *)
Variable now : string.

(** Truthiness of an optional string. *)
Definition given (a : option string) : bool :=
  match a with
  | Some s => truthy_str s
  | None => false
  end.

(** The options the handler builds, for the file name [fileName]. *)
Definition pdfOptions (fileName : string) (params : Params) : Options :=
  let custom := given (width params) || given (height params) in
  {| path := fileName;
     o_format :=
       if given (format params) then format params
       else if custom then None
       else Some "A4";
     o_width :=
       if given (format params) then None
       else if custom then (if given (width params) then width params else None)
       else None;
     o_height :=
       if given (format params) then None
       else if custom then (if given (height params) then height params else None)
       else None;
     o_landscape := landscape params;
     o_printBackground := printBackground params;
     o_scale := scale params;
     o_margin := margin params;
     o_preferCSSPageSize := preferCSSPageSize params;
     o_outline := outline params;
     o_tagged := tagged params |}.

(** [params.emulateMedia || 'print'] *)
Definition mediaType (params : Params) : string :=
  match emulateMedia params with
  | Some s => if truthy_str s then s else "print"
  | None => "print"
  end.

(** [params.format || (params.width || params.height ? 'custom size' : 'A4')] *)
Definition formatDescription (params : Params) : string :=
  match format params with
  | Some f =>
      if truthy_str f then f
      else if given (width params) || given (height params) then "custom size"
      else "A4"
  | None =>
      if given (width params) || given (height params) then "custom size" else "A4"
  end.

(** [params.landscape ? 'landscape' : 'portrait'] *)
Definition orientationDescription (params : Params) : string :=
  if truthy_bool (landscape params) then "landscape" else "portrait".

(** [handle(tab, params, response)] of [browser_pdf_save]: the response, and
    the actions on the page in the order they are awaited. *)
Definition handle (params : Params) (response : Response.t)
  : Response.t * list PageAction :=
  let fileName :=
    outputFile (match filename params with
                | Some f => f
                | None => "page-" ++ now ++ ".pdf"
                end) in
  let pdfOptions := pdfOptions fileName params in
  let mediaType := mediaType params in
  let '(response, actions) :=
    if negb (String.eqb mediaType "print") then
      (Response.addCode ("await page.emulateMedia({ media: '" ++ mediaType ++ "' });")
                        response,
       [EmulateMedia mediaType])
    else (response, []) in
  let response :=
    Response.addCode ("await page.pdf(" ++ formatObject pdfOptions ++ ");") response in
  let actions := (actions ++ [PagePdf pdfOptions])%list in
  let formatDescription := formatDescription params in
  let orientationDescription := orientationDescription params in
  (Response.addResult
     ("Saved full page as PDF (" ++ formatDescription ++ ", " ++ orientationDescription
        ++ ") to " ++ fileName) response,
   actions).

End WithRuntime.
End Pdf.

(** ** Vocabulary of the further statements *)

Module More.

(** [a] is [b] with some elements left out. *)
Inductive Subseq {A : Type} : list A -> list A -> Prop :=
| Subseq_nil : Subseq [] []
| Subseq_skip (x : A) (a b : list A) : Subseq a b -> Subseq a (x :: b)
| Subseq_take (x : A) (a b : list A) : Subseq a b -> Subseq (x :: a) (x :: b).

Section WithHost.
Context `{Host}.

(** The calls a handler can make on a [Response] before it is serialized. *)
Inductive Op : Type :=
| AddResult (s : string)
| AddError (s : string)
| AddCode (s : string)
| AddImage (image : Image)
| SetIncludeSnapshot
| SetIncludeTabs
| SetPaginationInfo (needs : bool) (total current : option Z)
| AddPaginationWarning (totalPages : Z) (name : string) (additionalParams : object)
| Finish (captured : option TabSnapshot).

Definition apply (r : Response.t) (op : Op) : Response.t :=
  match op with
  | AddResult s => Response.addResult s r
  | AddError s => Response.addError s r
  | AddCode s => Response.addCode s r
  | AddImage image => Response.addImage image r
  | SetIncludeSnapshot => Response.setIncludeSnapshot r
  | SetIncludeTabs => Response.setIncludeTabs r
  | SetPaginationInfo needs total current =>
      Response.setPaginationInfo needs total current r
  | AddPaginationWarning totalPages name additionalParams =>
      Response.addPaginationWarning totalPages name additionalParams r
  | Finish captured => Response.finish captured r
  end.

Definition run (ops : list Op) (r : Response.t) : Response.t := fold_left apply ops r.

Definition is_error_op (op : Op) : bool :=
  match op with
  | AddError _ => true
  | _ => false
  end.

(** [r'] is [r] apart from the results. *)
Definition same_frame (r r' : Response.t) : Prop :=
  Response._code r' = Response._code r
  /\ Response._images r' = Response._images r
  /\ Response._context r' = Response._context r
  /\ Response._includeSnapshot r' = Response._includeSnapshot r
  /\ Response._includeTabs r' = Response._includeTabs r
  /\ Response._tabSnapshot r' = Response._tabSnapshot r
  /\ Response._paginationInfo r' = Response._paginationInfo r
  /\ Response.toolName r' = Response.toolName r
  /\ Response.toolArgs r' = Response.toolArgs r
  /\ Response._isError r' = Response._isError r.

(** The text entry at the head of a serialized response. *)
Definition text_of (s : Serialized) : string :=
  match content s with
  | TextContent text :: _ => text
  | _ => EmptyString
  end.

(** The page-state block that ends a rendered snapshot. *)
Definition page_state (ts : TabSnapshot) : string :=
  join nl ["### Page state";
           "- Page URL: " ++ url ts;
           "- Page Title: " ++ title ts;
           "- Page Snapshot:";
           "```yaml";
           ariaSnapshot ts;
           "```"].

(** The line of the tab listing for the tab at index [i]. *)
Definition tab_line (i : Z) (tab : Tab) : string :=
  "- " ++ num i ++ ":" ++ (if isCurrentTab tab then " (current)" else EmptyString)
       ++ " [" ++ lastTitle tab ++ "] (" ++ page_url tab ++ ")".

End WithHost.

(** The lines of [a], each followed by the separator. *)
Fixpoint lines_then (sep : string) (a : list string) : string :=
  match a with
  | [] => EmptyString
  | x :: a' => x ++ sep ++ lines_then sep a'
  end.

(** The [k]-th page of [lim] items. *)
Definition page_of {A} (lim : Z) (items : list A) (k : nat) : list A :=
  firstn (Z.to_nat lim) (skipn (k * Z.to_nat lim) items).

(** What a list tool records for the page [page] of a list of [total]
    items: the range line when [ranged], the page, and the hint when items
    remain; the "nothing found" message for an empty page. *)
Definition listing_of (ranged : bool) (what lead nothing : string) (total : Z)
                      (page : list string) (lim off : Z) : list string :=
  match page with
  | [] => [nothing]
  | _ =>
      ((if ranged
        then [Spec.range_line what (off + 1) (off + alen page) total]
        else [])
         ++ page
         ++ (if off + lim <? total then [Spec.next_page lead lim (off + lim)] else []))%list
  end.

(** The provider message for a user or assistant entry of the log (none
    for a tool result). *)
Definition turn (m : Claude.LLMMessage) : list Claude.MessageParam :=
  match m with
  | Claude.User text => [Spec.user_turn text]
  | Claude.Assistant text calls =>
      [Spec.assistant_turn text (match calls with Some l => l | None => [] end)]
  | Claude.ToolResult _ _ _ => []
  end.

(** The tool results of the log, as provider blocks. *)
Definition log_result (m : Claude.LLMMessage) : list Claude.ToolResultBlockParam :=
  match m with
  | Claude.ToolResult i c e =>
      [{| Claude.tool_use_id := i; Claude.result_content := c; Claude.is_error := e |}]
  | _ => []
  end.

(** A provider message that carries blocks in the user role: a batch. *)
Definition is_batch (m : Claude.MessageParam) : bool :=
  match Claude.role m, Claude.mcontent m with
  | Claude.RUser, Claude.Blocks _ => true
  | _, _ => false
  end.

(** The [tool_use] block of a call. *)
Definition tool_use (c : Claude.LLMToolCall) : Claude.ContentBlock :=
  Claude.ToolUse (Claude.id c) (Claude.name c) (Claude.arguments c).

(** A provider answer: an optional text, then the tool calls. *)
Definition answer (text : string) (calls : list Claude.LLMToolCall)
  : list Claude.ContentBlock :=
  ((if truthy_str text then [Claude.Text text] else []) ++ map tool_use calls)%list.

End More.

(** * Theorems *)

(** ** Arithmetic and strings *)

Section JSFacts.

Lemma ceil_div_is_ceil (a b : Z) : 0 < b -> Spec.is_ceil (ceil_div a b) a b.
Proof.
  intros Hb. unfold Spec.is_ceil, ceil_div.
  pose proof (Z.div_mod a b ltac:(lia)) as Hdm.
  pose proof (Z.mod_pos_bound a b Hb) as Hm.
  destruct (Z.eqb_spec (a mod b) 0) as [E | E]; nia.
Qed.

Lemma is_ceil_unique (q q' a b : Z) :
  0 < b -> Spec.is_ceil q a b -> Spec.is_ceil q' a b -> q = q'.
Proof. unfold Spec.is_ceil. intros Hb H1 H2. nia. Qed.

Lemma str_length_append (a b : string) :
  String.length (a ++ b) = (String.length a + String.length b)%nat.
Proof. induction a as [| c a IH]; simpl; [reflexivity | now rewrite IH]. Qed.

Lemma len_append (a b : string) : len (a ++ b) = len a + len b.
Proof. unfold len. rewrite str_length_append. lia. Qed.

Lemma len_nonneg (s : string) : 0 <= len s.
Proof. unfold len. lia. Qed.

Lemma str_append_assoc (a b c : string) : (a ++ b) ++ c = a ++ (b ++ c).
Proof. induction a as [| x a IH]; simpl; [reflexivity | now rewrite IH]. Qed.

Lemma str_append_nil_r (a : string) : a ++ EmptyString = a.
Proof. induction a as [| x a IH]; simpl; [reflexivity | now rewrite IH]. Qed.

(** The first [m] units of a string: at most [m] of them, and a prefix. *)
Lemma take_length (m : nat) (s : string) :
  String.length (String.substring 0 m s) = Nat.min m (String.length s).
Proof.
  revert s. induction m as [| m IH]; intros [| c s]; simpl; try reflexivity.
  now rewrite IH.
Qed.

Lemma take_prefix (m : nat) (s : string) :
  exists rest, s = String.substring 0 m s ++ rest.
Proof.
  revert s. induction m as [| m IH]; intros [| c s]; simpl.
  - now exists EmptyString.
  - now exists (String c s).
  - now exists EmptyString.
  - destruct (IH s) as [rest E]. exists rest. now rewrite <- E.
Qed.

(** [s.substring(0, k)] for [k >= 0] takes the first [k] units. *)
Lemma substring_from_0 (k : Z) (s : string) :
  0 <= k ->
  JS.substring 0 k s = String.substring 0 (Z.to_nat (Z.min k (len s))) s.
Proof.
  intros Hk. unfold JS.substring.
  pose proof (len_nonneg s) as Hn.
  replace (Z.min (Z.min (Z.max 0 0) (len s)) (Z.min (Z.max k 0) (len s))) with 0 by lia.
  replace (Z.max (Z.min (Z.max 0 0) (len s)) (Z.min (Z.max k 0) (len s)) - 0)
    with (Z.min k (len s)) by lia.
  reflexivity.
Qed.

Lemma substring_from_0_len (k : Z) (s : string) :
  0 <= k -> len (JS.substring 0 k s) = Z.min k (len s).
Proof.
  intros Hk. rewrite substring_from_0 by exact Hk.
  unfold len. rewrite take_length. pose proof (len_nonneg s). unfold len in *. lia.
Qed.

Lemma substring_from_0_prefix (k : Z) (s : string) :
  0 <= k -> Spec.is_prefix (JS.substring 0 k s) s.
Proof.
  intros Hk. rewrite substring_from_0 by exact Hk. apply take_prefix.
Qed.

End JSFacts.

(** ** The token budget *)

Section Budget.
Context `{Host}.

Lemma needsPagination_iff (text : string) :
  Response.needsPagination (Response.checkTokenLimit text) = true
  <-> Response.estimatedTokens text > 22000.
Proof.
  unfold Response.checkTokenLimit, Response.TOKEN_LIMIT.
  destruct (Z.gtb_spec (Response.estimatedTokens text) 22000); simpl; split;
    intros; (lia || congruence).
Qed.

Lemma needsPagination_over (text : string) :
  Response.estimatedTokens text > 22000 ->
  Response.needsPagination (Response.checkTokenLimit text) = true.
Proof. apply needsPagination_iff. Qed.

Lemma totalPages_over (text : string) :
  Response.estimatedTokens text > 22000 ->
  Response.totalPages (Response.checkTokenLimit text)
  = Some (ceil_div (Response.estimatedTokens text) 22000).
Proof.
  intros Hover. unfold Response.checkTokenLimit, Response.TOKEN_LIMIT.
  destruct (Z.gtb_spec (Response.estimatedTokens text) 22000); simpl; [reflexivity | lia].
Qed.

Lemma over_budget_length (text : string) :
  Response.estimatedTokens text > 22000 <-> len text > 88000.
Proof.
  pose proof (ceil_div_is_ceil (len text) 4 ltac:(lia)) as Hc.
  unfold Spec.is_ceil in Hc. unfold Response.estimatedTokens. lia.
Qed.

(** C2. For every text, the estimate of [checkTokenLimit] is the ceiling of
    [length / 4]; [needsPagination] is true exactly when the estimate is
    strictly greater than 22000; and over the limit [totalPages] is the
    ceiling of [estimate / 22000] (no page count is given otherwise). *)
Theorem checkTokenLimit_estimate_and_pages (text : string) :
  let estimate := Response.estimatedTokens text in
  Spec.is_ceil estimate (len text) 4
  /\ (Response.needsPagination (Response.checkTokenLimit text) = true
      <-> estimate > 22000)
  /\ match Response.totalPages (Response.checkTokenLimit text) with
     | Some pages => estimate > 22000 /\ Spec.is_ceil pages estimate 22000
     | None => estimate <= 22000
     end.
Proof.
  cbv zeta. split; [| split].
  - apply ceil_div_is_ceil. lia.
  - apply needsPagination_iff.
  - unfold Response.checkTokenLimit, Response.TOKEN_LIMIT.
    destruct (Z.gtb_spec (Response.estimatedTokens text) 22000); simpl.
    + split; [lia | apply ceil_div_is_ceil; lia].
    + lia.
Qed.

End Budget.

(** ** Serialization *)

Section Serialize.
Context `{Host}.

(** Over the budget, [serialize] returns one text entry: the first 79200
    units of the full text followed by the notice. *)
Lemma serialize_truncated (r : Response.t) :
  Response.estimatedTokens (Response.fullResponse r) > 22000 ->
  Response.serialize r
  = {| content := [TextContent (JS.substring 0 79200 (Response.fullResponse r)
                                  ++ Response.truncation_notice)];
       isError := Response._isError r |}.
Proof.
  intros Hover. unfold Response.serialize.
  rewrite (needsPagination_over _ Hover).
  change Response.emergencyMaxLength with 79200. reflexivity.
Qed.

(** Within the budget, [serialize] returns the full text, then one image
    entry per added image in insertion order, unless images are omitted. *)
Lemma serialize_within_budget (r : Response.t) :
  Response.estimatedTokens (Response.fullResponse r) <= 22000 ->
  imageResponses (config (Response._context r)) <> Some "omit" ->
  Response.serialize r
  = {| content :=
         TextContent (Response.fullResponse r)
           :: map (fun image => ImageContent (toBase64 (data image)) (contentType image))
                  (Response._images r);
       isError := Response._isError r |}.
Proof.
  intros Hin Himg. unfold Response.serialize.
  destruct (Response.needsPagination
              (Response.checkTokenLimit (Response.fullResponse r))) eqn:E.
  - apply needsPagination_iff in E. lia.
  - unfold differs.
    destruct (imageResponses (config (Response._context r))) as [s |] eqn:Es;
      [| reflexivity].
    destruct (String.eqb_spec s "omit") as [-> | Hne]; [congruence | reflexivity].
Qed.

(** [addImage] appends to the images and leaves the rest alone. *)
Lemma addImage_images (image : Image) (r : Response.t) :
  Response._images (Response.addImage image r) = (Response._images r ++ [image])%list.
Proof. reflexivity. Qed.

(** [addError] records the text and raises the flag; [addResult] keeps it. *)
Lemma addError_isError (e : string) (r : Response.t) :
  Response._isError (Response.addError e r) = Some true.
Proof. reflexivity. Qed.

Lemma addResult_isError (s : string) (r : Response.t) :
  Response._isError (Response.addResult s r) = Response._isError r.
Proof. reflexivity. Qed.

(** C3. When the assembled sections are estimated above 22000 tokens,
    [serialize] returns a text entry of at most 22000 * 4 * 0.9 = 79200
    units plus the length of the truncation notice, and [isError] is the
    flag the response had before: truncation neither sets nor clears it. *)
Theorem serialize_over_budget_bound (r : Response.t) :
  Response.estimatedTokens (Response.fullResponse r) > 22000 ->
  exists text,
    content (Response.serialize r) = [TextContent text]
    /\ len text <= 79200 + len Response.truncation_notice
    /\ isError (Response.serialize r) = Response._isError r.
Proof.
  intros Hover. rewrite (serialize_truncated r Hover). cbn [content isError].
  eexists. split; [reflexivity | split; [| reflexivity]].
  rewrite len_append, substring_from_0_len by lia. lia.
Qed.

End Serialize.

(** C3, at a response with an 88004-unit result, an error and one image. *)
Lemma serialize_over_budget_bound_witness :
  Response.estimatedTokens (Response.fullResponse Sample.oversized) > 22000
  /\ exists text,
       content (Response.serialize Sample.oversized) = [TextContent text]
       /\ len text <= 79200 + len Response.truncation_notice
       /\ isError (Response.serialize Sample.oversized)
          = Response._isError Sample.oversized.
Proof.
  assert (Hover : Response.estimatedTokens (Response.fullResponse Sample.oversized) > 22000)
    by (vm_compute; reflexivity).
  split; [exact Hover |].
  exact (serialize_over_budget_bound Sample.oversized Hover).
Defined.

(** C7, at the failing input: the response [Sample.oversized] holds one
    image and images are not configured off, yet [serialize] returns the
    truncated text entry alone. *)
Theorem serialize_truncation_drops_images :
  Response._images Sample.oversized = [Sample.image0]
  /\ imageResponses (config (Response._context Sample.oversized)) = None
  /\ content (Response.serialize Sample.oversized)
     = [TextContent (JS.substring 0 79200 (Response.fullResponse Sample.oversized)
                       ++ Response.truncation_notice)].
Proof.
  split; [reflexivity | split; [reflexivity |]].
  rewrite serialize_truncated; [reflexivity | vm_compute; reflexivity].
Qed.

(** ** Snapshot truncation in [finish] *)

Section Finish.
Context `{Host}.

Lemma occurs_here (sub rest : string) : Spec.occurs sub (sub ++ rest).
Proof. exists EmptyString, rest. reflexivity. Qed.

Lemma occurs_skip (sub a rest : string) :
  Spec.occurs sub rest -> Spec.occurs sub (a ++ rest).
Proof.
  intros [before [after E]]. exists (a ++ before), after.
  rewrite E. now rewrite str_append_assoc.
Qed.

Ltac find_occurrence :=
  repeat first [ apply occurs_here | apply occurs_skip ].

(** The warning block names the three filtering parameters. *)
Lemma snapshot_warning_names_parameters (estimate : Z) :
  Spec.occurs "maxElements" (Response.snapshot_warning estimate)
  /\ Spec.occurs "elementTypes" (Response.snapshot_warning estimate)
  /\ Spec.occurs "skipLargeTexts" (Response.snapshot_warning estimate).
Proof. unfold Response.snapshot_warning. repeat split; find_occurrence. Qed.

Lemma over_budget_truthy (text : string) :
  Response.estimatedTokens text > 22000 -> truthy_str text = true.
Proof.
  intros Hover. apply over_budget_length in Hover.
  destruct text; [cbv in Hover; discriminate | reflexivity].
Qed.

(** [_createTruncatedSnapshot] changes the accessibility tree only. *)
Lemma createTruncatedSnapshot_frame (full : TabSnapshot) (check : Response.TokenCheck) :
  let cut := Response._createTruncatedSnapshot full check in
  url cut = url full /\ title cut = title full
  /\ consoleMessages cut = consoleMessages full
  /\ downloads cut = downloads full
  /\ modalStates cut = modalStates full.
Proof. cbv zeta. repeat split. Qed.

(** C4. When the captured snapshot's accessibility tree alone is estimated
    above 22000 tokens (on a response that includes the snapshot, with a
    current tab), [finish] stores a snapshot whose accessibility tree is a
    prefix of the original of at most 22000 * 4 * 0.8 = 70400 units followed
    by the warning block, which names the element count cap, the element
    type filter and the long-text skip; URL, title, console messages,
    downloads and modal states are the original's. *)
Theorem finish_truncates_snapshot (r : Response.t) (snap : TabSnapshot) :
  Response._includeSnapshot r = true ->
  currentTab (Response._context r) <> None ->
  Response.estimatedTokens (ariaSnapshot snap) > 22000 ->
  exists kept stored,
    Response._tabSnapshot (Response.finish (Some snap) r) = Some stored
    /\ ariaSnapshot stored
       = kept ++ Response.snapshot_warning (Response.estimatedTokens (ariaSnapshot snap))
    /\ Spec.is_prefix kept (ariaSnapshot snap)
    /\ len kept <= 70400
    /\ (Spec.occurs "maxElements" (Response.snapshot_warning
                                     (Response.estimatedTokens (ariaSnapshot snap)))
        /\ Spec.occurs "elementTypes" (Response.snapshot_warning
                                         (Response.estimatedTokens (ariaSnapshot snap)))
        /\ Spec.occurs "skipLargeTexts" (Response.snapshot_warning
                                           (Response.estimatedTokens (ariaSnapshot snap))))
    /\ url stored = url snap
    /\ title stored = title snap
    /\ consoleMessages stored = consoleMessages snap
    /\ downloads stored = downloads snap
    /\ modalStates stored = modalStates snap.
Proof.
  intros Hinc Htab Hover.
  exists (JS.substring 0 70400 (ariaSnapshot snap)),
         (Response._createTruncatedSnapshot snap
            (Response.checkTokenLimit (ariaSnapshot snap))).
  split.
  - unfold Response.finish. rewrite Hinc.
    destruct (currentTab (Response._context r)) as [tab |]; [| congruence].
    cbn [andb]. rewrite (over_budget_truthy _ Hover).
    rewrite (needsPagination_over _ Hover). reflexivity.
  - split; [reflexivity |].
    split; [apply substring_from_0_prefix; lia |].
    split; [rewrite substring_from_0_len by lia; lia |].
    split; [apply snapshot_warning_names_parameters |].
    repeat split.
Qed.

End Finish.

(** C4, at a snapshot with an 88004-unit accessibility tree. *)
Lemma finish_truncates_snapshot_witness :
  let r := Response.setIncludeSnapshot Sample.response0 in
  (Response._includeSnapshot r = true
   /\ currentTab (Response._context r) <> None
   /\ Response.estimatedTokens (ariaSnapshot Sample.snapshot0) > 22000)
  /\ exists kept stored,
       Response._tabSnapshot (Response.finish (Some Sample.snapshot0) r) = Some stored
       /\ ariaSnapshot stored
          = kept ++ Response.snapshot_warning
                      (Response.estimatedTokens (ariaSnapshot Sample.snapshot0))
       /\ Spec.is_prefix kept (ariaSnapshot Sample.snapshot0)
       /\ len kept <= 70400
       /\ (Spec.occurs "maxElements"
             (Response.snapshot_warning
                (Response.estimatedTokens (ariaSnapshot Sample.snapshot0)))
           /\ Spec.occurs "elementTypes"
                (Response.snapshot_warning
                   (Response.estimatedTokens (ariaSnapshot Sample.snapshot0)))
           /\ Spec.occurs "skipLargeTexts"
                (Response.snapshot_warning
                   (Response.estimatedTokens (ariaSnapshot Sample.snapshot0))))
       /\ url stored = url Sample.snapshot0
       /\ title stored = title Sample.snapshot0
       /\ consoleMessages stored = consoleMessages Sample.snapshot0
       /\ downloads stored = downloads Sample.snapshot0
       /\ modalStates stored = modalStates Sample.snapshot0.
Proof.
  cbv zeta.
  assert (H1 : Response._includeSnapshot
                 (Response.setIncludeSnapshot Sample.response0) = true)
    by reflexivity.
  assert (H2 : currentTab (Response._context
                             (Response.setIncludeSnapshot Sample.response0)) <> None)
    by (vm_compute; discriminate).
  assert (H3 : Response.estimatedTokens (ariaSnapshot Sample.snapshot0) > 22000)
    by (vm_compute; reflexivity).
  split; [auto |].
  exact (finish_truncates_snapshot
           (Response.setIncludeSnapshot Sample.response0) Sample.snapshot0 H1 H2 H3).
Defined.

(** ** Objects *)

Section Objects.

Lemma get_delete_same (k : string) (o : object) : get k (delete k o) = None.
Proof.
  induction o as [| [k' v] o IH]; simpl; [reflexivity |].
  destruct (String.eqb_spec k k') as [E | E]; [exact IH |].
  simpl. destruct (String.eqb_spec k k'); [contradiction | exact IH].
Qed.

Lemma get_delete_other (k k' : string) (o : object) :
  k <> k' -> get k (delete k' o) = get k o.
Proof.
  intros Hne. induction o as [| [k0 v] o IH]; simpl; [reflexivity |].
  destruct (String.eqb_spec k' k0) as [E | E].
  - subst k0. destruct (String.eqb_spec k k'); [contradiction | exact IH].
  - simpl. destruct (String.eqb_spec k k0); [reflexivity | exact IH].
Qed.

Lemma get_app (k : string) (a b : object) :
  get k (a ++ b)%list = match get k a with Some v => Some v | None => get k b end.
Proof.
  induction a as [| [k' v] a IH]; simpl; [reflexivity |].
  destruct (String.eqb_spec k k'); [reflexivity | exact IH].
Qed.

Lemma set_fresh (k : string) (v : value) (o : object) :
  get k o = None -> set k v o = (o ++ [(k, v)])%list.
Proof.
  induction o as [| [k' v'] o IH]; simpl; [reflexivity |].
  destruct (String.eqb_spec k k'); [discriminate |].
  intros Hget. now rewrite IH.
Qed.

Lemma spread_empty (o : object) : spread o [] = o.
Proof. reflexivity. Qed.

(** What a suggestion holds: the suggested bounds, and every other
    argument of the caller unchanged. *)
Lemma suggestion_get (args : object) (lim off : Z) :
  get "limit" (Spec.suggestion args lim off) = Some (VNum lim)
  /\ get "offset" (Spec.suggestion args lim off) = Some (VNum off)
  /\ forall k, k <> "limit" -> k <> "offset" ->
               get k (Spec.suggestion args lim off) = get k args.
Proof.
  unfold Spec.suggestion. repeat split.
  - rewrite get_app, get_delete_other, get_delete_same by discriminate. reflexivity.
  - rewrite get_app, get_delete_same. reflexivity.
  - intros k Hl Ho. rewrite get_app, !get_delete_other by assumption.
    destruct (get k args) as [v |]; [reflexivity |].
    simpl. destruct (String.eqb_spec k "limit"); [contradiction |].
    destruct (String.eqb_spec k "offset"); [contradiction | reflexivity].
Qed.

End Objects.

(** ** Pagination advice *)

Section Advice.
Context `{Host}.

Lemma pages_length (from : Z) (count : nat) : List.length (Spec.pages from count) = count.
Proof. revert from. induction count as [| c IH]; intros from; simpl; [| rewrite IH]; reflexivity. Qed.

Lemma pages_nth (from : Z) (count i : nat) :
  (i < count)%nat -> nth_error (Spec.pages from count) i = Some (from + Z.of_nat i).
Proof.
  revert from i. induction count as [| c IH]; intros from i Hi; [lia |].
  destruct i as [| i]; simpl.
  - f_equal. lia.
  - rewrite IH by lia. f_equal. lia.
Qed.

(** One round of the loop adds the entry of its page. *)
Lemma page_line_entry (totalPages page : Z) (args : object) :
  Response.page_line totalPages (delete "offset" (delete "limit" args)) page
  = Spec.advice_entry totalPages page (Spec.suggestion args 100 ((page - 1) * 100)).
Proof.
  unfold Response.page_line, Spec.advice_entry, Spec.suggestion.
  set (base := delete "offset" (delete "limit" args)).
  assert (Hl : get "limit" base = None).
  { unfold base. rewrite get_delete_other by discriminate. apply get_delete_same. }
  assert (Ho : get "offset" base = None) by apply get_delete_same.
  rewrite Hl. cbn [or_default times].
  rewrite (set_fresh "limit" _ base Hl).
  rewrite set_fresh.
  - rewrite <- app_assoc. reflexivity.
  - rewrite get_app, Ho. reflexivity.
Qed.

(** The loop, in closed form. *)
Lemma page_loop_entries (totalPages : Z) (args : object) (fuel : nat) :
  forall (page : Z) (message : string),
    Z.min totalPages 5 - page + 1 <= Z.of_nat fuel ->
    Response.page_loop fuel totalPages (delete "offset" (delete "limit" args)) page message
    = message
        ++ Spec.advice_entries totalPages page
             (Spec.suggestions_from args page (Z.to_nat (Z.min totalPages 5 - page + 1))).
Proof.
  induction fuel as [| fuel IH]; intros page message Hfuel.
  - replace (Z.to_nat (Z.min totalPages 5 - page + 1)) with 0%nat by lia.
    simpl. now rewrite str_append_nil_r.
  - cbn [Response.page_loop].
    destruct (Z.leb_spec page (Z.min totalPages 5)) as [Hle | Hgt].
    + rewrite IH by lia. rewrite page_line_entry, str_append_assoc.
      replace (Z.to_nat (Z.min totalPages 5 - page + 1))
        with (S (Z.to_nat (Z.min totalPages 5 - (page + 1) + 1))) by lia.
      reflexivity.
    + replace (Z.to_nat (Z.min totalPages 5 - page + 1)) with 0%nat by lia.
      simpl. now rewrite str_append_nil_r.
Qed.

(** The message [addPaginationWarning] records, for the default
    [additionalParams]. *)
Lemma addPaginationWarning_result (totalPages : Z) (name : string) (r : Response.t) :
  Response._result (Response.addPaginationWarning totalPages name [] r)
  = (Response._result r
       ++ [Spec.advice totalPages
             (Spec.suggestions_from (Response.toolArgs r) 1 (Z.to_nat (Z.min totalPages 5)))])%list.
Proof.
  unfold Response.addPaginationWarning, Response.addResult, Response.with_result.
  cbn [Response._result]. rewrite spread_empty.
  rewrite page_loop_entries by lia.
  replace (Z.min totalPages 5 - 1 + 1) with (Z.min totalPages 5) by lia.
  unfold Spec.advice, Spec.advice_header, Spec.advice_remainder, Spec.advice_footer.
  f_equal. f_equal.
  destruct (totalPages >? 5); rewrite ?str_append_assoc; cbn [String.append];
    rewrite ?str_append_assoc; reflexivity.
Qed.

Lemma suggestions_from_nth (args : object) (count i : nat) (s : object) :
  nth_error (Spec.suggestions_from args 1 count) i = Some s ->
  s = Spec.suggestion args 100 (Z.of_nat i * 100).
Proof.
  unfold Spec.suggestions_from. intros Hnth.
  rewrite nth_error_map in Hnth.
  destruct (Nat.lt_ge_cases i count) as [Hlt | Hge].
  - rewrite pages_nth in Hnth by exact Hlt. cbn [option_map] in Hnth.
    replace (1 + Z.of_nat i - 1) with (Z.of_nat i) in Hnth by lia. congruence.
  - assert (E : nth_error (Spec.pages 1 count) i = None)
      by (apply nth_error_None; rewrite pages_length; exact Hge).
    rewrite E in Hnth. discriminate.
Qed.

End Advice.

Section AdviceClaims.
Context `{Host}.

(** C10. Whatever [limit] or [offset] the caller's arguments hold,
    [addPaginationWarning] records one message whose page entries, for the
    pages 1 to min(totalPages, 5), each suggest [limit] 100 and [offset]
    [(page - 1) * 100]; every other argument of the caller is echoed
    unchanged in each suggestion. *)
Theorem addPaginationWarning_ignores_caller_bounds
        (totalPages : Z) (name : string) (r : Response.t) :
  exists suggested : list object,
    Response._result (Response.addPaginationWarning totalPages name [] r)
    = (Response._result r ++ [Spec.advice totalPages suggested])%list
    /\ Z.of_nat (List.length suggested) = Z.max 0 (Z.min totalPages 5)
    /\ forall (i : nat) (s : object),
         nth_error suggested i = Some s ->
         get "limit" s = Some (VNum 100)
         /\ get "offset" s = Some (VNum (Z.of_nat i * 100))
         /\ forall k, k <> "limit" -> k <> "offset" ->
                      get k s = get k (Response.toolArgs r).
Proof.
  exists (Spec.suggestions_from (Response.toolArgs r) 1 (Z.to_nat (Z.min totalPages 5))).
  split; [apply addPaginationWarning_result |].
  split.
  - unfold Spec.suggestions_from. rewrite length_map, pages_length. lia.
  - intros i s Hnth. apply suggestions_from_nth in Hnth. subst s.
    apply suggestion_get.
Qed.

(** Without [limit] and [offset], a list tool whose rendered list is over
    the budget records the pagination advice and nothing else. *)
Lemma run_over_budget (call : Spec.ListCall) (r : Response.t) :
  Response.estimatedTokens (join nl (Spec.rendered call)) > 22000 ->
  exists name,
    Spec.run call {| limit := None; offset := None |} r
    = Response.addPaginationWarning
        (ceil_div (Response.estimatedTokens (join nl (Spec.rendered call))) 22000)
        name [] r.
Proof.
  intros Hover. destruct call as [messages | entries]; cbn [Spec.rendered] in Hover.
  - exists "browser_console_messages".
    unfold Spec.run, Console.handle. cbn [limit offset not_num andb].
    rewrite (needsPagination_over _ Hover), (totalPages_over _ Hover). reflexivity.
  - exists "browser_network_requests".
    unfold Spec.run, Network.handle. cbn [limit offset not_num andb].
    rewrite (needsPagination_over _ Hover), (totalPages_over _ Hover). reflexivity.
Qed.

(** C5. For a call of a list tool with neither [limit] nor [offset], when
    the rendered full list is estimated over the budget, the listing is
    suppressed: the response gains one message, the pagination advice
    [Spec.advice] for ceil(estimate / 22000) pages, with exactly
    min(totalPages, 5) page entries (each the caller's other arguments with
    [limit] 100 and the page's [offset]) and the count of the remaining
    pages exactly when totalPages > 5. *)
Theorem list_tool_over_budget_gives_advice (call : Spec.ListCall) (r : Response.t) :
  let estimate := Response.estimatedTokens (join nl (Spec.rendered call)) in
  let totalPages := ceil_div estimate 22000 in
  estimate > 22000 ->
  exists suggested : list object,
    Response._result (Spec.run call {| limit := None; offset := None |} r)
    = (Response._result r ++ [Spec.advice totalPages suggested])%list
    /\ Z.of_nat (List.length suggested) = Z.min totalPages 5
    /\ forall (i : nat) (s : object),
         nth_error suggested i = Some s ->
         s = Spec.suggestion (Response.toolArgs r) 100 (Z.of_nat i * 100).
Proof.
  cbv zeta. intros Hover.
  destruct (run_over_budget call r Hover) as [name ->].
  set (totalPages := ceil_div _ 22000).
  assert (Hpages : 1 < totalPages).
  { pose proof (ceil_div_is_ceil
                  (Response.estimatedTokens (join nl (Spec.rendered call))) 22000
                  ltac:(lia)) as Hc.
    unfold Spec.is_ceil in Hc. fold totalPages in Hc. lia. }
  exists (Spec.suggestions_from (Response.toolArgs r) 1 (Z.to_nat (Z.min totalPages 5))).
  split; [apply addPaginationWarning_result |].
  split.
  - unfold Spec.suggestions_from. rewrite length_map, pages_length. lia.
  - intros i s. apply suggestions_from_nth.
Qed.

End AdviceClaims.

(** C5, at a console log of six 88004-unit messages (seven pages). *)
Lemma list_tool_over_budget_gives_advice_witness :
  let call :=
    Spec.ConsoleCall (repeat Sample.long_text 6) in
  let r := Response.constructor Sample.context0 "browser_console_messages"
                                [("level", VStr "error")] in
  Response.estimatedTokens (join nl (Spec.rendered call)) > 22000
  /\ exists suggested : list object,
       Response._result (Spec.run call {| limit := None; offset := None |} r)
       = (Response._result r ++ [Spec.advice 7 suggested])%list
       /\ Z.of_nat (List.length suggested) = Z.min 7 5
       /\ forall (i : nat) (s : object),
            nth_error suggested i = Some s ->
            s = Spec.suggestion (Response.toolArgs r) 100 (Z.of_nat i * 100).
Proof.
  cbv zeta.
  assert (Hover : Response.estimatedTokens
                    (join nl (Spec.rendered (Spec.ConsoleCall (repeat Sample.long_text 6))))
                  > 22000) by (vm_compute; reflexivity).
  split; [exact Hover |].
  pose proof (list_tool_over_budget_gives_advice
                (Spec.ConsoleCall (repeat Sample.long_text 6))
                (Response.constructor Sample.context0 "browser_console_messages"
                                      [("level", VStr "error")]) Hover) as W.
  cbv zeta in W.
  assert (E : ceil_div (Response.estimatedTokens
                          (join nl (Spec.rendered
                                      (Spec.ConsoleCall (repeat Sample.long_text 6)))))
                       22000 = 7) by (vm_compute; reflexivity).
  rewrite E in W. exact W.
Defined.

(** ** The list tools with caller-supplied bounds *)

Section ListTools.
Context `{Host}.

(** For a non-negative start and a positive count, [slice] is the window
    of the list. *)
Lemma slice_window {A} (off lim : Z) (l : list A) :
  0 <= off -> 0 < lim ->
  slice off (off + lim) l = firstn (Z.to_nat lim) (skipn (Z.to_nat off) l).
Proof.
  intros Hoff Hlim. unfold slice, rel_index, alen.
  destruct (Z.ltb_spec off 0) as [? | _]; [lia |].
  destruct (Z.ltb_spec (off + lim) 0) as [? | _]; [lia |].
  destruct (Z_lt_ge_dec off (Z.of_nat (List.length l))) as [Hin | Hout].
  - replace (Z.min off (Z.of_nat (List.length l))) with off by lia.
    destruct (Z_le_gt_dec (off + lim) (Z.of_nat (List.length l))) as [Hle | Hgt].
    + replace (Z.min (off + lim) (Z.of_nat (List.length l)) - off) with lim by lia.
      reflexivity.
    + replace (Z.min (off + lim) (Z.of_nat (List.length l)) - off)
        with (Z.of_nat (List.length l) - off) by lia.
      rewrite !firstn_all2; [reflexivity | rewrite length_skipn; lia ..].
  - rewrite !skipn_all2 by lia. now rewrite !firstn_nil.
Qed.

Lemma fold_addResult {A} (f : A -> string) (items : list A) (r : Response.t) :
  Response._result (fold_left (fun r e => Response.addResult (f e) r) items r)
  = (Response._result r ++ map f items)%list.
Proof.
  revert r. induction items as [| e items IH]; intros r; simpl.
  - now rewrite app_nil_r.
  - rewrite IH. cbn [Response.addResult Response.with_result Response._result].
    now rewrite <- app_assoc.
Qed.

Lemma alen_map {A B} (f : A -> B) (l : list A) : alen (map f l) = alen l.
Proof. unfold alen. now rewrite length_map. Qed.

Lemma alen_zero {A} (l : list A) : (alen l =? 0) = true <-> l = [].
Proof.
  unfold alen. destruct l as [| x l]; split; intros E;
    try reflexivity; discriminate.
Qed.

Lemma window_map {A B} (f : A -> B) (n k : nat) (l : list A) :
  map f (firstn n (skipn k l)) = firstn n (skipn k (map f l)).
Proof. now rewrite skipn_map, firstn_map. Qed.

(** The console tool, when a bound is supplied and not zero. *)
Lemma console_honours (messages : list string) (p : ListParams) (r : Response.t) :
  not_num (limit p) && not_num (offset p) = false ->
  0 < num_or (limit p) 100 -> 0 <= num_or (offset p) 0 ->
  Response._result (Console.handle messages p r)
  = (Response._result r
       ++ Spec.honoured Spec.console_what Spec.console_lead Spec.console_nothing
            messages (num_or (limit p) 100) (num_or (offset p) 0))%list.
Proof.
  intros Hsup Hlim Hoff. unfold Console.handle, Spec.honoured.
  rewrite Hsup. rewrite (slice_window _ _ messages Hoff Hlim).
  set (page := firstn _ (skipn _ messages)).
  assert (Hboth : negb (not_num (limit p)) || negb (not_num (offset p)) = true).
  { rewrite <- negb_andb, Hsup. reflexivity. }
  rewrite Hboth.
  destruct page as [| m page'] eqn:Epage; [reflexivity |].
  replace (alen (m :: page') =? 0) with false
    by (symmetry; apply not_true_iff_false; rewrite alen_zero; discriminate).
  destruct (num_or (offset p) 0 + num_or (limit p) 100 <? alen messages).
  - cbn [Response.addResult Response.with_result Response._result].
    rewrite (fold_addResult (fun m => m)), map_id.
    cbn [Response.addResult Response.with_result Response._result].
    rewrite <- !app_assoc. reflexivity.
  - rewrite (fold_addResult (fun m => m)), map_id.
    cbn [Response.addResult Response.with_result Response._result].
    rewrite app_nil_r, <- !app_assoc. reflexivity.
Qed.

(** The network tool, when a bound is supplied and not zero. *)
Lemma network_honours (entries : list (Network.Request * option Network.NetResponse))
      (p : ListParams) (r : Response.t) :
  not_num (limit p) && not_num (offset p) = false ->
  0 < num_or (limit p) 100 -> 0 <= num_or (offset p) 0 ->
  Response._result (Network.handle entries p r)
  = (Response._result r
       ++ Spec.honoured Spec.network_what Spec.network_lead Spec.network_nothing
            (map (fun e => Network.renderRequest (fst e) (snd e)) entries)
            (num_or (limit p) 100) (num_or (offset p) 0))%list.
Proof.
  intros Hsup Hlim Hoff. unfold Network.handle, Spec.honoured.
  rewrite Hsup. rewrite (slice_window _ _ entries Hoff Hlim).
  rewrite <- window_map, alen_map.
  set (page := firstn _ (skipn _ entries)).
  assert (Hboth : negb (not_num (limit p)) || negb (not_num (offset p)) = true).
  { rewrite <- negb_andb, Hsup. reflexivity. }
  rewrite Hboth.
  destruct page as [| e page'] eqn:Epage; [reflexivity |].
  replace (alen (e :: page') =? 0) with false
    by (symmetry; apply not_true_iff_false; rewrite alen_zero; discriminate).
  rewrite alen_map. cbn [map].
  destruct (num_or (offset p) 0 + num_or (limit p) 100 <? alen entries).
  - cbn [Response.addResult Response.with_result Response._result].
    rewrite (fold_addResult (fun e => Network.renderRequest (fst e) (snd e))).
    cbn [Response.addResult Response.with_result Response._result map].
    rewrite <- !app_assoc. reflexivity.
  - rewrite (fold_addResult (fun e => Network.renderRequest (fst e) (snd e))).
    cbn [Response.addResult Response.with_result Response._result map].
    rewrite app_nil_r, <- !app_assoc. reflexivity.
Qed.

(** C6, amended.  When the caller supplies integer bounds, a [limit] or an
    [offset] that is not zero (a bound that is absent or 0 reads as its
    default: [limit] 100, [offset] 0), with a positive [limit] and a
    non-negative [offset], the tool records exactly: the "nothing found in range" message when
    the slice [[offset, offset + limit)] of the list is empty; otherwise
    the range line (first and last returned position, total count), the
    items of the slice, and one next-page hint with [limit] and
    [offset + limit] exactly when [offset + limit] is less than the
    count. *)
Theorem list_tool_honours_bounds (call : Spec.ListCall) (p : ListParams) (r : Response.t) :
  not_num (limit p) && not_num (offset p) = false ->
  0 < num_or (limit p) 100 ->
  0 <= num_or (offset p) 0 ->
  Response._result (Spec.run call p r)
  = (Response._result r
       ++ Spec.honoured (Spec.what call) (Spec.lead call) (Spec.nothing call)
            (Spec.rendered call) (num_or (limit p) 100) (num_or (offset p) 0))%list.
Proof.
  intros Hsup Hlim Hoff. destruct call as [messages | entries].
  - apply console_honours; assumption.
  - apply network_honours; assumption.
Qed.

End ListTools.

(** C6, at [{limit: 50, offset: 200}] against 250 console messages: the
    range line, then the items 201 to 250, and no next-page hint. *)
Lemma list_tool_honours_bounds_witness :
  let p := {| limit := Some 50; offset := Some 200 |} in
  (not_num (limit p) && not_num (offset p) = false
   /\ 0 < num_or (limit p) 100
   /\ 0 <= num_or (offset p) 0)
  /\ Response._result (Spec.run (Spec.ConsoleCall Sample.messages250) p Sample.response0)
     = "Console messages 201-250 of 250:" :: skipn 200 Sample.messages250.
Proof.
  cbv zeta.
  assert (Hsup : not_num (Some 50) && not_num (Some 200) = false) by reflexivity.
  assert (Hlim : 0 < num_or (Some 50) 100) by reflexivity.
  assert (Hoff : 0 <= num_or (Some 200) 0) by (vm_compute; discriminate).
  split; [auto |].
  rewrite (list_tool_honours_bounds
             (Spec.ConsoleCall Sample.messages250)
             {| limit := Some 50; offset := Some 200 |} Sample.response0
             Hsup Hlim Hoff).
  vm_compute. reflexivity.
Defined.

(** C6 as stated fails at [{offset: 0}]: the caller supplies an offset, the
    claim requires the range line before the two items, and the tool
    records the two items alone. *)
Lemma list_tool_offset_zero_counterexample :
  let p := {| limit := None; offset := Some 0 |} in
  Response._result (Console.handle ["first"; "second"] p Sample.response0)
  = ["first"; "second"]
  /\ Spec.honoured Spec.console_what Spec.console_lead Spec.console_nothing
       ["first"; "second"] (Spec.stated_limit p) (Spec.stated_offset p)
     = ["Console messages 1-2 of 2:"; "first"; "second"]
  /\ Response._result (Console.handle ["first"; "second"] p Sample.response0)
     <> (Response._result Sample.response0
           ++ Spec.honoured Spec.console_what Spec.console_lead Spec.console_nothing
                ["first"; "second"] (Spec.stated_limit p) (Spec.stated_offset p))%list.
Proof.
  cbv zeta. split; [| split]; try (vm_compute; reflexivity).
  vm_compute. discriminate.
Qed.

(** ** The two [browser_evaluate] handlers *)

Section EvaluateClaims.
Context `{Host}.

(** C8. The two handlers are not equivalent: for the result [42] and
    [{maxLength: 1}] the handler that checks the budget first records the
    truncation message, the handler that checks [maxLength] first records
    the full result. *)
Theorem evaluate_handlers_differ :
  exists (result : option value) (params : EvaluateParams) (r : Response.t),
    Response._result (Evaluate.handle_budget_first result params r)
    <> Response._result (Evaluate.handle_maxLength_first result params r).
Proof.
  exists (Some (VNum 42)),
         {| function := "() => 42"; element := None; ref := None;
            maxLength := Some 1; returnSummary := None |},
         (Response.constructor {| tabs := []; config := {| imageResponses := None |} |}
                               "browser_evaluate" []).
  vm_compute. discriminate.
Qed.

End EvaluateClaims.

(** With the sample host, on a result over the budget and
    [{returnSummary: true}], each handler summarises under its own first
    check: the texts they record differ. *)
Lemma evaluate_handlers_differ_over_budget :
  let params := {| function := "() => document.body.innerText"; element := None;
                   ref := None; maxLength := None; returnSummary := Some true |} in
  let a := Evaluate.handle_budget_first (Some (VStr Sample.long_text)) params
                                        Sample.response0 in
  let b := Evaluate.handle_maxLength_first (Some (VStr Sample.long_text)) params
                                           Sample.response0 in
  String.eqb (hd EmptyString (Response._result a)) (hd EmptyString (Response._result b))
  = false.
Proof. vm_compute. reflexivity. Qed.

(** ** The Claude delegate *)

Section Delegate.

Lemma listed_description (tool : Claude.Tool) :
  match Claude.mcp_description tool with
  | Some d => if truthy_str d then d else EmptyString
  | None => EmptyString
  end
  = Claude.tool_description (Spec.listed tool).
Proof.
  unfold Spec.listed. cbn [Claude.tool_description].
  destruct (Claude.mcp_description tool) as [[| c d] |]; reflexivity.
Qed.

(** The tool list of a new conversation. *)
Lemma createConversation_tools (task : string) (ts : list Claude.Tool) (oneShot : bool) :
  Claude.tools (Claude.createConversation task ts oneShot)
  = (map Spec.listed ts ++ if oneShot then [] else [Spec.done_tool])%list.
Proof.
  unfold Claude.createConversation.
  assert (E : map (fun tool =>
                     {| Claude.tool_name := Claude.mcp_name tool;
                        Claude.tool_description :=
                          match Claude.mcp_description tool with
                          | Some d => if truthy_str d then d else EmptyString
                          | None => EmptyString
                          end;
                        Claude.tool_inputSchema := Claude.mcp_inputSchema tool |}) ts
              = map Spec.listed ts).
  { apply map_ext. intros tool. unfold Spec.listed at 1. f_equal.
    apply listed_description. }
  rewrite E. destruct oneShot; cbn [negb Claude.tools]; [now rewrite app_nil_r | reflexivity].
Qed.

(** C9. [checkDoneToolCall] on a call named [done] with the arguments
    [{result: X}] returns [X]; on a call with any other name it returns
    [null]; and [createConversation] lists the registry's tools
    followed by the parameterless [done] tool exactly when the
    conversation is not one-shot (one-shot: the registry's tools alone). *)
Theorem done_signal_and_done_tool :
  (forall (x i : string),
      Claude.checkDoneToolCall
        {| Claude.name := "done"; Claude.arguments := [("result", VStr x)];
           Claude.id := i |}
      = Claude.RetValue (VStr x))
  /\ (forall toolCall,
         Claude.name toolCall <> "done" ->
         Claude.checkDoneToolCall toolCall = Claude.RetValue VNull)
  /\ (forall task ts oneShot,
         Claude.tools (Claude.createConversation task ts oneShot)
         = (map Spec.listed ts ++ if oneShot then [] else [Spec.done_tool])%list)
  /\ (forall task ts oneShot,
         Claude.tools (Claude.createConversation task ts oneShot)
         = (map Spec.listed ts ++ [Spec.done_tool])%list
         <-> oneShot = false)
  /\ Claude.tool_inputSchema Spec.done_tool
     = VObj [("type", VStr "object"); ("properties", VObj [])].
Proof.
  split; [reflexivity |].
  split.
  { intros toolCall Hname. unfold Claude.checkDoneToolCall.
    destruct (String.eqb_spec (Claude.name toolCall) "done") as [E | E];
      [contradiction | reflexivity]. }
  split; [apply createConversation_tools |].
  split; [| reflexivity].
  intros task ts oneShot. rewrite createConversation_tools.
  destruct oneShot; split; intros E; try reflexivity; try discriminate.
  apply (f_equal (@List.length _)) in E.
  rewrite !length_app in E. cbn [List.length] in E. lia.
Qed.

Lemma find_app {A} (p : A -> bool) (l1 l2 : list A) :
  find p (l1 ++ l2) = match find p l1 with Some x => Some x | None => find p l2 end.
Proof.
  induction l1 as [| x l1 IH]; simpl; [reflexivity |].
  destruct (p x); [reflexivity | exact IH].
Qed.

Lemma find_none {A} (p : A -> bool) (l : list A) :
  (forall x, In x l -> p x = false) -> find p l = None.
Proof.
  induction l as [| x l IH]; simpl; intros Hall; [reflexivity |].
  rewrite (Hall x (or_introl eq_refl)). apply IH. intros y Hy. apply Hall. now right.
Qed.

(** After an assistant turn followed by tool results only, that turn is
    the last assistant message of the log. *)
Lemma lastAssistantMessage_trailing_results
      (before : list Claude.LLMMessage) (text : string)
      (calls : option (list Claude.LLMToolCall)) (outcomes : list Spec.ToolOutcome) :
  Claude.lastAssistantMessage
    (before ++ Claude.Assistant text calls :: map Spec.outcome_message outcomes)
  = Some (Claude.Assistant text calls).
Proof.
  unfold Claude.lastAssistantMessage.
  rewrite rev_app_distr. cbn [rev]. rewrite <- !app_assoc, find_app.
  rewrite find_none; [reflexivity |].
  intros m Hm. apply in_rev in Hm. apply in_map_iff in Hm.
  destruct Hm as [[[i c] e] [<- _]]. reflexivity.
Qed.

Lemma covers_all (ids : list string) : Claude.covers ids ids = true.
Proof.
  unfold Claude.covers. apply forallb_forall. intros i Hi.
  apply existsb_exists. exists i. split; [exact Hi | apply String.eqb_refl].
Qed.

Lemma covers_partial (have missing : list string) (i : string) :
  NoDup (have ++ i :: missing) -> Claude.covers have (have ++ i :: missing) = false.
Proof.
  intros Hnd. apply not_true_iff_false. intros Hcov.
  unfold Claude.covers in Hcov. rewrite forallb_forall in Hcov.
  specialize (Hcov i ltac:(apply in_or_app; right; now left)).
  apply existsb_exists in Hcov. destruct Hcov as [j [Hj E]].
  apply String.eqb_eq in E. subst j.
  apply NoDup_remove_2 in Hnd. apply Hnd. apply in_or_app. now left.
Qed.

Lemma outcome_block_id (o : Spec.ToolOutcome) :
  Claude.tool_use_id (Spec.outcome_block o) = Spec.outcome_id o.
Proof. destruct o as [[i c] e]. reflexivity. Qed.

(** The loop over the results of the last assistant turn, one result per
    call in the order of the calls: nothing is sent until the last result,
    which sends them all as one batch. *)
Lemma results_of_last_turn_batched
      (all : list Claude.LLMMessage) (text : string) (calls : list Claude.LLMToolCall)
      (sent : list Claude.MessageParam) :
  Claude.lastAssistantMessage all = Some (Claude.Assistant text (Some calls)) ->
  NoDup (map Claude.id calls) ->
  forall (rest held : list Spec.ToolOutcome),
    map Spec.outcome_id (held ++ rest) = map Claude.id calls ->
    fold_left (Claude.step all) (map Spec.outcome_message rest)
              (sent, map Spec.outcome_block held)
    = match rest with
      | [] => (sent, map Spec.outcome_block held)
      | _ => ((sent ++ [Claude.batch (map Spec.outcome_block (held ++ rest))])%list, [])
      end.
Proof.
  intros Hlast Hnd rest.
  induction rest as [| o rest IH]; intros held Hids; [reflexivity |].
  cbn [map fold_left].
  assert (Hstep :
            Claude.step all (sent, map Spec.outcome_block held) (Spec.outcome_message o)
            = if Claude.covers (map Spec.outcome_id (held ++ [o])) (map Claude.id calls)
              then ((sent ++ [Claude.batch (map Spec.outcome_block (held ++ [o]))])%list, [])
              else (sent, map Spec.outcome_block (held ++ [o]))).
  { destruct o as [[i c] e]. cbn [Spec.outcome_message Claude.step].
    rewrite Hlast.
    replace (map Spec.outcome_block held
               ++ [{| Claude.tool_use_id := i; Claude.result_content := c;
                      Claude.is_error := e |}])%list
      with (map Spec.outcome_block (held ++ [(i, c, e)]))
      by (rewrite map_app; reflexivity).
    rewrite map_map.
    rewrite (map_ext _ _ outcome_block_id). reflexivity. }
  rewrite Hstep. destruct rest as [| o' rest].
  - rewrite Hids, covers_all. reflexivity.
  - rewrite <- Hids.
    replace (held ++ o :: o' :: rest)%list with ((held ++ [o]) ++ o' :: rest)%list
      by (rewrite <- app_assoc; reflexivity).
    rewrite map_app with (l := (held ++ [o])%list). cbn [map].
    rewrite covers_partial.
    + rewrite IH.
      * reflexivity.
      * rewrite <- Hids, <- app_assoc. reflexivity.
    + rewrite <- Hids in Hnd.
      replace (held ++ o :: o' :: rest)%list with ((held ++ [o]) ++ o' :: rest)%list in Hnd
        by (rewrite <- app_assoc; reflexivity).
      rewrite map_app in Hnd. exact Hnd.
Qed.

Lemma addToolResults_messages (conv : Claude.LLMConversation)
      (outcomes : list Spec.ToolOutcome) :
  Claude.messages (Claude.addToolResults conv outcomes)
  = (Claude.messages conv ++ map Spec.outcome_message outcomes)%list.
Proof.
  unfold Claude.addToolResults. revert conv.
  induction outcomes as [| [[i c] e] outcomes IH]; intros conv; cbn [fold_left map].
  - now rewrite app_nil_r.
  - rewrite IH. cbn [Claude.messages]. now rewrite <- app_assoc.
Qed.

(** A log with one tool-calling turn, answered call by call, is translated
    as the claim says: the turns in order, then one batch holding exactly
    the results of the turn's calls. *)
Lemma claudeMessages_single_turn
      (task text : string) (calls : list Claude.LLMToolCall)
      (outcomes : list Spec.ToolOutcome) (ts : list Claude.LLMTool) :
  calls <> [] ->
  NoDup (map Claude.id calls) ->
  map Spec.outcome_id outcomes = map Claude.id calls ->
  Claude.claudeMessages
    (Claude.addToolResults
       {| Claude.messages := [Claude.User task; Claude.Assistant text (Some calls)];
          Claude.tools := ts |} outcomes)
  = [Spec.user_turn task; Spec.assistant_turn text calls;
     Claude.batch (map Spec.outcome_block outcomes)].
Proof.
  intros Hcalls Hnd Hids. unfold Claude.claudeMessages.
  rewrite addToolResults_messages. cbn [Claude.messages app fold_left].
  set (all := Claude.User task :: Claude.Assistant text (Some calls)
                :: map Spec.outcome_message outcomes).
  assert (Hlast : Claude.lastAssistantMessage all
                  = Some (Claude.Assistant text (Some calls)))
    by apply (lastAssistantMessage_trailing_results [Claude.User task]).
  cbn [Claude.step app].
  replace (if alen calls >? 0 then [] else [])
    with (map Spec.outcome_block []) by (destruct (alen calls >? 0); reflexivity).
  rewrite (results_of_last_turn_batched all text calls _ Hlast Hnd outcomes [] Hids).
  destruct outcomes as [| o outcomes].
  - destruct calls; [contradiction | discriminate].
  - reflexivity.
Qed.

(** A log with two tool-calling turns of one call each, with distinct ids
    and every call answered: the result of the first call is not sent. *)
Lemma claudeMessages_two_turns
      (task text1 text2 : string) (call1 call2 : Claude.LLMToolCall)
      (content1 content2 : string) (ts : list Claude.LLMTool) :
  Claude.id call1 <> Claude.id call2 ->
  Claude.claudeMessages
    {| Claude.messages :=
         [Claude.User task;
          Claude.Assistant text1 (Some [call1]);
          Claude.ToolResult (Claude.id call1) content1 None;
          Claude.Assistant text2 (Some [call2]);
          Claude.ToolResult (Claude.id call2) content2 None];
       Claude.tools := ts |}
  = [Spec.user_turn task; Spec.assistant_turn text1 [call1];
     Spec.assistant_turn text2 [call2];
     Claude.batch [ {| Claude.tool_use_id := Claude.id call2;
                       Claude.result_content := content2;
                       Claude.is_error := None |} ] ].
Proof.
  intros Hne. unfold Claude.claudeMessages.
  assert (E1 : (alen [call1] >? 0) = true) by reflexivity.
  assert (E2 : (alen [call2] >? 0) = true) by reflexivity.
  cbn [Claude.messages fold_left Claude.step Claude.lastAssistantMessage rev app find
       Claude.is_assistant map].
  rewrite E1.
  cbn [app map Claude.tool_use_id Claude.covers forallb existsb orb andb].
  destruct (String.eqb_spec (Claude.id call2) (Claude.id call1)) as [E | _];
    [congruence |].
  cbn [orb andb Claude.step map app]. rewrite E2.
  cbn [Claude.lastAssistantMessage rev app find Claude.is_assistant map
       Claude.tool_use_id Claude.covers forallb existsb].
  rewrite String.eqb_refl. reflexivity.
Qed.

(** C1, at the failing input: the log of a run at its third model call.
    The translation keeps the order of the user and assistant turns but
    sends no result for the first turn's call [toolu_a]: one batch, for
    the second turn, is all the provider receives. *)
Theorem claudeMessages_drops_earlier_results :
  Claude.claudeMessages Sample.two_turns
  = [ {| Claude.role := Claude.RUser; Claude.mcontent := Claude.Plain "Fill in the form" |};
      {| Claude.role := Claude.RAssistant;
         Claude.mcontent :=
           Claude.Blocks [Claude.ToolUse "toolu_a" "browser_click" [("ref", VStr "e1")]] |};
      {| Claude.role := Claude.RAssistant;
         Claude.mcontent :=
           Claude.Blocks [Claude.ToolUse "toolu_b" "browser_type" [("ref", VStr "e2")]] |};
      Claude.batch [ {| Claude.tool_use_id := "toolu_b";
                        Claude.result_content := "typed";
                        Claude.is_error := None |} ] ]
  /\ Spec.result_ids (Claude.claudeMessages Sample.two_turns) = ["toolu_b"].
Proof. split; reflexivity. Qed.

End Delegate.

(** * Further properties of the code *)

(** ** Strings and joins *)

Section MoreStrings.

Lemma str_slice_from_0 (m : Z) (s : string) :
  0 <= m ->
  str_slice 0 m s = String.substring 0 (Z.to_nat (Z.min m (len s))) s.
Proof.
  intros Hm. unfold str_slice, rel_index.
  pose proof (len_nonneg s) as Hn.
  destruct (Z.ltb_spec 0 0) as [? | _]; [lia |].
  destruct (Z.ltb_spec m 0) as [? | _]; [lia |].
  replace (Z.min 0 (len s)) with 0 by lia.
  replace (Z.min m (len s) - 0) with (Z.min m (len s)) by lia.
  reflexivity.
Qed.

Lemma str_slice_from_0_len (m : Z) (s : string) :
  0 <= m -> len (str_slice 0 m s) = Z.min m (len s).
Proof.
  intros Hm. rewrite str_slice_from_0 by exact Hm.
  unfold len. rewrite take_length. pose proof (len_nonneg s). unfold len in *. lia.
Qed.

Lemma str_slice_from_0_prefix (m : Z) (s : string) :
  0 <= m -> Spec.is_prefix (str_slice 0 m s) s.
Proof. intros Hm. rewrite str_slice_from_0 by exact Hm. apply take_prefix. Qed.

Lemma join_app (sep : string) (a b : list string) :
  b <> [] -> join sep (a ++ b) = More.lines_then sep a ++ join sep b.
Proof.
  intros Hb. induction a as [| x a IH]; [reflexivity |].
  cbn [app More.lines_then]. unfold join in *. cbn [String.concat].
  destruct (a ++ b)%list as [| y l] eqn:E.
  - destruct a; [contradiction | discriminate].
  - rewrite IH, !str_append_assoc. reflexivity.
Qed.

End MoreStrings.

(** ** Rendering *)

Section Rendering.
Context `{Host}.

(** X1. For a non-negative [maxLength], [trim] returns a text of at most
    [maxLength + 3] units: the text itself when it fits, otherwise its
    first [maxLength] units followed by three dots. *)
Theorem trim_bound (text : string) (maxLength : Z) :
  0 <= maxLength ->
  len (Response.trim text maxLength) <= maxLength + 3
  /\ (len text <= maxLength -> Response.trim text maxLength = text)
  /\ (maxLength < len text ->
      exists kept, Response.trim text maxLength = kept ++ "..."
                   /\ Spec.is_prefix kept text /\ len kept = maxLength).
Proof.
  intros Hm. unfold Response.trim.
  destruct (Z.leb_spec (len text) maxLength) as [Hfit | Hlong].
  - split; [lia | split; [reflexivity | lia]].
  - split; [| split; [lia |]].
    + rewrite len_append, str_slice_from_0_len by exact Hm.
      change (len "...") with 3. lia.
    + intros _. exists (str_slice 0 maxLength text).
      split; [reflexivity |].
      split; [apply str_slice_from_0_prefix; exact Hm |].
      rewrite str_slice_from_0_len by exact Hm. lia.
Qed.

Lemma tab_lines_length (i : Z) (l : list Tab) :
  List.length (Response.tab_lines i l) = List.length l.
Proof.
  revert i. induction l as [| tab l IH]; intros i; cbn [Response.tab_lines List.length];
    [reflexivity | now rewrite IH].
Qed.

Lemma tab_lines_nth (i : Z) (l : list Tab) (k : nat) (tab : Tab) :
  nth_error l k = Some tab ->
  nth_error (Response.tab_lines i l) k = Some (More.tab_line (i + Z.of_nat k) tab).
Proof.
  revert i k. induction l as [| t l IH]; intros i k Hk; [destruct k; discriminate |].
  destruct k as [| k]; cbn [nth_error Response.tab_lines] in *.
  - injection Hk as ->. unfold More.tab_line. rewrite Z.add_0_r. reflexivity.
  - rewrite (IH (i + 1) k Hk). do 2 f_equal. lia.
Qed.

(** X2. When the tab listing is rendered (several tabs, or a forced
    listing of at least one tab), it is the heading, one line per tab in
    order, numbered from 0 and marking the current tab, and an empty
    line; a single tab that is not forced renders nothing. *)
Theorem renderTabsMarkdown_lines (l : list Tab) (force : bool) :
  l <> [] ->
  (match l with [_] => force | _ => true end = true ->
   List.length (Response.renderTabsMarkdown l force) = (List.length l + 2)%nat
   /\ hd_error (Response.renderTabsMarkdown l force) = Some "### Open tabs"
   /\ (forall (i : nat) (tab : Tab),
          nth_error l i = Some tab ->
          nth_error (Response.renderTabsMarkdown l force) (S i)
          = Some (More.tab_line (Z.of_nat i) tab))
   /\ nth_error (Response.renderTabsMarkdown l force) (S (List.length l))
      = Some EmptyString)
  /\ (match l with [_] => force | _ => true end = false ->
      Response.renderTabsMarkdown l force = []).
Proof.
  intros Hne. unfold Response.renderTabsMarkdown, alen.
  destruct l as [| t0 [| t1 l]]; [contradiction | |].
  - destruct force; cbn [negb andb List.length Z.of_nat Z.eqb Pos.eqb Pos.of_succ_nat].
    + split; [intros _ | discriminate].
      repeat split.
      intros [| i] tab Hi; [| destruct i; discriminate].
      cbn in Hi. injection Hi as ->. reflexivity.
    + split; [discriminate | reflexivity].
  - split; [intros _ | discriminate].
    set (tabs := t0 :: t1 :: l).
    replace ((Z.of_nat (List.length tabs) =? 1) && negb force) with false
      by (unfold tabs; cbn [List.length]; destruct (Z.eqb_spec (Z.of_nat (S (S (List.length l)))) 1); [lia | reflexivity]).
    replace (Z.of_nat (List.length tabs) =? 0) with false
      by (unfold tabs; cbn [List.length]; symmetry; apply Z.eqb_neq; lia).
    split; [| split; [reflexivity | split]].
    + cbn [app List.length]. rewrite length_app, tab_lines_length. cbn [List.length]. lia.
    + intros i tab Hi. cbn [app nth_error].
      rewrite nth_error_app1 by (rewrite tab_lines_length; apply nth_error_Some; congruence).
      rewrite (tab_lines_nth 0 tabs i tab Hi). reflexivity.
    + cbn [app nth_error].
      rewrite nth_error_app2 by (rewrite tab_lines_length; lia).
      rewrite tab_lines_length, Nat.sub_diag. reflexivity.
Qed.

(** X3. A rendered snapshot always ends with the page-state block (URL,
    title and the accessibility tree in a yaml fence); with no console
    message and no download it is that block alone. *)
Theorem renderTabSnapshot_ends_with_page_state (ts : TabSnapshot) :
  exists before,
    Response.renderTabSnapshot ts = before ++ More.page_state ts
    /\ (consoleMessages ts = [] -> downloads ts = [] -> before = EmptyString).
Proof.
  unfold Response.renderTabSnapshot, More.page_state.
  set (block := ["### Page state"; _; _; _; _; _; _]).
  match goal with
  | |- context [join nl (?pre ++ block)%list] => set (lines := pre)
  end.
  exists (More.lines_then nl lines). split.
  - apply join_app. discriminate.
  - intros Hc Hd. unfold lines. rewrite Hc, Hd. reflexivity.
Qed.

End Rendering.

(** X1, at a 5-unit text and the limit 3. *)
Lemma trim_bound_witness :
  0 <= 3
  /\ len (Response.trim "hello" 3) <= 3 + 3
  /\ (len "hello" <= 3 -> Response.trim "hello" 3 = "hello")
  /\ (3 < len "hello" ->
      exists kept, Response.trim "hello" 3 = kept ++ "..."
                   /\ Spec.is_prefix kept "hello" /\ len kept = 3).
Proof.
  assert (H0 : 0 <= 3) by lia.
  split; [exact H0 |]. exact (trim_bound "hello" 3 H0).
Defined.

(** X2, at two tabs. *)
Lemma renderTabsMarkdown_lines_witness :
  let second := {| isCurrentTab := false; lastTitle := "Docs";
                   page_url := "https://example.com/docs" |} in
  let l := [Sample.tab0; second] in
  l <> []
  /\ List.length (Response.renderTabsMarkdown l false) = (List.length l + 2)%nat
  /\ nth_error (Response.renderTabsMarkdown l false) 2
     = Some (More.tab_line 1 second).
Proof.
  cbv zeta.
  assert (Hne : [Sample.tab0;
                 {| isCurrentTab := false; lastTitle := "Docs";
                    page_url := "https://example.com/docs" |}] <> []) by discriminate.
  split; [exact Hne |].
  destruct (renderTabsMarkdown_lines _ false Hne) as [W _].
  destruct (W eq_refl) as (Hlen & _ & Hnth & _).
  split; [exact Hlen |].
  exact (Hnth 1%nat _ eq_refl).
Defined.

(** ** What the operations of a response keep *)

Section Operations.
Context `{Host}.

Lemma finish_keeps (captured : option TabSnapshot) (r : Response.t) :
  Response._result (Response.finish captured r) = Response._result r
  /\ Response._code (Response.finish captured r) = Response._code r
  /\ Response._images (Response.finish captured r) = Response._images r
  /\ Response._isError (Response.finish captured r) = Response._isError r
  /\ Response.toolName (Response.finish captured r) = Response.toolName r
  /\ Response.toolArgs (Response.finish captured r) = Response.toolArgs r.
Proof.
  unfold Response.finish.
  destruct (Response._includeSnapshot r
            && match currentTab (Response._context r) with
               | Some _ => true
               | None => false
               end); [| repeat split].
  destruct captured as [temp |]; [| repeat split].
  destruct (truthy_str (ariaSnapshot temp)); [| repeat split].
  destruct (Response.needsPagination (Response.checkTokenLimit (ariaSnapshot temp)));
    repeat split.
Qed.

Lemma apply_isError (op : More.Op) (r : Response.t) :
  Response._isError (More.apply r op)
  = if More.is_error_op op then Some true else Response._isError r.
Proof.
  destruct op; try reflexivity. apply (finish_keeps captured r).
Qed.

(** X4. The error flag is sticky: after any sequence of operations on a
    response (results, errors, code, images, flags, pagination advice,
    [finish]) the flag is [true] if one of them was [addError], and is
    otherwise what it was; no operation clears it. *)
Theorem error_flag_after_operations (ops : list More.Op) (r : Response.t) :
  Response._isError (More.run ops r)
  = if existsb More.is_error_op ops then Some true else Response._isError r.
Proof.
  unfold More.run. revert r.
  induction ops as [| op ops IH]; intros r; cbn [fold_left existsb]; [reflexivity |].
  rewrite IH, apply_isError.
  destruct (More.is_error_op op); cbn [orb]; [| reflexivity].
  destruct (existsb More.is_error_op ops); reflexivity.
Qed.

Lemma apply_appends (op : More.Op) (r : Response.t) :
  (exists more, Response._result (More.apply r op) = (Response._result r ++ more)%list)
  /\ (exists more, Response._code (More.apply r op) = (Response._code r ++ more)%list)
  /\ (exists more, Response._images (More.apply r op) = (Response._images r ++ more)%list)
  /\ Response.toolName (More.apply r op) = Response.toolName r
  /\ Response.toolArgs (More.apply r op) = Response.toolArgs r.
Proof.
  assert (Hsame : forall A (l : list A), exists more, l = (l ++ more)%list)
    by (intros A l; exists []; now rewrite app_nil_r).
  destruct op; cbn [More.apply];
    try (repeat split; (apply Hsame || (eexists; reflexivity) || reflexivity)).
  destruct (finish_keeps captured r) as (E1 & E2 & E3 & _ & E5 & E6).
  rewrite E1, E2, E3, E5, E6. repeat split; apply Hsame.
Qed.

(** X5. Results, code lines and images are append-only: after any sequence
    of operations each list is the former list followed by what was
    added, and the tool name and arguments are the ones the response was
    built with. *)
Theorem operations_append_only (ops : list More.Op) (r : Response.t) :
  (exists more, Response._result (More.run ops r) = (Response._result r ++ more)%list)
  /\ (exists more, Response._code (More.run ops r) = (Response._code r ++ more)%list)
  /\ (exists more, Response._images (More.run ops r) = (Response._images r ++ more)%list)
  /\ Response.toolName (More.run ops r) = Response.toolName r
  /\ Response.toolArgs (More.run ops r) = Response.toolArgs r.
Proof.
  unfold More.run. revert r.
  induction ops as [| op ops IH]; intros r; cbn [fold_left].
  - repeat split; try (exists []; now rewrite app_nil_r).
  - destruct (IH (More.apply r op)) as ([m1 E1] & [m2 E2] & [m3 E3] & E4 & E5).
    destruct (apply_appends op r) as ([n1 F1] & [n2 F2] & [n3 F3] & F4 & F5).
    rewrite E1, E2, E3, E4, E5, F1, F2, F3, F4, F5, <- !app_assoc.
    repeat split; eexists; reflexivity.
Qed.

(** X6. While a modal dialog is open the page snapshot is not rendered:
    two responses that differ only in the stored snapshot's URL, title,
    accessibility tree, console messages and downloads, with the same
    non-empty modal states, serialize alike. *)
Theorem modal_states_hide_snapshot (r : Response.t) (ts ts' : TabSnapshot) :
  modalStates ts = modalStates ts' ->
  modalStates ts <> [] ->
  Response.serialize (Response.with_tabSnapshot (Some ts) r)
  = Response.serialize (Response.with_tabSnapshot (Some ts') r).
Proof.
  intros Hsame Hopen.
  assert (E : Response.sections (Response.with_tabSnapshot (Some ts) r)
              = Response.sections (Response.with_tabSnapshot (Some ts') r)).
  { unfold Response.sections. cbn [Response._tabSnapshot Response.with_tabSnapshot
                                   Response._result Response._code Response._context
                                   Response._includeSnapshot Response._includeTabs].
    rewrite <- Hsame.
    destruct (modalStates ts) as [| m ms]; [contradiction |].
    reflexivity. }
  unfold Response.serialize, Response.fullResponse. rewrite E. reflexivity.
Qed.

(** X7. When the truncation notice is at most 8800 units long, the text
    entry of every serialized response is within the budget that
    [serialize] checks: a second check of it would not ask for
    pagination. *)
Theorem serialized_text_within_budget (r : Response.t) :
  len Response.truncation_notice <= 8800 ->
  Response.needsPagination
    (Response.checkTokenLimit (More.text_of (Response.serialize r))) = false.
Proof.
  intros Hnotice. apply not_true_iff_false. rewrite needsPagination_iff.
  destruct (Z_gt_le_dec (Response.estimatedTokens (Response.fullResponse r)) 22000)
    as [Hover | Hin].
  - rewrite (serialize_truncated r Hover). cbn [More.text_of content].
    rewrite over_budget_length, len_append, substring_from_0_len by lia. lia.
  - unfold Response.serialize.
    destruct (Response.needsPagination
                (Response.checkTokenLimit (Response.fullResponse r))) eqn:E.
    + apply needsPagination_iff in E. lia.
    + destruct (differs (imageResponses (config (Response._context r))) "omit");
        cbn [More.text_of content app]; lia.
Qed.

(** X8. When the warning block is at most 17600 units long, [finish] (on a
    response that includes the snapshot, with a current tab) never stores
    a snapshot whose accessibility tree alone is over the budget; a tree
    within the budget is stored as captured. *)
Theorem finish_stores_tree_within_budget (r : Response.t) (snap : TabSnapshot) :
  Response._includeSnapshot r = true ->
  currentTab (Response._context r) <> None ->
  len (Response.snapshot_warning (Response.estimatedTokens (ariaSnapshot snap))) <= 17600 ->
  exists stored,
    Response._tabSnapshot (Response.finish (Some snap) r) = Some stored
    /\ Response.estimatedTokens (ariaSnapshot stored) <= 22000
    /\ (Response.estimatedTokens (ariaSnapshot snap) <= 22000 -> stored = snap).
Proof.
  intros Hinc Htab Hwarn. unfold Response.finish. rewrite Hinc.
  destruct (currentTab (Response._context r)) as [tab |]; [| congruence].
  cbn [andb].
  destruct (Z_gt_le_dec (Response.estimatedTokens (ariaSnapshot snap)) 22000)
    as [Hover | Hin].
  - rewrite (over_budget_truthy _ Hover), (needsPagination_over _ Hover).
    eexists. split; [reflexivity |]. split; [| lia].
    cbn [Response._createTruncatedSnapshot ariaSnapshot].
    change Response.truncationPoint with 70400.
    apply Z.nlt_ge. intros Hbad. apply Z.lt_gt, over_budget_length in Hbad.
    rewrite len_append, substring_from_0_len in Hbad by lia. lia.
  - exists snap. split; [| split; [exact Hin | reflexivity]].
    destruct (truthy_str (ariaSnapshot snap)); [| reflexivity].
    destruct (Response.needsPagination (Response.checkTokenLimit (ariaSnapshot snap))) eqn:E;
      [| reflexivity].
    apply needsPagination_iff in E. lia.
Qed.

Lemma estimatedTokens_monotone (a b : string) :
  len a <= len b -> Response.estimatedTokens a <= Response.estimatedTokens b.
Proof.
  intros Hle. unfold Response.estimatedTokens.
  pose proof (ceil_div_is_ceil (len a) 4 ltac:(lia)) as Ha.
  pose proof (ceil_div_is_ceil (len b) 4 ltac:(lia)) as Hb.
  unfold Spec.is_ceil in *. lia.
Qed.

(** X9. The budget check depends on the length alone and is monotone: if
    a text needs pagination, every text at least as long needs it too,
    with at least as many pages; and pagination is never for less than
    two pages. *)
Theorem checkTokenLimit_monotone (a b : string) :
  len a <= len b ->
  Response.needsPagination (Response.checkTokenLimit a) = true ->
  Response.needsPagination (Response.checkTokenLimit b) = true
  /\ exists pa pb,
       Response.totalPages (Response.checkTokenLimit a) = Some pa
       /\ Response.totalPages (Response.checkTokenLimit b) = Some pb
       /\ 2 <= pa <= pb.
Proof.
  intros Hle Ha. apply needsPagination_iff in Ha.
  pose proof (estimatedTokens_monotone a b Hle) as Hmono.
  assert (Hb : Response.estimatedTokens b > 22000) by lia.
  split; [apply needsPagination_over; exact Hb |].
  rewrite (totalPages_over a Ha), (totalPages_over b Hb).
  do 2 eexists. split; [reflexivity | split; [reflexivity |]].
  pose proof (ceil_div_is_ceil (Response.estimatedTokens a) 22000 ltac:(lia)) as Ca.
  pose proof (ceil_div_is_ceil (Response.estimatedTokens b) 22000 ltac:(lia)) as Cb.
  unfold Spec.is_ceil in *. lia.
Qed.

End Operations.

(** X6, at a snapshot with an open dialog. *)
Lemma modal_states_hide_snapshot_witness :
  let ts := {| url := "https://example.com/"; title := "Home"; ariaSnapshot := "- button";
               modalStates := ["alert dialog"]; consoleMessages := []; downloads := [] |} in
  let ts' := {| url := "https://example.com/next"; title := "Next";
                ariaSnapshot := "- link"; modalStates := ["alert dialog"];
                consoleMessages := ["log: x"]; downloads := [] |} in
  (modalStates ts = modalStates ts' /\ modalStates ts <> [])
  /\ Response.serialize (Response.with_tabSnapshot (Some ts) Sample.response0)
     = Response.serialize (Response.with_tabSnapshot (Some ts') Sample.response0).
Proof.
  cbv zeta. split; [split; [reflexivity | discriminate] |].
  apply modal_states_hide_snapshot; [reflexivity | discriminate].
Defined.

(** X7, with the sample host, whose notice has 160 units. *)
Lemma serialized_text_within_budget_witness :
  len Response.truncation_notice <= 8800
  /\ Response.needsPagination
       (Response.checkTokenLimit (More.text_of (Response.serialize Sample.oversized)))
     = false.
Proof.
  assert (Hn : len Response.truncation_notice <= 8800) by (vm_compute; discriminate).
  split; [exact Hn |]. exact (serialized_text_within_budget Sample.oversized Hn).
Defined.

(** X8, at the 88004-unit snapshot. *)
Lemma finish_stores_tree_within_budget_witness :
  let r := Response.setIncludeSnapshot Sample.response0 in
  (Response._includeSnapshot r = true
   /\ currentTab (Response._context r) <> None
   /\ len (Response.snapshot_warning
             (Response.estimatedTokens (ariaSnapshot Sample.snapshot0))) <= 17600)
  /\ exists stored,
       Response._tabSnapshot (Response.finish (Some Sample.snapshot0) r) = Some stored
       /\ Response.estimatedTokens (ariaSnapshot stored) <= 22000
       /\ (Response.estimatedTokens (ariaSnapshot Sample.snapshot0) <= 22000 ->
           stored = Sample.snapshot0).
Proof.
  cbv zeta.
  assert (H1 : Response._includeSnapshot
                 (Response.setIncludeSnapshot Sample.response0) = true) by reflexivity.
  assert (H2 : currentTab (Response._context
                             (Response.setIncludeSnapshot Sample.response0)) <> None)
    by (vm_compute; discriminate).
  assert (H3 : len (Response.snapshot_warning
                      (Response.estimatedTokens (ariaSnapshot Sample.snapshot0))) <= 17600)
    by (vm_compute; discriminate).
  split; [auto |].
  exact (finish_stores_tree_within_budget _ Sample.snapshot0 H1 H2 H3).
Defined.

(** X9, at the 88004-unit text and the same text with one more unit. *)
Lemma checkTokenLimit_monotone_witness :
  let a := Sample.long_text in
  let b := Sample.long_text ++ "x" in
  (len a <= len b /\ Response.needsPagination (Response.checkTokenLimit a) = true)
  /\ Response.needsPagination (Response.checkTokenLimit b) = true
  /\ exists pa pb,
       Response.totalPages (Response.checkTokenLimit a) = Some pa
       /\ Response.totalPages (Response.checkTokenLimit b) = Some pb
       /\ 2 <= pa <= pb.
Proof.
  cbv zeta.
  assert (H1 : len Sample.long_text <= len (Sample.long_text ++ "x"))
    by (vm_compute; discriminate).
  assert (H2 : Response.needsPagination (Response.checkTokenLimit Sample.long_text) = true)
    by (vm_compute; reflexivity).
  split; [auto |].
  exact (checkTokenLimit_monotone _ _ H1 H2).
Defined.

(** ** Pagination advice with additional parameters *)

Section AdviceWith.
Context `{Host}.

Lemma get_set (k k' : string) (v : value) (o : object) :
  get k (set k' v o) = if String.eqb k k' then Some v else get k o.
Proof.
  induction o as [| [k0 v0] o IH]; cbn [set get]; [reflexivity |].
  destruct (String.eqb_spec k' k0) as [-> | Hne]; cbn [get].
  - destruct (String.eqb k k0); reflexivity.
  - rewrite IH.
    destruct (String.eqb_spec k k0) as [-> | ?]; [| reflexivity].
    destruct (String.eqb_spec k0 k'); [congruence | reflexivity].
Qed.

Lemma get_absent (k : string) (o : object) : ~ In k (map fst o) -> get k o = None.
Proof.
  induction o as [| [k0 v0] o IH]; cbn [map fst get In]; intros Hnot; [reflexivity |].
  destruct (String.eqb_spec k k0) as [-> | _]; [exfalso; auto |].
  apply IH. auto.
Qed.

(** In [{ ...a, ...b }] a property of [b] wins over the one of [a]. *)
Lemma get_spread (k : string) (a b : object) :
  NoDup (map fst b) ->
  get k (spread a b) = match get k b with Some v => Some v | None => get k a end.
Proof.
  unfold spread. revert a.
  induction b as [| [k1 v1] b IH]; intros a Hnd; cbn [fold_left get map fst] in *;
    [reflexivity |].
  inversion Hnd as [| ? ? Hnotin Hnd']; subst.
  rewrite (IH _ Hnd'), get_set.
  destruct (String.eqb_spec k k1) as [-> | _]; [| reflexivity].
  now rewrite (get_absent k1 b Hnotin).
Qed.

Lemma addPaginationWarning_result_with
      (totalPages : Z) (name : string) (additional : object) (r : Response.t) :
  Response._result (Response.addPaginationWarning totalPages name additional r)
  = (Response._result r
       ++ [Spec.advice totalPages
             (Spec.suggestions_from (spread (Response.toolArgs r) additional) 1
                                    (Z.to_nat (Z.min totalPages 5)))])%list.
Proof.
  unfold Response.addPaginationWarning, Response.addResult, Response.with_result.
  cbn [Response._result].
  rewrite page_loop_entries by lia.
  replace (Z.min totalPages 5 - 1 + 1) with (Z.min totalPages 5) by lia.
  unfold Spec.advice, Spec.advice_header, Spec.advice_remainder, Spec.advice_footer.
  f_equal. f_equal.
  destruct (totalPages >? 5); rewrite ?str_append_assoc; cbn [String.append];
    rewrite ?str_append_assoc; reflexivity.
Qed.

(** X10. With additional parameters (an object, so with distinct keys),
    the advice suggests at most five pages, each with [limit] 100 and
    [offset] [(page - 1) * 100] whatever [limit] or [offset] the additional
    parameters or the tool arguments hold; any other key shows the
    additional parameter when there is one and the tool argument
    otherwise. *)
Theorem addPaginationWarning_additional_params
        (totalPages : Z) (name : string) (additional : object) (r : Response.t) :
  NoDup (map fst additional) ->
  exists suggested : list object,
    Response._result (Response.addPaginationWarning totalPages name additional r)
    = (Response._result r ++ [Spec.advice totalPages suggested])%list
    /\ (List.length suggested <= 5)%nat
    /\ forall (i : nat) (s : object),
         nth_error suggested i = Some s ->
         get "limit" s = Some (VNum 100)
         /\ get "offset" s = Some (VNum (Z.of_nat i * 100))
         /\ forall k, k <> "limit" -> k <> "offset" ->
                      get k s = match get k additional with
                                | Some v => Some v
                                | None => get k (Response.toolArgs r)
                                end.
Proof.
  intros Hnd.
  exists (Spec.suggestions_from (spread (Response.toolArgs r) additional) 1
                                (Z.to_nat (Z.min totalPages 5))).
  split; [apply addPaginationWarning_result_with |].
  split.
  - unfold Spec.suggestions_from. rewrite length_map, pages_length. lia.
  - intros i s Hnth. apply suggestions_from_nth in Hnth. subst s.
    destruct (suggestion_get (spread (Response.toolArgs r) additional) 100
                             (Z.of_nat i * 100)) as (Hl & Ho & Hk).
    split; [exact Hl | split; [exact Ho |]].
    intros k H1 H2. rewrite (Hk k H1 H2). apply get_spread. exact Hnd.
Qed.

End AdviceWith.

(** X10, at seven pages, with an additional [level] that overrides the
    tool's and an additional [limit] that is dropped. *)
Lemma addPaginationWarning_additional_params_witness :
  let additional := [("level", VStr "warning"); ("limit", VNum 7)] in
  let r := Response.constructor Sample.context0 "browser_console_messages"
                                [("level", VStr "error"); ("offset", VNum 30)] in
  NoDup (map fst additional)
  /\ exists suggested : list object,
       Response._result (Response.addPaginationWarning 7 "browser_console_messages"
                                                       additional r)
       = (Response._result r ++ [Spec.advice 7 suggested])%list
       /\ (List.length suggested <= 5)%nat
       /\ forall (i : nat) (s : object),
            nth_error suggested i = Some s ->
            get "limit" s = Some (VNum 100)
            /\ get "offset" s = Some (VNum (Z.of_nat i * 100))
            /\ forall k, k <> "limit" -> k <> "offset" ->
                         get k s = match get k additional with
                                   | Some v => Some v
                                   | None => get k (Response.toolArgs r)
                                   end.
Proof.
  cbv zeta.
  assert (Hnd : NoDup (map fst [("level", VStr "warning"); ("limit", VNum 7)])).
  { cbn [map fst]. repeat constructor; cbn [In]; intuition discriminate. }
  split; [exact Hnd |].
  exact (addPaginationWarning_additional_params
           7 "browser_console_messages"
           [("level", VStr "warning"); ("limit", VNum 7)]
           (Response.constructor Sample.context0 "browser_console_messages"
                                 [("level", VStr "error"); ("offset", VNum 30)]) Hnd).
Defined.

(** ** The list tools, in general *)

Section ListToolsMore.
Context `{Host}.

Lemma slice_map {A B} (f : A -> B) (a b : Z) (l : list A) :
  map f (slice a b l) = slice a b (map f l).
Proof. unfold slice. now rewrite alen_map, window_map. Qed.

Lemma negb_both (a b : bool) : negb a || negb b = negb (a && b).
Proof. destruct a, b; reflexivity. Qed.

(** What the console tool records when it does not give pagination
    advice. *)
Lemma console_body (messages : list string) (p : ListParams) (r : Response.t) :
  (not_num (limit p) && not_num (offset p) = true ->
   Response.estimatedTokens (join nl messages) <= 22000) ->
  Response._result (Console.handle messages p r)
  = (Response._result r
       ++ More.listing_of (negb (not_num (limit p) && not_num (offset p)))
            Spec.console_what Spec.console_lead Spec.console_nothing (alen messages)
            (slice (num_or (offset p) 0) (num_or (offset p) 0 + num_or (limit p) 100)
                   messages)
            (num_or (limit p) 100) (num_or (offset p) 0))%list.
Proof.
  intros Hin. unfold Console.handle, More.listing_of.
  assert (Hearly :
            (if not_num (limit p) && not_num (offset p)
             then if Response.needsPagination (Response.checkTokenLimit (join nl messages))
                  then Some (Response.checkTokenLimit (join nl messages)) else None
             else None) = None).
  { destruct (not_num (limit p) && not_num (offset p)); [| reflexivity].
    destruct (Response.needsPagination (Response.checkTokenLimit (join nl messages))) eqn:E;
      [| reflexivity].
    apply needsPagination_iff in E. specialize (Hin eq_refl). lia. }
  cbv zeta. rewrite Hearly, negb_both.
  set (page := slice _ _ messages).
  destruct page as [| m page'] eqn:Epage; [reflexivity |].
  replace (alen (m :: page') =? 0) with false
    by (symmetry; apply not_true_iff_false; rewrite alen_zero; discriminate).
  destruct (negb (not_num (limit p) && not_num (offset p)));
    destruct (num_or (offset p) 0 + num_or (limit p) 100 <? alen messages);
    cbn [Response.addResult Response.with_result Response._result];
    rewrite (fold_addResult (fun m => m)), map_id;
    cbn [Response.addResult Response.with_result Response._result app];
    rewrite <- ?app_assoc, ?app_nil_r; reflexivity.
Qed.

(** The same for the network tool. *)
Lemma network_body (entries : list (Network.Request * option Network.NetResponse))
      (p : ListParams) (r : Response.t) :
  (not_num (limit p) && not_num (offset p) = true ->
   Response.estimatedTokens
     (join nl (map (fun e => Network.renderRequest (fst e) (snd e)) entries)) <= 22000) ->
  Response._result (Network.handle entries p r)
  = (Response._result r
       ++ More.listing_of (negb (not_num (limit p) && not_num (offset p)))
            Spec.network_what Spec.network_lead Spec.network_nothing (alen entries)
            (slice (num_or (offset p) 0) (num_or (offset p) 0 + num_or (limit p) 100)
                   (map (fun e => Network.renderRequest (fst e) (snd e)) entries))
            (num_or (limit p) 100) (num_or (offset p) 0))%list.
Proof.
  intros Hin. unfold Network.handle, More.listing_of.
  set (render := fun e : Network.Request * option Network.NetResponse =>
                   Network.renderRequest (fst e) (snd e)) in *.
  assert (Hearly :
            (if not_num (limit p) && not_num (offset p)
             then if Response.needsPagination
                       (Response.checkTokenLimit (join nl (map render entries)))
                  then Some (Response.checkTokenLimit (join nl (map render entries)))
                  else None
             else None) = None).
  { destruct (not_num (limit p) && not_num (offset p)); [| reflexivity].
    destruct (Response.needsPagination
                (Response.checkTokenLimit (join nl (map render entries)))) eqn:E;
      [| reflexivity].
    apply needsPagination_iff in E. specialize (Hin eq_refl). lia. }
  cbv zeta. rewrite Hearly, negb_both, <- slice_map.
  set (page := slice _ _ entries).
  destruct page as [| e page'] eqn:Epage; [reflexivity |].
  replace (alen (e :: page') =? 0) with false
    by (symmetry; apply not_true_iff_false; rewrite alen_zero; discriminate).
  rewrite alen_map. cbn [map].
  destruct (negb (not_num (limit p) && not_num (offset p)));
    destruct (num_or (offset p) 0 + num_or (limit p) 100 <? alen entries);
    cbn [Response.addResult Response.with_result Response._result];
    rewrite (fold_addResult render);
    cbn [Response.addResult Response.with_result Response._result app map];
    rewrite <- ?app_assoc, ?app_nil_r; reflexivity.
Qed.

(** Both tools at once. *)
Lemma run_body (call : Spec.ListCall) (p : ListParams) (r : Response.t) :
  (not_num (limit p) && not_num (offset p) = true ->
   Response.estimatedTokens (join nl (Spec.rendered call)) <= 22000) ->
  Response._result (Spec.run call p r)
  = (Response._result r
       ++ More.listing_of (negb (not_num (limit p) && not_num (offset p)))
            (Spec.what call) (Spec.lead call) (Spec.nothing call)
            (alen (Spec.rendered call))
            (slice (num_or (offset p) 0) (num_or (offset p) 0 + num_or (limit p) 100)
                   (Spec.rendered call))
            (num_or (limit p) 100) (num_or (offset p) 0))%list.
Proof.
  intros Hin. destruct call as [messages | entries].
  - apply console_body. exact Hin.
  - cbn [Spec.rendered Spec.what Spec.lead Spec.nothing]. rewrite alen_map.
    apply network_body. exact Hin.
Qed.

Lemma num_or_absent (a : option Z) (d : Z) : not_num a = true -> num_or a d = d.
Proof.
  destruct a as [n |]; cbn [not_num num_or]; [| reflexivity].
  intros E. now rewrite E.
Qed.

End ListToolsMore.

Section ListToolsClaims.
Context `{Host}.

(** X11. A call of a list tool whose bounds are both absent (or 0), on a
    list within the budget, records the first 100 items with no range
    line, followed by the hint [{limit: 100, offset: 100}] exactly when
    the list has more than 100 items; an empty list records the "nothing
    found" message. *)
Theorem list_tool_default_page (call : Spec.ListCall) (p : ListParams) (r : Response.t) :
  not_num (limit p) && not_num (offset p) = true ->
  Response.estimatedTokens (join nl (Spec.rendered call)) <= 22000 ->
  Response._result (Spec.run call p r)
  = (Response._result r
       ++ match firstn 100 (Spec.rendered call) with
          | [] => [Spec.nothing call]
          | page =>
              page ++ (if 100 <? alen (Spec.rendered call)
                       then [Spec.next_page (Spec.lead call) 100 100] else [])
          end)%list.
Proof.
  intros Hboth Hin. rewrite (run_body call p r (fun _ => Hin)).
  apply andb_prop in Hboth. destruct Hboth as [Hl Ho].
  rewrite (num_or_absent _ 100 Hl), (num_or_absent _ 0 Ho), Hl, Ho.
  rewrite (slice_window 0 100 (Spec.rendered call)) by lia.
  cbn [andb negb Z.to_nat skipn]. unfold More.listing_of.
  change (Pos.to_nat 100) with 100%nat.
  destruct (firstn 100 (Spec.rendered call)); reflexivity.
Qed.

(** X12. On an empty list a list tool records the "nothing found" message
    alone, whatever the bounds. *)
Theorem list_tool_empty_list (call : Spec.ListCall) (p : ListParams) (r : Response.t) :
  Spec.rendered call = [] ->
  Response._result (Spec.run call p r)
  = (Response._result r ++ [Spec.nothing call])%list.
Proof.
  intros Hempty. rewrite run_body.
  - rewrite Hempty. unfold slice. rewrite skipn_nil, firstn_nil. reflexivity.
  - intros _. rewrite Hempty. vm_compute. discriminate.
Qed.

Lemma firstn_plus {A} (a b : nat) (l : list A) :
  firstn (a + b) l = (firstn a l ++ firstn b (skipn a l))%list.
Proof.
  revert l. induction a as [| a IH]; intros l; [reflexivity |].
  destruct l as [| x l]; cbn [Nat.add firstn skipn app].
  - now rewrite firstn_nil.
  - now rewrite IH.
Qed.

Lemma pages_concat {A} (lim : Z) (items : list A) (m : nat) :
  List.concat (map (More.page_of lim items) (seq 0 m)) = firstn (m * Z.to_nat lim) items.
Proof.
  induction m as [| m IH]; [reflexivity |].
  rewrite seq_S, map_app, concat_app, IH. cbn [map List.concat Nat.add].
  rewrite app_nil_r. unfold More.page_of.
  replace (S m * Z.to_nat lim)%nat with (m * Z.to_nat lim + Z.to_nat lim)%nat by lia.
  now rewrite firstn_plus.
Qed.

(** X13. Paging with a positive integer [limit] visits every item once, in
    order:
    the call for page [k] (offset [k * limit], inside the list) records
    the range line, the [k]-th page of the list and, unless it is the last
    page, the hint that leads to page [k + 1]; and the pages 0 to
    ceil(n / limit) - 1 put end to end are the whole list. *)
Theorem paging_visits_every_item (call : Spec.ListCall) (lim : Z) (r : Response.t) :
  0 < lim ->
  (forall k : nat,
      Z.of_nat k * lim < alen (Spec.rendered call) ->
      Response._result
        (Spec.run call {| limit := Some lim; offset := Some (Z.of_nat k * lim) |} r)
      = (Response._result r
           ++ [Spec.range_line (Spec.what call) (Z.of_nat k * lim + 1)
                 (Z.of_nat k * lim + alen (More.page_of lim (Spec.rendered call) k))
                 (alen (Spec.rendered call))]
           ++ More.page_of lim (Spec.rendered call) k
           ++ (if Z.of_nat (S k) * lim <? alen (Spec.rendered call)
               then [Spec.next_page (Spec.lead call) lim (Z.of_nat (S k) * lim)]
               else []))%list)
  /\ List.concat (map (More.page_of lim (Spec.rendered call))
                 (seq 0 (Z.to_nat (ceil_div (alen (Spec.rendered call)) lim))))
     = Spec.rendered call.
Proof.
  intros Hlim. split.
  - intros k Hk.
    assert (Hsup : not_num (Some lim) && not_num (Some (Z.of_nat k * lim)) = false).
    { cbn [not_num]. destruct (Z.eqb_spec lim 0); [lia | reflexivity]. }
    assert (El : num_or (Some lim) 100 = lim).
    { cbn [num_or]. destruct (Z.eqb_spec lim 0); [lia | reflexivity]. }
    assert (Eo : num_or (Some (Z.of_nat k * lim)) 0 = Z.of_nat k * lim).
    { cbn [num_or]. destruct (Z.eqb_spec (Z.of_nat k * lim) 0) as [E | _];
        [now rewrite E | reflexivity]. }
    rewrite run_body by (cbn [limit offset]; rewrite Hsup; discriminate).
    cbn [limit offset]. rewrite Hsup, El, Eo. cbn [negb].
    rewrite slice_window by lia.
    replace (Z.to_nat (Z.of_nat k * lim)) with (k * Z.to_nat lim)%nat
      by (rewrite Z2Nat.inj_mul, Nat2Z.id by lia; reflexivity).
    fold (More.page_of lim (Spec.rendered call) k).
    replace (Z.of_nat (S k) * lim) with (Z.of_nat k * lim + lim) by lia.
    unfold More.listing_of.
    destruct (More.page_of lim (Spec.rendered call) k) as [| x page] eqn:E;
      [| reflexivity].
    exfalso. apply (f_equal (@List.length _)) in E.
    unfold More.page_of in E. rewrite length_firstn, length_skipn in E.
    unfold alen in Hk. cbn [List.length] in E. nia.
  - rewrite pages_concat. apply firstn_all2.
    pose proof (ceil_div_is_ceil (alen (Spec.rendered call)) lim Hlim) as Hc.
    unfold Spec.is_ceil, alen in *.
    set (q := ceil_div (Z.of_nat (List.length (Spec.rendered call))) lim) in *.
    assert (Hq : 0 <= q) by nia.
    apply Nat2Z.inj_le. rewrite Nat2Z.inj_mul, !Z2Nat.id by lia. nia.
Qed.

(** X14. With integer bounds, a negative [offset] addresses the tail of
    the list: for a positive [limit] with [offset + limit] still negative
    and at least [-offset] items, the tool
    records the [limit] items that start [-offset] places before the end,
    under a range line that counts from [offset + 1], and a hint to
    [offset + limit]. *)
Theorem list_tool_negative_offset
        (call : Spec.ListCall) (lim off : Z) (r : Response.t) :
  0 < lim -> off + lim < 0 -> - off <= alen (Spec.rendered call) ->
  Response._result (Spec.run call {| limit := Some lim; offset := Some off |} r)
  = (Response._result r
       ++ [Spec.range_line (Spec.what call) (off + 1) (off + lim)
             (alen (Spec.rendered call))]
       ++ firstn (Z.to_nat lim)
                 (skipn (Z.to_nat (alen (Spec.rendered call) + off)) (Spec.rendered call))
       ++ [Spec.next_page (Spec.lead call) lim (off + lim)])%list.
Proof.
  intros Hlim Hneg Hfit.
  assert (Hsup : not_num (Some lim) && not_num (Some off) = false).
  { cbn [not_num]. destruct (Z.eqb_spec lim 0); [lia | reflexivity]. }
  assert (El : num_or (Some lim) 100 = lim).
  { cbn [num_or]. destruct (Z.eqb_spec lim 0); [lia | reflexivity]. }
  assert (Eo : num_or (Some off) 0 = off).
  { cbn [num_or]. destruct (Z.eqb_spec off 0); [lia | reflexivity]. }
  rewrite run_body by (cbn [limit offset]; rewrite Hsup; discriminate).
  cbn [limit offset]. rewrite Hsup, El, Eo. cbn [negb].
  set (items := Spec.rendered call) in *.
  assert (Eslice : slice off (off + lim) items
                   = firstn (Z.to_nat lim) (skipn (Z.to_nat (alen items + off)) items)).
  { unfold slice, rel_index.
    destruct (Z.ltb_spec off 0) as [_ | ?]; [| lia].
    destruct (Z.ltb_spec (off + lim) 0) as [_ | ?]; [| lia].
    f_equal; [| f_equal]; lia. }
  rewrite Eslice.
  set (page := firstn _ _).
  assert (Hlen : alen page = lim).
  { unfold page, alen in *. rewrite length_firstn, length_skipn. lia. }
  unfold More.listing_of. rewrite Hlen.
  destruct page as [| x page'] eqn:E; [cbn in Hlen; lia |].
  destruct (Z.ltb_spec (off + lim) (alen items)) as [_ | Hbad];
    [reflexivity | unfold alen in *; lia].
Qed.

End ListToolsClaims.

(** X11, at 250 short console messages: the first 100 and the hint. *)
Lemma list_tool_default_page_witness :
  let p := {| limit := None; offset := None |} in
  (not_num (limit p) && not_num (offset p) = true
   /\ Response.estimatedTokens
        (join nl (Spec.rendered (Spec.ConsoleCall Sample.messages250))) <= 22000)
  /\ Response._result (Spec.run (Spec.ConsoleCall Sample.messages250) p Sample.response0)
     = (firstn 100 Sample.messages250
          ++ [Spec.next_page Spec.console_lead 100 100])%list.
Proof.
  cbv zeta.
  assert (H1 : not_num None && not_num None = true) by reflexivity.
  assert (H2 : Response.estimatedTokens
                 (join nl (Spec.rendered (Spec.ConsoleCall Sample.messages250))) <= 22000)
    by (vm_compute; discriminate).
  split; [auto |].
  rewrite (list_tool_default_page (Spec.ConsoleCall Sample.messages250)
                                  {| limit := None; offset := None |}
                                  Sample.response0 H1 H2).
  vm_compute. reflexivity.
Defined.

(** X12, at an empty network log with bounds. *)
Lemma list_tool_empty_list_witness :
  Spec.rendered (Spec.NetworkCall []) = []
  /\ Response._result (Spec.run (Spec.NetworkCall [])
                                {| limit := Some 5; offset := Some 3 |} Sample.response0)
     = ["No network requests found in the specified range."].
Proof.
  assert (H1 : Spec.rendered (Spec.NetworkCall []) = []) by reflexivity.
  split; [exact H1 |].
  rewrite (list_tool_empty_list (Spec.NetworkCall [])
                                {| limit := Some 5; offset := Some 3 |}
                                Sample.response0 H1).
  reflexivity.
Defined.

(** X13, at 250 console messages in pages of 100. *)
Lemma paging_visits_every_item_witness :
  0 < 100
  /\ Response._result
       (Spec.run (Spec.ConsoleCall Sample.messages250)
                 {| limit := Some 100; offset := Some 200 |} Sample.response0)
     = ("Console messages 201-250 of 250:" :: skipn 200 Sample.messages250)
  /\ List.concat (map (More.page_of 100 Sample.messages250) [0; 1; 2]%nat)
     = Sample.messages250.
Proof.
  assert (H0 : 0 < 100) by lia.
  split; [exact H0 |].
  destruct (paging_visits_every_item (Spec.ConsoleCall Sample.messages250) 100
                                     Sample.response0 H0) as [Hpage Hall].
  split.
  - assert (Hk : Z.of_nat 2 * 100 < alen (Spec.rendered (Spec.ConsoleCall Sample.messages250)))
      by (vm_compute; reflexivity).
    specialize (Hpage 2%nat Hk).
    change (Z.of_nat 2 * 100) with 200 in Hpage.
    rewrite Hpage. vm_compute. reflexivity.
  - exact Hall.
Defined.

(** X14, at [{limit: 5, offset: -10}] against 250 console messages. *)
Lemma list_tool_negative_offset_witness :
  (0 < 5 /\ -10 + 5 < 0
   /\ - (-10) <= alen (Spec.rendered (Spec.ConsoleCall Sample.messages250)))
  /\ Response._result
       (Spec.run (Spec.ConsoleCall Sample.messages250)
                 {| limit := Some 5; offset := Some (-10) |} Sample.response0)
     = ["Console messages -9--5 of 250:";
        "message 241"; "message 242"; "message 243"; "message 244"; "message 245";
        Spec.next_page Spec.console_lead 5 (-5)].
Proof.
  assert (H1 : 0 < 5) by lia.
  assert (H2 : -10 + 5 < 0) by lia.
  assert (H3 : - (-10) <= alen (Spec.rendered (Spec.ConsoleCall Sample.messages250)))
    by (vm_compute; discriminate).
  split; [auto |].
  rewrite (list_tool_negative_offset (Spec.ConsoleCall Sample.messages250) 5 (-10)
                                     Sample.response0 H1 H2 H3).
  vm_compute. reflexivity.
Defined.

Section ListToolsFrame.
Context `{Host}.

(** X15. A bound of 0 counts as an absent bound: a call whose [limit] and
    [offset] are each absent or 0 behaves as the call without bounds. *)
Theorem list_tool_zero_is_absent (call : Spec.ListCall) (p : ListParams) (r : Response.t) :
  not_num (limit p) && not_num (offset p) = true ->
  Spec.run call p r = Spec.run call {| limit := None; offset := None |} r.
Proof.
  intros Hboth. apply andb_prop in Hboth. destruct Hboth as [Hl Ho].
  destruct p as [[l |] [o |]]; cbn [limit offset not_num] in Hl, Ho;
    try (apply Z.eqb_eq in Hl; subst l); try (apply Z.eqb_eq in Ho; subst o);
    destruct call; reflexivity.
Qed.

Lemma same_frame_refl (r : Response.t) : More.same_frame r r.
Proof. unfold More.same_frame. repeat split. Qed.

Lemma addResult_frame (r0 r1 : Response.t) (s : string) :
  More.same_frame r0 r1 -> More.same_frame r0 (Response.addResult s r1).
Proof. intros Hf. exact Hf. Qed.

Lemma fold_addResult_frame {A} (f : A -> string) (items : list A) (r0 r1 : Response.t) :
  More.same_frame r0 r1 ->
  More.same_frame r0 (fold_left (fun r e => Response.addResult (f e) r) items r1).
Proof.
  revert r1. induction items as [| e items IH]; intros r1 Hf; [exact Hf |].
  cbn [fold_left]. apply IH. apply addResult_frame. exact Hf.
Qed.

Lemma addPaginationWarning_frame (r0 r1 : Response.t) (totalPages : Z) (name : string)
      (additional : object) :
  More.same_frame r0 r1 ->
  More.same_frame r0 (Response.addPaginationWarning totalPages name additional r1).
Proof. intros Hf. exact Hf. Qed.

Ltac frame_steps :=
  repeat first [ apply addResult_frame
               | apply (fold_addResult_frame (fun m : string => m))
               | apply fold_addResult_frame
               | apply addPaginationWarning_frame ];
  apply same_frame_refl.

Lemma run_frame (call : Spec.ListCall) (p : ListParams) (r : Response.t) :
  More.same_frame r (Spec.run call p r).
Proof.
  destruct call as [messages | entries]; cbn [Spec.run];
    [unfold Console.handle | unfold Network.handle]; cbv zeta;
    repeat match goal with
           | |- context [if ?c then _ else _] => destruct c
           end;
    frame_steps.
Qed.

Lemma run_early (call : Spec.ListCall) (p : ListParams) (r : Response.t) :
  not_num (limit p) && not_num (offset p) = true ->
  Response.estimatedTokens (join nl (Spec.rendered call)) > 22000 ->
  exists name,
    Spec.run call p r
    = Response.addPaginationWarning
        (ceil_div (Response.estimatedTokens (join nl (Spec.rendered call))) 22000)
        name [] r.
Proof.
  intros Hboth Hover. destruct call as [messages | entries]; cbn [Spec.rendered] in Hover.
  - exists "browser_console_messages".
    unfold Spec.run, Console.handle. rewrite Hboth.
    rewrite (needsPagination_over _ Hover), (totalPages_over _ Hover). reflexivity.
  - exists "browser_network_requests".
    unfold Spec.run, Network.handle. rewrite Hboth.
    rewrite (needsPagination_over _ Hover), (totalPages_over _ Hover). reflexivity.
Qed.

(** X16. A list tool only adds results, and always at least one: whatever
    the list and the bounds, the code lines, images, flags, stored
    snapshot, arguments and error flag of the response are untouched, and
    the results are the former ones followed by a non-empty addition. *)
Theorem list_tool_adds_results (call : Spec.ListCall) (p : ListParams) (r : Response.t) :
  More.same_frame r (Spec.run call p r)
  /\ exists more,
       more <> []
       /\ Response._result (Spec.run call p r) = (Response._result r ++ more)%list.
Proof.
  split; [apply run_frame |].
  destruct (not_num (limit p) && not_num (offset p)) eqn:Hboth.
  - destruct (Z_gt_le_dec
                (Response.estimatedTokens (join nl (Spec.rendered call))) 22000)
      as [Hover | Hin].
    + destruct (run_early call p r Hboth Hover) as [name ->].
      rewrite addPaginationWarning_result. eexists. split; [| reflexivity]. discriminate.
    + rewrite (run_body call p r (fun _ => Hin)). eexists. split; [| reflexivity].
      unfold More.listing_of. destruct (slice _ _ (Spec.rendered call)); [discriminate |].
      rewrite Hboth. cbn [negb app]. discriminate.
  - rewrite run_body by (rewrite Hboth; discriminate).
    eexists. split; [| reflexivity].
    unfold More.listing_of. destruct (slice _ _ (Spec.rendered call)); [discriminate |].
    rewrite Hboth. cbn [negb app]. discriminate.
Qed.

End ListToolsFrame.

(** X15, at [{limit: 0, offset: 0}] against 250 console messages. *)
Lemma list_tool_zero_is_absent_witness :
  let p := {| limit := Some 0; offset := Some 0 |} in
  not_num (limit p) && not_num (offset p) = true
  /\ Spec.run (Spec.ConsoleCall Sample.messages250) p Sample.response0
     = Spec.run (Spec.ConsoleCall Sample.messages250)
                {| limit := None; offset := None |} Sample.response0.
Proof.
  cbv zeta.
  assert (H1 : not_num (Some 0) && not_num (Some 0) = true) by reflexivity.
  split; [exact H1 |].
  exact (list_tool_zero_is_absent (Spec.ConsoleCall Sample.messages250)
                                  {| limit := Some 0; offset := Some 0 |}
                                  Sample.response0 H1).
Defined.

(** ** The evaluate handlers, in general *)

Section EvaluateMore.
Context `{Host}.

Lemma not_over_budget (text : string) :
  Response.estimatedTokens text <= 22000 ->
  Response.needsPagination (Response.checkTokenLimit text) = false.
Proof.
  intros Hin. apply not_true_iff_false. rewrite needsPagination_iff. lia.
Qed.

(** X17. On a result within the budget the two handlers agree whenever the
    result is within [maxLength] or a summary is asked for; they can only
    differ on a result longer than [maxLength] without [returnSummary]
    (or over the budget). *)
Theorem evaluate_handlers_agree
        (result : option value) (params : EvaluateParams) (r : Response.t) :
  Response.estimatedTokens (Evaluate.jsonResult_of result) <= 22000 ->
  len (Evaluate.jsonResult_of result) <= num_or (maxLength params) 10000
  \/ truthy_bool (returnSummary params) = true ->
  Evaluate.handle_budget_first result params r
  = Evaluate.handle_maxLength_first result params r.
Proof.
  intros Hin Hcase.
  unfold Evaluate.handle_budget_first, Evaluate.handle_maxLength_first. cbv zeta.
  rewrite (not_over_budget _ Hin).
  destruct (Z.gtb_spec (len (Evaluate.jsonResult_of result))
                       (num_or (maxLength params) 10000)) as [Hlong | Hfit];
    [| reflexivity].
  destruct Hcase as [Hfit | Hsum]; [lia |].
  rewrite Hsum. reflexivity.
Qed.

(** X18. The handler that checks [maxLength] first records the result in
    full, whatever its size, when the result is within [maxLength] (even
    over the budget), and also when it is within the budget and no
    summary is asked for (even beyond [maxLength]). *)
Theorem maxLength_first_records_in_full
        (result : option value) (params : EvaluateParams) (r : Response.t) :
  len (Evaluate.jsonResult_of result) <= num_or (maxLength params) 10000
  \/ (truthy_bool (returnSummary params) = false
      /\ Response.estimatedTokens (Evaluate.jsonResult_of result) <= 22000) ->
  Evaluate.handle_maxLength_first result params r
  = Response.addResult (Evaluate.jsonResult_of result) (Evaluate.prologue params r).
Proof.
  intros Hcase. unfold Evaluate.handle_maxLength_first. cbv zeta.
  destruct (Z.gtb_spec (len (Evaluate.jsonResult_of result))
                       (num_or (maxLength params) 10000)) as [Hlong | Hfit];
    [| reflexivity].
  destruct Hcase as [Hfit | [Hsum Hin]]; [lia |].
  rewrite Hsum, (not_over_budget _ Hin). reflexivity.
Qed.

Lemma prologue_frame (params : EvaluateParams) (r : Response.t) :
  Response._result (Evaluate.prologue params r) = Response._result r
  /\ List.length (Response._code (Evaluate.prologue params r))
     = S (List.length (Response._code r))
  /\ Response._includeSnapshot (Evaluate.prologue params r) = true
  /\ Response._images (Evaluate.prologue params r) = Response._images r
  /\ Response._isError (Evaluate.prologue params r) = Response._isError r.
Proof.
  unfold Evaluate.prologue.
  destruct (ref params) as [x |], (element params) as [e |];
    try destruct (truthy_str x && truthy_str e);
    cbn [Response.addCode Response.setIncludeSnapshot Response._result Response._code
         Response._includeSnapshot Response._images Response._isError];
    rewrite ?length_app; cbn [List.length]; repeat split; lia.
Qed.

(** X19. Whatever the result and the parameters, each handler asks for the
    snapshot, records exactly one code line and exactly one result, and
    leaves the images and the error flag alone: an oversized result is
    data, never an error. *)
Theorem evaluate_handlers_record_once
        (result : option value) (params : EvaluateParams) (r : Response.t) :
  forall handler,
    handler = Evaluate.handle_budget_first \/ handler = Evaluate.handle_maxLength_first ->
    (exists text,
        Response._result (handler result params r) = (Response._result r ++ [text])%list)
    /\ List.length (Response._code (handler result params r))
       = S (List.length (Response._code r))
    /\ Response._includeSnapshot (handler result params r) = true
    /\ Response._images (handler result params r) = Response._images r
    /\ Response._isError (handler result params r) = Response._isError r.
Proof.
  intros handler Hh.
  destruct (prologue_frame params r) as (P1 & P2 & P3 & P4 & P5).
  assert (Hadd : forall s,
             (exists text,
                 Response._result (Response.addResult s (Evaluate.prologue params r))
                 = (Response._result r ++ [text])%list)
             /\ List.length (Response._code
                               (Response.addResult s (Evaluate.prologue params r)))
                = S (List.length (Response._code r))
             /\ Response._includeSnapshot
                  (Response.addResult s (Evaluate.prologue params r)) = true
             /\ Response._images (Response.addResult s (Evaluate.prologue params r))
                = Response._images r
             /\ Response._isError (Response.addResult s (Evaluate.prologue params r))
                = Response._isError r).
  { intros s. cbn [Response.addResult Response.with_result Response._result
                   Response._code Response._includeSnapshot Response._images
                   Response._isError].
    rewrite P1. split; [exists s; reflexivity | auto]. }
  destruct Hh as [-> | ->];
    [unfold Evaluate.handle_budget_first | unfold Evaluate.handle_maxLength_first];
    cbv zeta;
    repeat match goal with
           | |- context [if ?c then _ else _] => destruct c
           end;
    apply Hadd.
Qed.

End EvaluateMore.

(** X17, at the result [42] with [{maxLength: 1, returnSummary: true}]. *)
Lemma evaluate_handlers_agree_witness :
  let params := {| function := "() => 42"; element := None; ref := None;
                   maxLength := Some 1; returnSummary := Some true |} in
  (Response.estimatedTokens (Evaluate.jsonResult_of (Some (VNum 42))) <= 22000
   /\ (len (Evaluate.jsonResult_of (Some (VNum 42))) <= num_or (maxLength params) 10000
       \/ truthy_bool (returnSummary params) = true))
  /\ Evaluate.handle_budget_first (Some (VNum 42)) params Sample.response0
     = Evaluate.handle_maxLength_first (Some (VNum 42)) params Sample.response0.
Proof.
  cbv zeta.
  assert (H1 : Response.estimatedTokens (Evaluate.jsonResult_of (Some (VNum 42))) <= 22000)
    by (vm_compute; discriminate).
  assert (H2 : len (Evaluate.jsonResult_of (Some (VNum 42)))
               <= num_or (maxLength {| function := "() => 42"; element := None;
                                       ref := None; maxLength := Some 1;
                                       returnSummary := Some true |}) 10000
               \/ truthy_bool (returnSummary {| function := "() => 42"; element := None;
                                                ref := None; maxLength := Some 1;
                                                returnSummary := Some true |}) = true)
    by (right; reflexivity).
  split; [auto |].
  exact (evaluate_handlers_agree (Some (VNum 42)) _ Sample.response0 H1 H2).
Defined.

(** X18, at an 88006-unit result with [{maxLength: 100000}]: over the
    budget, and recorded in full. *)
Lemma maxLength_first_records_in_full_witness :
  let params := {| function := "() => document.body.innerText"; element := None;
                   ref := None; maxLength := Some 100000; returnSummary := None |} in
  let result := Some (VStr Sample.long_text) in
  (Response.estimatedTokens (Evaluate.jsonResult_of result) > 22000
   /\ len (Evaluate.jsonResult_of result) <= num_or (maxLength params) 10000)
  /\ Evaluate.handle_maxLength_first result params Sample.response0
     = Response.addResult (Evaluate.jsonResult_of result)
                          (Evaluate.prologue params Sample.response0).
Proof.
  cbv zeta.
  assert (H0 : Response.estimatedTokens
                 (Evaluate.jsonResult_of (Some (VStr Sample.long_text))) > 22000)
    by (vm_compute; reflexivity).
  assert (H1 : len (Evaluate.jsonResult_of (Some (VStr Sample.long_text)))
               <= num_or (Some 100000) 10000) by (vm_compute; discriminate).
  split; [auto |].
  exact (maxLength_first_records_in_full
           (Some (VStr Sample.long_text))
           {| function := "() => document.body.innerText"; element := None;
              ref := None; maxLength := Some 100000; returnSummary := None |}
           Sample.response0 (or_introl H1)).
Defined.

(** X19, at the handler that checks the budget first. *)
Lemma evaluate_handlers_record_once_witness :
  let params := {| function := "() => 42"; element := None; ref := None;
                   maxLength := None; returnSummary := None |} in
  exists text,
    Response._result (Evaluate.handle_budget_first (Some (VNum 42)) params Sample.response0)
    = (Response._result Sample.response0 ++ [text])%list.
Proof.
  cbv zeta.
  exact (proj1 (evaluate_handlers_record_once
                  (Some (VNum 42))
                  {| function := "() => 42"; element := None; ref := None;
                     maxLength := None; returnSummary := None |}
                  Sample.response0 Evaluate.handle_budget_first (or_introl eq_refl))).
Defined.

(** ** The translation of the log, in general *)

Section DelegateMore.

Lemma assistant_turn_content (text : string) (calls : option (list Claude.LLMToolCall)) :
  {| Claude.role := Claude.RAssistant;
     Claude.mcontent :=
       Claude.Blocks
         (match calls with
          | Some l =>
              ((if truthy_str text then [Claude.Text text] else [])
                 ++ map (fun toolCall =>
                           Claude.ToolUse (Claude.id toolCall) (Claude.name toolCall)
                                          (Claude.arguments toolCall)) l)%list
          | None => if truthy_str text then [Claude.Text text] else []
          end) |}
  = Spec.assistant_turn text (match calls with Some l => l | None => [] end).
Proof.
  unfold Spec.assistant_turn. destruct calls as [l |]; [reflexivity |].
  cbn [map]. now rewrite app_nil_r.
Qed.

(** One round of the loop: the turn of the entry is sent, a batch may be
    sent after it, and nothing else. *)
Lemma step_sent (all : list Claude.LLMMessage) (sent : list Claude.MessageParam)
      (pending : list Claude.ToolResultBlockParam) (m : Claude.LLMMessage) :
  exists flushed,
    fst (Claude.step all (sent, pending) m) = (sent ++ More.turn m ++ flushed)%list
    /\ (flushed = []
        \/ exists results, flushed = [Claude.batch results]).
Proof.
  destruct m as [c | c calls | i c e]; cbn [Claude.step More.turn fst].
  - exists []. split; [reflexivity | now left].
  - exists []. split; [| now left].
    rewrite app_nil_r. cbn [app]. f_equal. f_equal. apply assistant_turn_content.
  - destruct (Claude.lastAssistantMessage all) as [[? | ? [calls |] | ? ? ?] |];
      try (exists []; split; [now rewrite app_nil_r | now left]).
    destruct (Claude.covers _ _); cbn [fst app].
    + eexists. split; [reflexivity | right; eexists; reflexivity].
    + exists []. split; [now rewrite app_nil_r | now left].
Qed.

Lemma filter_turns (m : Claude.LLMMessage) :
  filter (fun x => negb (More.is_batch x)) (More.turn m) = More.turn m.
Proof. destruct m; reflexivity. Qed.

Lemma loop_turns (all : list Claude.LLMMessage) (l : list Claude.LLMMessage) :
  forall st,
    filter (fun x => negb (More.is_batch x)) (fst (fold_left (Claude.step all) l st))
    = (filter (fun x => negb (More.is_batch x)) (fst st) ++ flat_map More.turn l)%list.
Proof.
  induction l as [| m l IH]; intros [sent pending]; cbn [fold_left flat_map fst].
  - now rewrite app_nil_r.
  - rewrite IH.
    destruct (step_sent all sent pending m) as [flushed [E Hf]].
    rewrite E, !filter_app, filter_turns.
    destruct Hf as [-> | [results ->]];
      cbn [filter More.is_batch Claude.batch Claude.role Claude.mcontent negb];
      rewrite app_nil_r, <- app_assoc; reflexivity.
Qed.

(** X20. The translation never drops, alters or reorders a user or an
    assistant turn: without the tool-result batches, the messages sent
    are the turns of the log in order. *)
Theorem claudeMessages_keeps_turns (conversation : Claude.LLMConversation) :
  filter (fun m => negb (More.is_batch m)) (Claude.claudeMessages conversation)
  = flat_map More.turn (Claude.messages conversation).
Proof.
  unfold Claude.claudeMessages.
  pose proof (loop_turns (Claude.messages conversation) (Claude.messages conversation)
                         ([], [])) as E.
  destruct (fold_left _ _ _) as [sent pending]. cbn [fst filter app] in E.
  destruct (alen pending >? 0); [| exact E].
  rewrite filter_app, E. cbn [filter More.is_batch Claude.batch Claude.role
                                Claude.mcontent negb].
  now rewrite app_nil_r.
Qed.

Lemma Subseq_refl {A} (l : list A) : More.Subseq l l.
Proof. induction l; constructor; assumption. Qed.

Lemma Subseq_snoc {A} (a b : list A) (x : A) :
  More.Subseq a b -> More.Subseq (a ++ [x]) (b ++ [x]).
Proof.
  induction 1; cbn [app].
  - apply More.Subseq_take. constructor.
  - apply More.Subseq_skip. assumption.
  - apply More.Subseq_take. assumption.
Qed.

Lemma Subseq_skip_last {A} (a b : list A) (x : A) :
  More.Subseq a b -> More.Subseq a (b ++ [x]).
Proof.
  induction 1; cbn [app].
  - apply More.Subseq_skip. constructor.
  - apply More.Subseq_skip. assumption.
  - apply More.Subseq_take. assumption.
Qed.

Lemma Subseq_nil_l {A} (b : list A) : More.Subseq [] b.
Proof. induction b; constructor; assumption. Qed.

Lemma Subseq_drop {A} (a p b : list A) : More.Subseq (a ++ p) b -> More.Subseq a b.
Proof.
  revert a p. induction b as [| y b IH]; intros a p Hs.
  - inversion Hs as [E1 | |]. destruct a; [constructor | discriminate].
  - inversion Hs as [| x a' b' Hs' | x a' b' Hs' E1]; subst.
    + apply More.Subseq_skip. eapply IH. exact Hs'.
    + destruct a as [| z a].
      * apply Subseq_nil_l.
      * cbn [app] in E1. injection E1 as -> ->.
        apply More.Subseq_take. eapply IH. exact Hs'.
Qed.

Lemma results_of_batch (results : list Claude.ToolResultBlockParam) :
  Spec.results_of (Claude.batch results) = results.
Proof.
  unfold Spec.results_of, Claude.batch. cbn [Claude.mcontent].
  induction results as [| x results IH]; [reflexivity |].
  cbn [map flat_map app]. now rewrite IH.
Qed.

Lemma results_of_turn (m : Claude.LLMMessage) :
  flat_map Spec.results_of (More.turn m) = [].
Proof.
  destruct m as [c | c calls | i c e]; try reflexivity.
  cbn [More.turn flat_map]. rewrite app_nil_r.
  unfold Spec.results_of, Spec.assistant_turn. cbn [Claude.mcontent].
  rewrite flat_map_app.
  replace (flat_map _ (if truthy_str c then [Claude.Text c] else [])) with
    (@nil Claude.ToolResultBlockParam) by (destruct (truthy_str c); reflexivity).
  cbn [app]. induction (match calls with Some l => l | None => [] end) as [| x l IH];
    [reflexivity | exact IH].
Qed.

(** The invariant of the loop: what was sent and what is pending, in this
    order, is always part of the results met so far. *)
Lemma loop_results (all : list Claude.LLMMessage) (l : list Claude.LLMMessage) :
  forall sent pending seen,
    More.Subseq (flat_map Spec.results_of sent ++ pending) seen ->
    More.Subseq
      (flat_map Spec.results_of (fst (fold_left (Claude.step all) l (sent, pending)))
         ++ snd (fold_left (Claude.step all) l (sent, pending)))
      (seen ++ flat_map More.log_result l).
Proof.
  induction l as [| m l IH]; intros sent pending seen Hinv; cbn [fold_left flat_map].
  - now rewrite app_nil_r.
  - rewrite app_assoc.
    destruct (Claude.step all (sent, pending) m) as [sent' pending'] eqn:Estep.
    apply IH.
    destruct m as [c | c calls | i c e]; cbn [Claude.step More.log_result] in *.
    + injection Estep as <- <-. rewrite flat_map_app. cbn [flat_map Spec.results_of
        Claude.mcontent app]. rewrite !app_nil_r. exact Hinv.
    + injection Estep as <- <-. rewrite app_nil_r, flat_map_app.
      pose proof (results_of_turn (Claude.Assistant c calls)) as Et.
      cbn [More.turn] in Et. rewrite <- assistant_turn_content in Et.
      rewrite Et, app_nil_r.
      destruct calls as [l0 |]; [| exact Hinv].
      destruct (alen l0 >? 0); [| exact Hinv].
      rewrite app_nil_r. eapply Subseq_drop. exact Hinv.
    + assert (Hgrown :
                More.Subseq
                  (flat_map Spec.results_of sent
                     ++ (pending ++ [{| Claude.tool_use_id := i;
                                        Claude.result_content := c;
                                        Claude.is_error := e |}]))
                  (seen ++ [{| Claude.tool_use_id := i; Claude.result_content := c;
                               Claude.is_error := e |}]))
        by (rewrite app_assoc; apply Subseq_snoc; exact Hinv).
      destruct (Claude.lastAssistantMessage all) as [[? | ? [calls |] | ? ? ?] |];
        try (injection Estep as <- <-; exact Hgrown).
      destruct (Claude.covers _ _); injection Estep as <- <-; [| exact Hgrown].
      rewrite flat_map_app. cbn [flat_map]. rewrite results_of_batch, !app_nil_r.
      exact Hgrown.
Qed.

(** X21. The translation invents and repeats no tool result: the results
    it sends, batch after batch, are results of the log in the order of
    the log, each sent at most once (some may be left out). *)
Theorem claudeMessages_results_from_log (conversation : Claude.LLMConversation) :
  More.Subseq (flat_map Spec.results_of (Claude.claudeMessages conversation))
              (flat_map More.log_result (Claude.messages conversation)).
Proof.
  unfold Claude.claudeMessages.
  pose proof (loop_results (Claude.messages conversation) (Claude.messages conversation)
                           [] [] [] (More.Subseq_nil)) as Hinv.
  destruct (fold_left _ _ _) as [sent pending]. cbn [fst snd app] in Hinv.
  destruct pending as [| x pending].
  - cbn [alen List.length Z.of_nat Z.gtb Z.compare]. now rewrite app_nil_r in Hinv.
  - replace (alen (x :: pending) >? 0) with true by reflexivity.
    rewrite flat_map_app. cbn [flat_map]. now rewrite results_of_batch, app_nil_r.
Qed.

End DelegateMore.

Section DelegateTurns.

(** The loop over results that answer only the first calls of the last
    assistant turn: nothing is sent, the results stay pending. *)
Lemma results_of_last_turn_pending
      (all : list Claude.LLMMessage) (text : string) (calls : list Claude.LLMToolCall)
      (sent : list Claude.MessageParam) (missing : list string) :
  Claude.lastAssistantMessage all = Some (Claude.Assistant text (Some calls)) ->
  NoDup (map Claude.id calls) ->
  missing <> [] ->
  forall (rest held : list Spec.ToolOutcome),
    map Claude.id calls = (map Spec.outcome_id (held ++ rest) ++ missing)%list ->
    fold_left (Claude.step all) (map Spec.outcome_message rest)
              (sent, map Spec.outcome_block held)
    = (sent, map Spec.outcome_block (held ++ rest)).
Proof.
  intros Hlast Hnd Hmissing rest.
  induction rest as [| o rest IH]; intros held Hids.
  - now rewrite app_nil_r.
  - cbn [map fold_left].
    assert (Hre : (held ++ o :: rest)%list = ((held ++ [o]) ++ rest)%list)
      by (rewrite <- app_assoc; reflexivity).
    rewrite Hre in Hids. rewrite Hre.
    assert (Hcov : Claude.covers (map Spec.outcome_id (held ++ [o])) (map Claude.id calls)
                   = false).
    { rewrite Hids, (map_app Spec.outcome_id (held ++ [o]) rest), <- app_assoc.
      destruct (map Spec.outcome_id rest ++ missing)%list as [| j tl] eqn:Etl.
      - apply app_eq_nil in Etl. destruct Etl as [_ Em]. contradiction.
      - apply covers_partial.
        rewrite Hids, (map_app Spec.outcome_id (held ++ [o]) rest), <- app_assoc, Etl
          in Hnd.
        exact Hnd. }
    assert (Hstep :
              Claude.step all (sent, map Spec.outcome_block held) (Spec.outcome_message o)
              = (sent, map Spec.outcome_block (held ++ [o]))).
    { rewrite map_app. rewrite map_app in Hcov.
      destruct o as [[i c] e]. cbn [Spec.outcome_message Claude.step].
      rewrite Hlast. rewrite map_app, map_map, (map_ext _ _ outcome_block_id).
      cbn [map Spec.outcome_block Spec.outcome_id fst Claude.tool_use_id] in *.
      rewrite Hcov. reflexivity. }
    rewrite Hstep. apply IH. exact Hids.
Qed.

(** X22. Whatever the earlier log, the results that answer the first calls
    of the last assistant turn, in the order of the calls, are sent as one
    batch right after that turn and end the message list; this holds when
    they answer all the calls and also when later calls are still
    unanswered (the batch is then incomplete). *)
Theorem claudeMessages_last_turn_batch
        (before : list Claude.LLMMessage) (text : string)
        (calls : list Claude.LLMToolCall) (outcomes : list Spec.ToolOutcome)
        (missing : list string) (ts : list Claude.LLMTool) :
  outcomes <> [] ->
  NoDup (map Claude.id calls) ->
  map Claude.id calls = (map Spec.outcome_id outcomes ++ missing)%list ->
  exists earlier,
    Claude.claudeMessages
      {| Claude.messages :=
           (before ++ Claude.Assistant text (Some calls)
                   :: map Spec.outcome_message outcomes)%list;
         Claude.tools := ts |}
    = (earlier ++ [Spec.assistant_turn text calls;
                   Claude.batch (map Spec.outcome_block outcomes)])%list.
Proof.
  intros Hout Hnd Hids. unfold Claude.claudeMessages. cbn [Claude.messages].
  set (all := (before ++ Claude.Assistant text (Some calls)
                      :: map Spec.outcome_message outcomes)%list).
  assert (Hlast : Claude.lastAssistantMessage all
                  = Some (Claude.Assistant text (Some calls)))
    by apply lastAssistantMessage_trailing_results.
  unfold all at 2. rewrite fold_left_app.
  destruct (fold_left (Claude.step all) before ([], [])) as [sent0 pending0].
  cbn [fold_left Claude.step].
  assert (Hcalls : (alen calls >? 0) = true).
  { destruct calls as [| c calls]; [| reflexivity].
    destruct outcomes; [contradiction | discriminate]. }
  rewrite Hcalls.
  exists sent0.
  change (@nil Claude.ToolResultBlockParam) with (map Spec.outcome_block []).
  destruct missing as [| j missing].
  - rewrite app_nil_r in Hids.
    rewrite (results_of_last_turn_batched all text calls _ Hlast Hnd outcomes []
                                          (eq_sym Hids)).
    destruct outcomes as [| o outcomes]; [contradiction |].
    cbn [app alen List.length Z.of_nat Z.gtb Z.compare map].
    rewrite <- app_assoc. reflexivity.
  - rewrite (results_of_last_turn_pending all text calls _ (j :: missing) Hlast Hnd
                                          ltac:(discriminate) outcomes [] Hids).
    cbn [app].
    destruct outcomes as [| o outcomes]; [contradiction |].
    replace (alen (map Spec.outcome_block (o :: outcomes)) >? 0) with true by reflexivity.
    rewrite <- app_assoc. reflexivity.
Qed.

Lemma answer_calls (text : string) (calls : list Claude.LLMToolCall) :
  flat_map (fun b => match b with
                     | Claude.ToolUse i n a =>
                         [{| Claude.name := n; Claude.arguments := a; Claude.id := i |}]
                     | _ => []
                     end)
           (filter (fun b => match b with Claude.ToolUse _ _ _ => true | _ => false end)
                   (More.answer text calls))
  = calls.
Proof.
  unfold More.answer. rewrite filter_app.
  replace (filter _ (if truthy_str text then [Claude.Text text] else []))
    with (@nil Claude.ContentBlock) by (destruct (truthy_str text); reflexivity).
  cbn [app]. induction calls as [| [n a i] calls IH]; [reflexivity |].
  cbn [map filter More.tool_use flat_map app Claude.id Claude.name Claude.arguments].
  now rewrite IH.
Qed.

Lemma answer_text (text : string) (calls : list Claude.LLMToolCall) :
  join EmptyString
       (flat_map (fun b => match b with Claude.Text s => [s] | _ => [] end)
                 (More.answer text calls))
  = text.
Proof.
  unfold More.answer. rewrite flat_map_app.
  replace (flat_map _ (map More.tool_use calls)) with (@nil string)
    by (induction calls as [| c calls IH]; [reflexivity | exact IH]).
  rewrite app_nil_r. destruct text; reflexivity.
Qed.

(** What [makeApiCall] does with a provider answer made of an optional
    text and tool calls. *)
Lemma makeApiCall_answer (conversation : Claude.LLMConversation) (text : string)
      (calls : list Claude.LLMToolCall) :
  Claude.makeApiCall conversation (More.answer text calls)
  = ({| Claude.messages :=
          (Claude.messages conversation
             ++ [Claude.Assistant text (match calls with [] => None | _ => Some calls end)])%list;
        Claude.tools := Claude.tools conversation |},
     calls).
Proof.
  unfold Claude.makeApiCall. rewrite answer_calls, answer_text.
  destruct calls; reflexivity.
Qed.

(** X23. The first model call round-trips: when the provider answers the
    new conversation with an optional text followed by tool calls,
    [makeApiCall] returns exactly those calls, keeps the tool list, and
    the next request sends the task and then that answer, block for
    block. *)
Theorem first_answer_round_trip
        (task : string) (ts : list Claude.Tool) (oneShot : bool)
        (text : string) (calls : list Claude.LLMToolCall) :
  let conversation := Claude.createConversation task ts oneShot in
  let after := Claude.makeApiCall conversation (More.answer text calls) in
  snd after = calls
  /\ Claude.tools (fst after) = Claude.tools conversation
  /\ Claude.claudeMessages (fst after)
     = [Spec.user_turn task;
        {| Claude.role := Claude.RAssistant;
           Claude.mcontent := Claude.Blocks (More.answer text calls) |}].
Proof.
  cbv zeta. rewrite makeApiCall_answer. cbn [fst snd Claude.tools].
  split; [reflexivity | split; [reflexivity |]].
  unfold Claude.claudeMessages, Claude.createConversation.
  cbn [Claude.messages app fold_left Claude.step].
  destruct calls as [| c calls].
  - cbn [alen List.length Z.of_nat Z.gtb Z.compare app]. unfold More.answer.
    cbn [map]. now rewrite app_nil_r.
  - replace (alen (c :: calls) >? 0) with true by reflexivity.
    cbn [alen List.length Z.of_nat Z.gtb Z.compare app]. reflexivity.
Qed.

(** X24. The first round of a run composes as the provider expects: after
    [createConversation], an answer with tool calls (distinct ids) through
    [makeApiCall], and one result per call in the order of the calls
    through [addToolResults], the next request sends the task, the
    assistant turn, and one batch with exactly those results. *)
Theorem first_round_composes
        (task : string) (ts : list Claude.Tool) (oneShot : bool)
        (text : string) (calls : list Claude.LLMToolCall)
        (outcomes : list Spec.ToolOutcome) :
  calls <> [] ->
  NoDup (map Claude.id calls) ->
  map Spec.outcome_id outcomes = map Claude.id calls ->
  Claude.claudeMessages
    (Claude.addToolResults
       (fst (Claude.makeApiCall (Claude.createConversation task ts oneShot)
                                (More.answer text calls)))
       outcomes)
  = [Spec.user_turn task; Spec.assistant_turn text calls;
     Claude.batch (map Spec.outcome_block outcomes)].
Proof.
  intros Hcalls Hnd Hids. rewrite makeApiCall_answer. cbn [fst].
  unfold Claude.createConversation at 1. cbn [Claude.messages app].
  destruct calls as [| c calls]; [contradiction |].
  apply claudeMessages_single_turn; assumption.
Qed.

(** X25. [checkDoneToolCall] returns [null] exactly for a call with another
    name and for a call named [done] whose [result] property is [null]:
    a completion with the result [null] cannot be told from no completion;
    it returns [undefined] exactly for a call named [done] without a
    [result] property. *)
Theorem checkDoneToolCall_null_cases (toolCall : Claude.LLMToolCall) :
  (Claude.checkDoneToolCall toolCall = Claude.RetValue VNull
   <-> Claude.name toolCall <> "done"
       \/ get "result" (Claude.arguments toolCall) = Some VNull)
  /\ (Claude.checkDoneToolCall toolCall = Claude.RetUndefined
      <-> Claude.name toolCall = "done"
          /\ get "result" (Claude.arguments toolCall) = None).
Proof.
  unfold Claude.checkDoneToolCall.
  destruct (String.eqb_spec (Claude.name toolCall) "done") as [E | E].
  - destruct (get "result" (Claude.arguments toolCall)) as [v |].
    + split; split.
      * intros Hv. right. congruence.
      * intros [Hn | Hv]; [contradiction | congruence].
      * discriminate.
      * intros [_ Hv]. discriminate.
    + split; split.
      * discriminate.
      * intros [Hn | Hv]; [contradiction | discriminate].
      * intros _. split; [exact E | reflexivity].
      * reflexivity.
  - split; split.
    + intros _. left. exact E.
    + reflexivity.
    + discriminate.
    + intros [Hn _]. contradiction.
Qed.

End DelegateTurns.

(** X22, at a log with an earlier turn: the last turn calls [toolu_b] and
    [toolu_c], and only [toolu_b] is answered. *)
Lemma claudeMessages_last_turn_batch_witness :
  let call_c := {| Claude.name := "browser_snapshot"; Claude.arguments := [];
                   Claude.id := "toolu_c" |} in
  let before := [Claude.User "Fill in the form";
                 Claude.Assistant EmptyString (Some [Sample.call_a]);
                 Claude.ToolResult "toolu_a" "clicked" None] in
  let calls := [Sample.call_b; call_c] in
  let outcomes := [("toolu_b", "typed", None)] in
  (outcomes <> [] /\ NoDup (map Claude.id calls)
   /\ map Claude.id calls = (map Spec.outcome_id outcomes ++ ["toolu_c"])%list)
  /\ exists earlier,
       Claude.claudeMessages
         {| Claude.messages :=
              (before ++ Claude.Assistant "Typing" (Some calls)
                      :: map Spec.outcome_message outcomes)%list;
            Claude.tools := [] |}
       = (earlier ++ [Spec.assistant_turn "Typing" calls;
                      Claude.batch (map Spec.outcome_block outcomes)])%list.
Proof.
  cbv zeta.
  assert (H1 : [("toolu_b", "typed", @None bool)] <> []) by discriminate.
  assert (H2 : NoDup (map Claude.id
                          [Sample.call_b;
                           {| Claude.name := "browser_snapshot"; Claude.arguments := [];
                              Claude.id := "toolu_c" |}])).
  { cbn [map Claude.id Sample.call_b]. repeat constructor; cbn [In]; intuition discriminate. }
  assert (H3 : map Claude.id
                   [Sample.call_b;
                    {| Claude.name := "browser_snapshot"; Claude.arguments := [];
                       Claude.id := "toolu_c" |}]
               = (map Spec.outcome_id [("toolu_b", "typed", @None bool)] ++ ["toolu_c"])%list)
    by reflexivity.
  split; [auto |].
  exact (claudeMessages_last_turn_batch
           [Claude.User "Fill in the form";
            Claude.Assistant EmptyString (Some [Sample.call_a]);
            Claude.ToolResult "toolu_a" "clicked" None]
           "Typing" _ [("toolu_b", "typed", None)] ["toolu_c"] [] H1 H2 H3).
Defined.

(** X24, at a first round with two calls. *)
Lemma first_round_composes_witness :
  let calls := [Sample.call_a; Sample.call_b] in
  let outcomes := [("toolu_a", "clicked", None); ("toolu_b", "typed", Some false)] in
  (calls <> [] /\ NoDup (map Claude.id calls)
   /\ map Spec.outcome_id outcomes = map Claude.id calls)
  /\ Claude.claudeMessages
       (Claude.addToolResults
          (fst (Claude.makeApiCall (Claude.createConversation "Fill in the form" [] false)
                                   (More.answer "On it" calls)))
          outcomes)
     = [Spec.user_turn "Fill in the form"; Spec.assistant_turn "On it" calls;
        Claude.batch (map Spec.outcome_block outcomes)].
Proof.
  cbv zeta.
  assert (H1 : [Sample.call_a; Sample.call_b] <> []) by discriminate.
  assert (H2 : NoDup (map Claude.id [Sample.call_a; Sample.call_b])).
  { cbn [map Claude.id Sample.call_a Sample.call_b].
    repeat constructor; cbn [In]; intuition discriminate. }
  assert (H3 : map Spec.outcome_id
                   [("toolu_a", "clicked", @None bool); ("toolu_b", "typed", Some false)]
               = map Claude.id [Sample.call_a; Sample.call_b]) by reflexivity.
  split; [auto |].
  exact (first_round_composes "Fill in the form" [] false "On it"
                              [Sample.call_a; Sample.call_b] _ H1 H2 H3).
Defined.

(** ** The PDF tool *)

Section PdfClaims.
Context `{Host}.
Variable Scale : Type.
Variable formatObject : Pdf.Options Scale -> string.
Variable outputFile : string -> string.
Variable now : string.

Lemma given_some (a : option string) :
  Pdf.given a = true -> exists s, a = Some s /\ s <> EmptyString.
Proof.
  destruct a as [[| c s] |]; cbn [Pdf.given truthy_str]; try discriminate.
  intros _. eexists. split; [reflexivity | discriminate].
Qed.

(** X26. The options built for [page.pdf] always say one size and only
    one: either a paper format (the caller's, or A4 when the caller gives
    neither format nor dimensions) or custom dimensions (a width, a
    height or both), never a format together with a dimension; no empty
    string is passed on; and the description used in the result message
    is that format, or "custom size" when none is passed. *)
Theorem pdfOptions_one_size (fileName : string) (params : Pdf.Params Scale) :
  let options := Pdf.pdfOptions Scale fileName params in
  (Pdf.o_format Scale options = None
   <-> Pdf.o_width Scale options <> None \/ Pdf.o_height Scale options <> None)
  /\ (forall s, Pdf.o_format Scale options = Some s \/ Pdf.o_width Scale options = Some s
                \/ Pdf.o_height Scale options = Some s -> s <> EmptyString)
  /\ Pdf.formatDescription Scale params
     = match Pdf.o_format Scale options with
       | Some f => f
       | None => "custom size"
       end.
Proof.
  cbv zeta. unfold Pdf.pdfOptions, Pdf.formatDescription.
  cbn [Pdf.o_format Pdf.o_width Pdf.o_height].
  destruct (Pdf.given (Pdf.format Scale params)) eqn:Ef.
  - destruct (given_some _ Ef) as [f [Ef' Hf]]. rewrite Ef'.
    split; [split; [discriminate | intros [E | E]; congruence] |].
    split.
    + intros s [E | [E | E]]; congruence.
    + destruct f; [congruence | reflexivity].
  - assert (Edesc : match Pdf.format Scale params with
                    | Some f =>
                        if truthy_str f then f
                        else if Pdf.given (Pdf.width Scale params) || Pdf.given (Pdf.height Scale params)
                             then "custom size" else "A4"
                    | None =>
                        if Pdf.given (Pdf.width Scale params) || Pdf.given (Pdf.height Scale params)
                        then "custom size" else "A4"
                    end
                    = if Pdf.given (Pdf.width Scale params) || Pdf.given (Pdf.height Scale params)
                      then "custom size" else "A4").
    { destruct (Pdf.format Scale params) as [f |]; [| reflexivity].
      cbn [Pdf.given] in Ef. now rewrite Ef. }
    rewrite Edesc.
    destruct (Pdf.given (Pdf.width Scale params)) eqn:Ew;
      destruct (Pdf.given (Pdf.height Scale params)) eqn:Eh; cbn [orb];
      try (destruct (given_some _ Ew) as [w [Ew' Hw]]; rewrite Ew');
      try (destruct (given_some _ Eh) as [h [Eh' Hh]]; rewrite Eh');
      (split; [split; [try discriminate; intros _; first [left; discriminate | right; discriminate]
                      | intros [E | E]; congruence] |]);
      (split; [intros s [E | [E | E]]; try congruence; discriminate | reflexivity]).
Qed.

(** X27. The PDF handler reports what it does: the page is asked for the
    PDF last and once, media emulation comes before it exactly when a
    media type other than "print" is given (never for "print" or an empty
    one), every action on the page has its code line, and the one result
    names the path and the landscape setting of the options that were
    passed to the page; the error flag is untouched. *)
Theorem pdf_handle_reports_actions (params : Pdf.Params Scale) (r : Response.t) :
  let outcome := Pdf.handle Scale formatObject outputFile now params r in
  exists options,
    snd outcome
    = ((match Pdf.emulateMedia Scale params with
        | Some m =>
            if truthy_str m && negb (String.eqb m "print")
            then [Pdf.EmulateMedia Scale m] else []
        | None => []
        end) ++ [Pdf.PagePdf Scale options])%list
    /\ List.length (Response._code (fst outcome))
       = (List.length (Response._code r) + List.length (snd outcome))%nat
    /\ Response._result (fst outcome)
       = (Response._result r
            ++ [("Saved full page as PDF (" ++ Pdf.formatDescription Scale params ++ ", "
                   ++ (match Pdf.o_landscape Scale options with
                       | Some true => "landscape"
                       | _ => "portrait"
                       end)
                   ++ ") to " ++ Pdf.path Scale options)%string])%list
    /\ Response._isError (fst outcome) = Response._isError r.
Proof.
  cbv zeta. unfold Pdf.handle. cbv zeta.
  eexists.
  assert (Emedia :
            negb (String.eqb (Pdf.mediaType Scale params) "print")
            = match Pdf.emulateMedia Scale params with
              | Some m => truthy_str m && negb (String.eqb m "print")
              | None => false
              end).
  { unfold Pdf.mediaType. destruct (Pdf.emulateMedia Scale params) as [[| c m] |]; reflexivity. }
  assert (Eorient :
            Pdf.orientationDescription Scale params
            = match Pdf.landscape Scale params with
              | Some true => "landscape"
              | _ => "portrait"
              end).
  { unfold Pdf.orientationDescription. destruct (Pdf.landscape Scale params) as [[|] |]; reflexivity. }
  rewrite Emedia, Eorient.
  destruct (Pdf.emulateMedia Scale params) as [m |] eqn:Em.
  - assert (Emt : truthy_str m = true -> Pdf.mediaType Scale params = m).
    { unfold Pdf.mediaType. rewrite Em. now intros ->. }
    destruct (truthy_str m && negb (String.eqb m "print")) eqn:Ec.
    + apply andb_prop in Ec. destruct Ec as [Et _]. rewrite (Emt Et).
      cbn [fst snd app Response.addCode Response.addResult Response.with_result
           Response._code Response._result Response._isError Pdf.pdfOptions
           Pdf.o_landscape Pdf.path].
      rewrite !length_app. cbn [List.length].
      split; [reflexivity | split; [lia | split; reflexivity]].
    + cbn [fst snd app Response.addCode Response.addResult Response.with_result
           Response._code Response._result Response._isError Pdf.pdfOptions
           Pdf.o_landscape Pdf.path].
      rewrite !length_app. cbn [List.length].
      split; [reflexivity | split; [lia | split; reflexivity]].
  - cbn [fst snd app Response.addCode Response.addResult Response.with_result
         Response._code Response._result Response._isError Pdf.pdfOptions
         Pdf.o_landscape Pdf.path].
    rewrite !length_app. cbn [List.length].
    split; [reflexivity | split; [lia | split; reflexivity]].
Qed.

End PdfClaims.
